(** * FoxDot composer: session store, call dispatch, context manager and
      streaming turn engine

    A shallow embedding of [src/core/session.py], [src/core/functions.py]
    and [src/core/streaming_agent.py], with the properties of the
    specification stated and settled against it, followed by further
    properties of the same code.

    Conventions of the embedding.
    - A Python value of type [Any] is a [pyval].  A [float] is an IEEE
      binary64 number, represented by Corelib's [spec_float] and computed
      with its correctly rounded operations.
    - An f-string is kept as a [template]: its literal pieces and the values
      it interpolates, in order.  No property below depends on how [str()]
      renders a number; whether a string is empty does not depend on it
      either, and that is all [if not code] asks.
    - A function that can raise returns a [res]; code that mutates objects is
      written in a state monad over [World], where a raise keeps the
      mutations made so far, as in Python.
    - What lies outside the repository (the FoxDot runtime behind
      [FoxDotExecutor.execute], the builtin [eval], the wall clock, the
      replies of the generative model) is an explicit input.  The builtin
      [eval] runs the [notes] expression in the frame of
      [execute_function]: it is a computation on the objects that frame
      holds, and nothing is assumed of it.
    - An object used as a key of the layer dictionary is kept up to the
      equality a [dict] compares keys with.
    - A turn is the generator [chat_stream] run until it is exhausted; the
      events it yields are collected in order. *)

From Stdlib Require Import ZArith QArith Qpower Qcanon List String Ascii Bool Lia.
From Corelib Require Import SpecFloat.
From stdpp Require Import base tactics option list countable gmap strings pretty.

Open Scope Z_scope.
Open Scope string_scope.
Open Scope list_scope.

Set Warnings "-register-all".

(* ===================================================================== *)
(** * Python values *)
(* ===================================================================== *)

(** A dictionary value keeps its items in insertion order, as [dict] does:
    the order is what [items()] iterates in. *)
Inductive pyval : Type :=
| VNone
| VBool (b : bool)
| VInt (z : Z)
| VFloat (f : spec_float)
| VStr (s : string)
| VList (l : list pyval)
| VDict (items : list (string * pyval)).

Definition str_nonempty (s : string) : bool :=
  match s with EmptyString => false | String _ _ => true end.

(** Truth value of a Python object ([bool(v)]). *)
Definition py_truthy (v : pyval) : bool :=
  match v with
  | VNone => false
  | VBool b => b
  | VInt z => negb (z =? 0)%Z
  | VFloat (S754_zero _) => false
  | VFloat _ => true
  | VStr s => str_nonempty s
  | VList l => match l with [] => false | _ => true end
  | VDict d => match d with [] => false | _ => true end
  end.

(** [v == s] for a string literal [s]. *)
Definition py_eq_str (v : pyval) (s : string) : bool :=
  match v with VStr s' => String.eqb s' s | _ => false end.

(** Binary64 arithmetic. *)
Definition prec : Z := 53.
Definition emax : Z := 1024.

Definition float_of_Z (z : Z) : spec_float := binary_normalize prec emax z 0 false.
Definition float_mul : spec_float -> spec_float -> spec_float := SFmul prec emax.
Definition float_div : spec_float -> spec_float -> spec_float := SFdiv prec emax.

(** The float a decimal literal such as [0.7] denotes: the quotient [n/d]
    of two exactly representable integers, correctly rounded
    ([decimal 7 10] is the double nearest to 0.7). *)
Definition decimal (n : Z) (d : Z) : spec_float :=
  float_div (float_of_Z n) (float_of_Z d).

(** ** Formatted text *)

Inductive piece : Type :=
| Lit (s : string)       (* literal text of an f-string *)
| Hole (v : pyval).      (* [{v}]: the text [str(v)] *)

Definition template := list piece.

(** [str(v)] is the empty string only when [v] is the empty string. *)
Definition piece_nonempty (p : piece) : bool :=
  match p with
  | Lit s => str_nonempty s
  | Hole (VStr s) => str_nonempty s
  | Hole _ => true
  end.

Definition template_nonempty (t : template) : bool := existsb piece_nonempty t.

(** The one-character string holding a double quote. *)
Definition dquote : string := String (ascii_of_nat 34) EmptyString.

(** The one-character string holding a line feed, [chr(10)]. *)
Definition newline : string := String (ascii_of_nat 10) EmptyString.

(** [sep.join(parts)] *)
Fixpoint join (sep : string) (parts : list template) : template :=
  match parts with
  | [] => []
  | [t] => t
  | t :: rest => t ++ Lit sep :: join sep rest
  end.

(** What [build_foxdot_code] hands back: text it formatted itself, or an
    object it passes through untouched ([args['code']], [None]).  The two
    constructors tell how the value was obtained, not what it is: a text
    that was formatted and a string that was passed through can be the
    same [str].  [code_str] gives the [str] a code is, where the embedding
    knows it. *)
Inductive code_value : Type :=
| Built (t : template)
| Passed (v : pyval).

Definition code_truthy (c : code_value) : bool :=
  match c with
  | Built t => template_nonempty t
  | Passed v => py_truthy v
  end.



Definition code_is_str (c : code_value) : bool :=
  match c with
  | Built _ => true
  | Passed (VStr _) => true
  | Passed _ => false
  end.

(** ** Exceptions and results *)

Inductive exn : Type :=
| Exception (class : string) (detail : string).

Definition KeyError (key : string) : exn := Exception "KeyError" key.
Definition TypeError (detail : string) : exn := Exception "TypeError" detail.
Definition OverflowError (detail : string) : exn := Exception "OverflowError" detail.

Inductive res (A : Type) : Type :=
| Ok (a : A)
| Raise (e : exn).
Arguments Ok {A} a.
Arguments Raise {A} e.

Definition res_bind {A B} (r : res A) (k : A -> res B) : res B :=
  match r with Ok a => k a | Raise e => Raise e end.

Definition is_ok {A} (r : res A) : bool :=
  match r with Ok _ => true | Raise _ => false end.

(** The value returned, if any. *)
Definition returned {A} (r : res A) : option A :=
  match r with Ok a => Some a | Raise _ => None end.

(** ** Slices *)

(** [l[start:]], for any integer [start]: a negative one counts from the
    end, and both are clipped to the list. *)
Definition py_slice_from {A} (start : Z) (l : list A) : list A :=
  let n := Z.of_nat (length l) in
  let i := (if start <? 0 then Z.max (start + n) 0 else Z.min start n)%Z in
  drop (Z.to_nat i) l.

(** [l[:stop]], for any integer [stop], clipped in the same way. *)
Definition py_slice_to {A} (stop : Z) (l : list A) : list A :=
  let n := Z.of_nat (length l) in
  let j := (if stop <? 0 then Z.max (stop + n) 0 else Z.min stop n)%Z in
  take (Z.to_nat j) l.

(** ** Dictionaries of call arguments *)

(** [args[key]] *)
Definition index (args : gmap string pyval) (key : string) : res pyval :=
  match args !! key with
  | Some v => Ok v
  | None => Raise (KeyError key)
  end.

(** [args.get(key, default)] *)
Definition get (args : gmap string pyval) (key : string) (default : pyval) : pyval :=
  match args !! key with
  | Some v => v
  | None => default
  end.

(** ** Keys of the layer dictionary *)

(** [active_layers] is a [dict]: it takes any hashable object as a key,
    and two objects are one key when they are equal.  A key is kept up to
    that equality: a string, [None], a number by its exact value (so that
    [1], [1.0] and [True] are one key), an infinity.  A NaN equals no
    object, and is found again only as the very same object: the one NaN
    key stands for one NaN object. *)
Inductive pykey : Type :=
| KNone
| KStr (s : string)
| KNum (value : Qc)
| KInf (negative : bool)
| KNaN.

#[global] Instance pykey_eq_dec : EqDecision pykey.
Proof. solve_decision. Defined.

#[global] Instance pykey_countable : Countable pykey.
Proof.
  refine (inj_countable'
            (fun k => match k with
                      | KNone => inl (inl tt)
                      | KStr s => inl (inr s)
                      | KNum value => inr (inl value)
                      | KInf negative => inr (inr (inl negative))
                      | KNaN => inr (inr (inr tt))
                      end)
            (fun x => match x with
                      | inl (inl _) => KNone
                      | inl (inr s) => KStr s
                      | inr (inl value) => KNum value
                      | inr (inr (inl negative)) => KInf negative
                      | inr (inr (inr _)) => KNaN
                      end) _).
  by intros [].
Defined.

(** The exact value of a finite float. *)
Definition float_value (negative : bool) (m : positive) (e : Z) : Q :=
  (inject_Z (cond_Zopp negative (Zpos m)) * 2 ^ e)%Q.

(** The key an object is, where a dictionary hashes it: a list or a
    dictionary is unhashable. *)
Definition key_of (v : pyval) : res pykey :=
  match v with
  | VNone => Ok KNone
  | VBool b => Ok (KNum (Q2Qc (inject_Z (if b then 1 else 0))))
  | VInt z => Ok (KNum (Q2Qc (inject_Z z)))
  | VFloat (S754_zero _) => Ok (KNum (Q2Qc 0))
  | VFloat (S754_infinity negative) => Ok (KInf negative)
  | VFloat S754_nan => Ok KNaN
  | VFloat (S754_finite negative m e) => Ok (KNum (Q2Qc (float_value negative m e)))
  | VStr s => Ok (KStr s)
  | VList _ | VDict _ => Raise (TypeError "unhashable type")
  end.

(** [d[k] = v] on an insertion-ordered dictionary. *)
Fixpoint dict_set (k : string) (v : pyval) (d : list (string * pyval)) : list (string * pyval) :=
  match d with
  | [] => [(k, v)]
  | (k', v') :: rest =>
      if String.eqb k' k then (k, v) :: rest else (k', v') :: dict_set k v rest
  end.

(** [{**a, **b}] *)
Definition dict_merge (a b : list (string * pyval)) : list (string * pyval) :=
  fold_left (fun acc kv => dict_set (fst kv) (snd kv) acc) b a.

(** The mapping behind a [**] unpacking or an [.items()] call. *)
Definition as_mapping (v : pyval) : res (list (string * pyval)) :=
  match v with
  | VDict d => Ok d
  | _ => Raise (TypeError "not a mapping")
  end.

(* ===================================================================== *)
(** * session.py *)
(* ===================================================================== *)

Inductive PlayerState : Type := STOPPED | PLAYING | PAUSED.

Module Layer.
(** [@dataclass class Layer] *)
Record t : Type := mk {
  player_name : pykey;
  synth : pyval;
  code : code_value;
  description : pyval;
  state : PlayerState;
  created_at : string;
  modified_at : string;
  notes : pyval;
  pattern : pyval;
  dur : pyval;
  amp : pyval;
  oct : pyval;
  effects : pyval
}.

(** [layer.created_at = ts] *)
Definition set_created_at (ts : string) (l : t) : t :=
  mk (player_name l) (synth l) (code l) (description l) (state l) ts
     (modified_at l) (notes l) (pattern l) (dur l) (amp l) (oct l) (effects l).
End Layer.

Module ChatMessage.
Record t : Type := mk {
  role : string;
  content : string;
  timestamp : string;
  code_generated : option template;
  layers_affected : list string
}.
End ChatMessage.

Module MusicState.
Record t : Type := mk {
  bpm : pyval;
  scale : pyval;
  root : pyval;
  active_layers : gmap pykey Layer.t
}.

(** The dataclass defaults. *)
Definition default : t := mk (VInt 120) (VStr "major") (VStr "C") ∅.
End MusicState.

(** One entry of [code_history]. *)
Record CodeExecution : Type := {
  ce_timestamp : string;
  ce_code : code_value;
  ce_success : bool;
  ce_output : string
}.

(** The text of [get_context_summary] is rendered from the music state and
    the last five chat messages; the embedding keeps what is rendered. *)
Record ContextSummary : Type := {
  shown_state : MusicState.t;
  shown_messages : list ChatMessage.t
}.

(** The session: its state, the methods the dispatcher and the agent
    call, and [get_next_player].  ([update_layer] is called nowhere in the
    repository; the renderers and the persistence are left out.)  A
    method that takes a player name takes the key that object is: the
    caller hashes it, which is where an unhashable object raises. *)
Module FoxDotSession.
Record t : Type := mk {
  session_id : string;
  created_at : string;
  music_state : MusicState.t;
  chat_history : list ChatMessage.t;
  code_history : list CodeExecution
}.

(** [__init__]; the two strings are the clock readings it formats. *)
Definition init (session_id created_at : string) : t :=
  mk session_id created_at MusicState.default [] [].

Definition with_music_state (ms : MusicState.t) (s : t) : t :=
  mk (session_id s) (created_at s) ms (chat_history s) (code_history s).

Definition with_layers (layers : gmap pykey Layer.t) (s : t) : t :=
  let ms := music_state s in
  with_music_state
    (MusicState.mk (MusicState.bpm ms) (MusicState.scale ms) (MusicState.root ms) layers) s.

Definition active_layers (s : t) : gmap pykey Layer.t :=
  MusicState.active_layers (music_state s).

(** [add_layer]: [now_created] and [now_modified] are the two clock
    readings the [Layer] constructor takes for its default fields. *)
Definition add_layer (player_name : pykey) (synth : pyval) (code : code_value)
    (description : pyval) (musical_props : gmap string pyval)
    (now_created now_modified : string) (s : t) : t * Layer.t :=
  let layer :=
    Layer.mk player_name synth code description PLAYING now_created now_modified
      (get musical_props "notes" VNone)
      (get musical_props "pattern" VNone)
      (get musical_props "dur" VNone)
      (get musical_props "amp" VNone)
      (get musical_props "oct" VNone)
      (get musical_props "effects" (VDict [])) in
  (* If player exists, mark as modified *)
  let layer :=
    match active_layers s !! player_name with
    | Some old => Layer.set_created_at (Layer.created_at old) layer
    | None => layer
    end in
  (with_layers (<[player_name := layer]> (active_layers s)) s, layer).

Definition remove_layer (player_name : pykey) (s : t) : t * bool :=
  match active_layers s !! player_name with
  | Some _ => (with_layers (delete player_name (active_layers s)) s, true)
  | None => (s, false)
  end.

Definition get_layer (player_name : pykey) (s : t) : option Layer.t :=
  active_layers s !! player_name.

Definition set_tempo (bpm : pyval) (s : t) : t :=
  let ms := music_state s in
  with_music_state
    (MusicState.mk bpm (MusicState.scale ms) (MusicState.root ms)
       (MusicState.active_layers ms)) s.

Definition set_scale (scale : pyval) (s : t) : t :=
  let ms := music_state s in
  with_music_state
    (MusicState.mk (MusicState.bpm ms) scale (MusicState.root ms)
       (MusicState.active_layers ms)) s.

Definition set_root (root : pyval) (s : t) : t :=
  let ms := music_state s in
  with_music_state
    (MusicState.mk (MusicState.bpm ms) (MusicState.scale ms) root
       (MusicState.active_layers ms)) s.

Definition clear_all (s : t) : t := with_layers ∅ s.

Definition add_chat_message (role content : string)
    (code_generated : option template) (layers_affected : option (list string))
    (now : string) (s : t) : t * ChatMessage.t :=
  let message :=
    ChatMessage.mk role content now code_generated
      (match layers_affected with Some l => l | None => [] end) in
  (mk (session_id s) (created_at s) (music_state s)
      (chat_history s ++ [message]) (code_history s), message).

Definition add_code_execution (code : code_value) (success : bool) (output : string)
    (now : string) (s : t) : t :=
  mk (session_id s) (created_at s) (music_state s) (chat_history s)
     (code_history s ++ [Build_CodeExecution now code success output]).

Definition get_context_summary (s : t) : ContextSummary :=
  {| shown_state := music_state s;
     shown_messages := py_slice_from (-5) (chat_history s) |}.

(** [[f"{prefix}{i}" for i in range(start, stop)]] *)
Definition player_names (prefix : string) (start stop : nat) : list string :=
  (fun i => prefix +:+ pretty i) <$> seq start (stop - start).

(** Available player names *)
Definition MELODIC_PLAYERS : list string := player_names "p" 1 10.
Definition DRUM_PLAYERS : list string := player_names "d" 1 10.
Definition BASS_PLAYERS : list string := player_names "b" 1 5.
Definition PAD_PLAYERS : list string := player_names "pad" 1 4.

(** [player_name in self.music_state.active_layers] *)
Definition has_layer (player_name : pykey) (s : t) : bool :=
  match active_layers s !! player_name with Some _ => true | None => false end.

(** The list [get_next_player] picks from. *)
Definition players_for (player_type : string) : list string :=
  if String.eqb player_type "drums" || String.eqb player_type "percussion"
  then DRUM_PLAYERS
  else if String.eqb player_type "bass" then BASS_PLAYERS
  else if String.eqb player_type "pad" then PAD_PLAYERS
  else MELODIC_PLAYERS.

Definition get_next_player (player_type : string) (s : t) : res string :=
  let players := players_for player_type in
  match List.find (fun player => negb (has_layer (KStr player) s)) players with
  | Some player => Ok player
  | None =>
      (* If all used, return first one (will replace) *)
      match players with
      | first :: _ => Ok first
      | [] => Raise (Exception "IndexError" "list index out of range")
      end
  end.
End FoxDotSession.

(* ===================================================================== *)
(** * Stateful code: a state monad with exceptions *)
(* ===================================================================== *)

(** A computation over a mutable state [S] that returns or raises.  The
    state after a raise holds the mutations made before it. *)
Definition M (S A : Type) : Type := S -> res A * S.

Definition ret {S A} (a : A) : M S A := fun s => (Ok a, s).

Definition raise {S A} (e : exn) : M S A := fun s => (Raise e, s).

Definition bind {S A B} (m : M S A) (k : A -> M S B) : M S B :=
  fun s =>
    match m s with
    | (Ok a, s') => k a s'
    | (Raise e, s') => (Raise e, s')
    end.

Definition lift_res {S A} (r : res A) : M S A := fun s => (r, s).

Definition gets {S A} (f : S -> A) : M S A := fun s => (Ok (f s), s).

Definition modify {S} (f : S -> S) : M S unit := fun s => (Ok tt, f s).

(** [try: body  except Exception as e: handler e] *)
Definition try_except {S A} (body : M S A) (handler : exn -> M S A) : M S A :=
  fun s =>
    match body s with
    | (Ok a, s') => (Ok a, s')
    | (Raise e, s') => handler e s'
    end.

(** [for x in l: body x], threading the loop's local variables [acc]. *)
Fixpoint for_each {S A L} (l : list A) (body : L -> A -> M S L) (acc : L) : M S L :=
  match l with
  | [] => ret acc
  | x :: rest => bind (body acc x) (for_each rest body)
  end.

Declare Scope py_scope.
Delimit Scope py_scope with py.
Notation "x <- m ;; k" := (bind m (fun x => k))
  (at level 100, m at next level, right associativity) : py_scope.
Notation "m ;; k" := (bind m (fun _ => k))
  (at level 100, right associativity) : py_scope.
Open Scope py_scope.

(* ===================================================================== *)
(** * executor.py, at its interface *)
(* ===================================================================== *)

(** The fields of [ExecutionResult] that the dispatcher reads. *)
Record ExecutionResult : Type := {
  success : bool;
  output : string;
  error : option string;
  players_affected : list string
}.

(** One call of [FoxDotExecutor.execute(code, explanation)]. *)
Record Invocation : Type := {
  inv_code : code_value;
  inv_explanation : pyval
}.

Module FoxDotExecutor.
(** The executor keeps a runtime alive across executions; what it answers
    may depend on everything it was asked before.  Its state here is the
    history of the calls of [execute], oldest first. *)
Record t : Type := mk { calls : list Invocation }.

Definition init : t := mk [].
End FoxDotExecutor.

(** The objects [execute_function] works on, and the clock. *)
Record Machine : Type := {
  session : FoxDotSession.t;
  executor : FoxDotExecutor.t;
  ticks : nat
}.

(** The frame of [execute_function] where [eval] is called: its
    parameters [func_name], [args] and [auto_execute] and its local
    [code].  (The other names are [session] and [executor], which the
    machine holds, and [player], [synth] and [desc], which were bound to
    [args['player']], [args.get('synth', 'play')] and
    [args.get('description', 'Layer')].) *)
Record Frame : Type := {
  frame_func_name : string;
  frame_args : gmap string pyval;
  frame_code : code_value;
  frame_auto_execute : bool
}.

(** What an evaluation leaves when it returns: the value of the
    expression, the dictionary [args], and the objects [synth] and [desc]
    are bound to. *)
Record Evaluated : Type := {
  value : pyval;
  args_left : gmap string pyval;
  synth_left : pyval;
  desc_left : pyval
}.

(** The object a name is bound to once foreign code has run, when the
    name was bound to [before] and the code leaves [after] in its place:
    the code cannot bind the name again, but it can mutate a list or a
    dictionary, which is then still a list or a dictionary. *)
Definition in_place (before after : pyval) : pyval :=
  match before, after with
  | VList _, VList _ | VDict _, VDict _ => after
  | _, _ => before
  end.

(** What an expression without effect leaves when its value is [v]. *)
Definition untouched (frame : Frame) (v : pyval) : Evaluated :=
  {| value := v;
     args_left := frame_args frame;
     synth_left := get (frame_args frame) "synth" (VStr "play");
     desc_left := get (frame_args frame) "description" (VStr "Layer") |}.

(** What the process finds outside the repository. *)
Record Host : Type := {
  (** the FoxDot runtime: the outcome of the last call of a history *)
  runtime : list Invocation -> ExecutionResult;
  (** the builtin [eval] on the [notes] argument.  [eval(source)] runs the
    expression in the frame of [execute_function]: the expression can read
    every name of the frame, and it can call and mutate the objects they
    are bound to, among them the dictionary [args], the session and the
    executor.  It returns or raises, and either way leaves the session
    and the executor in some state. *)
  py_eval : Frame -> pyval -> M Machine Evaluated;
  (** [datetime.datetime.now().isoformat()] at the n-th reading *)
  wall_clock : nat -> string
}.

Definition with_session (f : FoxDotSession.t -> FoxDotSession.t) (m : Machine) : Machine :=
  {| session := f (session m); executor := executor m; ticks := ticks m |}.

Section Effects.
Context (host : Host).

Definition now : M Machine string :=
  fun m =>
    (Ok (wall_clock host (ticks m)),
     {| session := session m; executor := executor m; ticks := S (ticks m) |}).

(** [executor.execute(code, explanation)].  It scans the code with a
    regular expression before anything else, which raises on an object
    that is not a string; past that point every failure of the code is
    caught and reported in the result. *)
Definition executor_execute (code : code_value) (explanation : pyval)
    : M Machine ExecutionResult :=
  fun m =>
    let history :=
      FoxDotExecutor.calls (executor m)
        ++ [{| inv_code := code; inv_explanation := explanation |}] in
    let m' :=
      {| session := session m; executor := FoxDotExecutor.mk history;
         ticks := ticks m |} in
    if code_is_str code then (Ok (runtime host history), m')
    else (Raise (TypeError "expected string or bytes-like object"), m').

(** [executor.stop_all()] *)
Definition executor_stop_all : M Machine ExecutionResult :=
  executor_execute (Built [Lit "Clock.clear()"]) (VStr "Stop all music").
End Effects.

(* ===================================================================== *)
(** * functions.py *)
(* ===================================================================== *)

(** ** The declarations *)

(** A JSON schema as the declarations write one: a dictionary with a
    ["type"] and, when it has them, a ["description"], an ["enum"],
    ["properties"] and ["required"]. *)
Inductive Schema : Type :=
| SchemaOf (type : string) (description : option string)
    (enum : option (list string))
    (properties : option (list (string * Schema)))
    (required : option (list string)).

Definition schema_type (s : Schema) : string :=
  match s with SchemaOf type _ _ _ _ => type end.

Definition schema_enum (s : Schema) : option (list string) :=
  match s with SchemaOf _ _ enum _ _ => enum end.

Definition schema_properties (s : Schema) : list (string * Schema) :=
  match s with SchemaOf _ _ _ properties _ => default [] properties end.

Definition schema_required (s : Schema) : list string :=
  match s with SchemaOf _ _ _ _ required => default [] required end.

(** [{"type": type}] *)
Definition bare (type : string) : Schema := SchemaOf type None None None None.

(** [{"type": type, "description": description}] *)
Definition described (type description : string) : Schema :=
  SchemaOf type (Some description) None None None.

(** [{"type": type, "description": description, "enum": enum}] *)
Definition one_of (type description : string) (enum : list string) : Schema :=
  SchemaOf type (Some description) (Some enum) None None.

(** [{"type": "object", "description": description, "properties": properties}] *)
Definition effects_schema (description : option string)
    (properties : list (string * Schema)) : Schema :=
  SchemaOf "object" description None (Some properties) None.

(** [{"type": "object", "properties": properties, "required": required}] *)
Definition parameters_schema (properties : list (string * Schema))
    (required : list string) : Schema :=
  SchemaOf "object" None None (Some properties) (Some required).

(** A function declaration: [{"name", "description", "parameters"}]. *)
Record Declaration : Type := {
  decl_name : string;
  decl_description : string;
  decl_parameters : Schema
}.

Definition PLAY_SYNTH_FUNCTION : Declaration :=
  {| decl_name := "play_synth";
     decl_description :=
       "Play a melodic synthesizer with specified notes and parameters."
       +:+ newline
       +:+ "    Use this to create melodies, basslines, chord progressions, and lead lines."
       +:+ newline
       +:+ "    The synth will play on a specific player (p1-p9, b1-b4, etc.).";
     decl_parameters :=
       parameters_schema
         [ ("player",
            one_of "string"
              "Player name (p1-p9 for melody, b1-b4 for bass, pad1-pad3 for pads)"
              ["p1"; "p2"; "p3"; "p4"; "p5"; "p6"; "p7"; "p8"; "p9";
               "b1"; "b2"; "b3"; "b4"; "pad1"; "pad2"; "pad3"]);
           ("synth",
            described "string"
              "Synth name (pluck, bass, keys, piano, pads, blip, saw, etc.)");
           ("notes",
            described "string"
              "Notes pattern as Python list string, e.g., '[0, 2, 4, 7]' or '[(0,2,4), 1, 2]' for chords");
           ("dur",
            described "string" "Duration pattern, e.g., '1', '[1, 0.5, 0.5]', '1/4'");
           ("amp", described "number" "Amplitude/volume (0.0 to 1.0)");
           ("oct", described "integer" "Octave (3-7, default 5)");
           ("description",
            described "string" "Human-readable description of this layer");
           ("effects",
            effects_schema (Some "Optional effects like room, lpf, vib, slide, etc.")
              [ ("room", described "number" "Reverb amount (0-1)");
                ("lpf", described "integer" "Low-pass filter frequency");
                ("hpf", described "integer" "High-pass filter frequency");
                ("vib", described "number" "Vibrato depth");
                ("slide", described "number" "Pitch slide amount");
                ("chop", described "integer" "Chop into pieces");
                ("pan", described "number" "Stereo pan (-1 to 1)") ]) ]
         ["player"; "synth"; "notes"; "description"] |}.

Definition PLAY_DRUMS_FUNCTION : Declaration :=
  {| decl_name := "play_drums";
     decl_description :=
       "Play a drum/percussion pattern using sample characters."
       +:+ newline
       +:+ "    Use 'x' for kick, 'o' for snare, '-' for hi-hat, '*' for clap, etc."
       +:+ newline
       +:+ "    Special brackets: [] for subdivision, () for alternation, {} for random.";
     decl_parameters :=
       parameters_schema
         [ ("player",
            one_of "string" "Drum player name (d1-d9)"
              ["d1"; "d2"; "d3"; "d4"; "d5"; "d6"; "d7"; "d8"; "d9"]);
           ("pattern",
            described "string" "Drum pattern string, e.g., 'x-o-x-o-' or 'x--o--x-o-'");
           ("dur", described "string" "Duration pattern, e.g., '1', '0.5', '[1, 0.5]'");
           ("amp", described "number" "Amplitude/volume (0.0 to 1.0)");
           ("description",
            described "string" "Human-readable description of this drum pattern");
           ("effects",
            effects_schema (Some "Optional effects")
              [ ("room", bare "number");
                ("sample", described "integer" "Sample variation number");
                ("rate", described "number" "Playback rate");
                ("pan", bare "number");
                ("lpf", bare "integer");
                ("coarse", described "integer" "Bit crush amount") ]) ]
         ["player"; "pattern"; "description"] |}.

Definition SET_TEMPO_FUNCTION : Declaration :=
  {| decl_name := "set_tempo";
     decl_description :=
       "Set the tempo in beats per minute (BPM). Typical ranges: ambient 60-90, hip-hop 85-115, house 120-130, techno 125-150, drum & bass 160-180.";
     decl_parameters :=
       parameters_schema
         [ ("bpm", described "integer" "Tempo in beats per minute (40-200)") ]
         ["bpm"] |}.

Definition SET_SCALE_FUNCTION : Declaration :=
  {| decl_name := "set_scale";
     decl_description :=
       "Set the musical scale for all players. Available: major, minor, dorian, phrygian, lydian, mixolydian, pentatonic, blues, etc.";
     decl_parameters :=
       parameters_schema
         [ ("scale",
            one_of "string" "Scale name"
              ["major"; "minor"; "dorian"; "phrygian"; "lydian"; "mixolydian";
               "locrian"; "pentatonic"; "minorPentatonic"; "blues"; "harmonicMinor";
               "melodicMinor"; "whole"; "chromatic"; "egyptian"; "japanese";
               "chinese"]) ]
         ["scale"] |}.

Definition SET_ROOT_FUNCTION : Declaration :=
  {| decl_name := "set_root";
     decl_description := "Set the root note (key) for all players.";
     decl_parameters :=
       parameters_schema
         [ ("root",
            one_of "string" "Root note name"
              ["C"; "C#"; "D"; "D#"; "E"; "F"; "F#"; "G"; "G#"; "A"; "A#"; "B";
               "Db"; "Eb"; "Gb"; "Ab"; "Bb"]) ]
         ["root"] |}.

Definition STOP_PLAYER_FUNCTION : Declaration :=
  {| decl_name := "stop_player";
     decl_description := "Stop a specific player from playing.";
     decl_parameters :=
       parameters_schema
         [ ("player",
            described "string" "Player name to stop (p1-p9, d1-d9, b1-b4, etc.)") ]
         ["player"] |}.

Definition STOP_ALL_FUNCTION : Declaration :=
  {| decl_name := "stop_all";
     decl_description :=
       "Stop all music and clear all players. Use when user wants silence or to start fresh.";
     decl_parameters := parameters_schema [] [] |}.

Definition MODIFY_LAYER_FUNCTION : Declaration :=
  {| decl_name := "modify_layer";
     decl_description :=
       "Modify an existing layer's parameters without changing its core pattern.";
     decl_parameters :=
       parameters_schema
         [ ("player", described "string" "Player name to modify");
           ("amp", described "number" "New amplitude");
           ("oct", described "integer" "New octave");
           ("effects",
            effects_schema (Some "Effects to add/change")
              [ ("room", bare "number"); ("lpf", bare "integer");
                ("hpf", bare "integer"); ("vib", bare "number");
                ("pan", bare "number"); ("chop", bare "integer") ]) ]
         ["player"] |}.

Definition EXECUTE_CODE_FUNCTION : Declaration :=
  {| decl_name := "execute_code";
     decl_description :=
       "Execute raw FoxDot code directly. Use for advanced patterns or features not covered by other functions.";
     decl_parameters :=
       parameters_schema
         [ ("code", described "string" "Raw FoxDot Python code to execute");
           ("description", described "string" "Description of what the code does") ]
         ["code"; "description"] |}.

Definition GET_SESSION_STATE_FUNCTION : Declaration :=
  {| decl_name := "get_session_state";
     decl_description :=
       "Get the current state of the music session including all active layers, tempo, scale, etc.";
     decl_parameters := parameters_schema [] [] |}.

(** All function declarations for export *)
Definition ALL_FUNCTION_DECLARATIONS : list Declaration :=
  [ PLAY_SYNTH_FUNCTION; PLAY_DRUMS_FUNCTION; SET_TEMPO_FUNCTION;
    SET_SCALE_FUNCTION; SET_ROOT_FUNCTION; STOP_PLAYER_FUNCTION;
    STOP_ALL_FUNCTION; MODIFY_LAYER_FUNCTION; EXECUTE_CODE_FUNCTION;
    GET_SESSION_STATE_FUNCTION ].

(** Helper to get function info by name *)
Definition get_function_info (name : string) : option Declaration :=
  List.find (fun func => String.eqb (decl_name func) name) ALL_FUNCTION_DECLARATIONS.

(** The names of [ALL_FUNCTION_DECLARATIONS], in order. *)
Definition catalog : list string :=
  [ "play_synth"; "play_drums"; "set_tempo"; "set_scale"; "set_root";
    "stop_player"; "stop_all"; "modify_layer"; "execute_code";
    "get_session_state" ].

(** A [str] is required where a value is joined into text. *)
Definition expect_str (v : pyval) : res string :=
  match v with
  | VStr s => Ok s
  | _ => Raise (TypeError "sequence item: expected str instance")
  end.

(** [v.items()] *)
Definition items_of (v : pyval) : res (list (string * pyval)) :=
  match v with
  | VDict d => Ok d
  | _ => Raise (Exception "AttributeError" "items")
  end.

(** [f"{name}={v}"] *)
Definition param (name : string) (v : pyval) : template :=
  [Lit (name +:+ "="); Hole v].

(** [for effect, value in effects.items(): params.append(f"{effect}={value}")] *)
Definition effect_params (effects : list (string * pyval)) : list template :=
  map (fun kv => [Hole (VStr (fst kv)); Lit "="; Hole (snd kv)]) effects.

Notation "x <~ r ; k" := (res_bind r (fun x => k))
  (at level 100, r at next level, right associativity, only parsing) : py_scope.

Definition build_foxdot_code (func_name : string) (args : gmap string pyval)
    (session : FoxDotSession.t) : res code_value :=
  if String.eqb func_name "play_synth" then
    player <~ index args "player";
    synth <~ index args "synth";
    notes <~ index args "notes";
    let dur := get args "dur" (VStr "1") in
    let amp := get args "amp" (VFloat (decimal 7 10)) in
    let oct_val := get args "oct" (VInt 5) in
    let effects := get args "effects" (VDict []) in
    let params := [param "dur" dur; param "amp" amp; param "oct" oct_val] in
    effects <~ items_of effects;
    let params := params ++ effect_params effects in
    (* params[0] is [notes] itself: join needs it to be a str *)
    notes <~ expect_str notes;
    Ok (Built ([Hole player; Lit " >> "; Hole synth; Lit "("]
                 ++ join ", " ([Lit notes] :: params) ++ [Lit ")"]))
  else if String.eqb func_name "play_drums" then
    player <~ index args "player";
    pattern <~ index args "pattern";
    let dur := get args "dur" (VStr "0.5") in
    let amp := get args "amp" (VFloat (decimal 8 10)) in
    let effects := get args "effects" (VDict []) in
    let params :=
      [[Lit dquote; Hole pattern; Lit dquote]; param "dur" dur; param "amp" amp] in
    effects <~ items_of effects;
    let params := params ++ effect_params effects in
    Ok (Built ([Hole player; Lit " >> play("] ++ join ", " params ++ [Lit ")"]))
  else if String.eqb func_name "set_tempo" then
    bpm <~ index args "bpm";
    Ok (Built [Lit "Clock.bpm = "; Hole bpm])
  else if String.eqb func_name "set_scale" then
    scale <~ index args "scale";
    Ok (Built [Lit "Scale.default = Scale."; Hole scale])
  else if String.eqb func_name "set_root" then
    root <~ index args "root";
    Ok (Built [Lit "Root.default = "; Lit dquote; Hole root; Lit dquote])
  else if String.eqb func_name "stop_player" then
    player <~ index args "player";
    Ok (Built [Hole player; Lit ".stop()"])
  else if String.eqb func_name "stop_all" then
    Ok (Built [Lit "Clock.clear()"])
  else if String.eqb func_name "modify_layer" then
    player <~ index args "player";
    key <~ key_of player;
    match FoxDotSession.get_layer key session with
    | None => Ok (Built [Lit "# Error: Player "; Hole player; Lit " not found"])
    | Some layer =>
        let new_amp := get args "amp" (Layer.amp layer) in
        let new_oct := get args "oct" (Layer.oct layer) in
        old_effects <~ as_mapping (Layer.effects layer);
        more_effects <~ as_mapping (get args "effects" (VDict []));
        let new_effects := dict_merge old_effects more_effects in
        let params :=
          if py_eq_str (Layer.synth layer) "play"
          then [[Lit dquote; Hole (Layer.pattern layer); Lit dquote]]
          else [[Hole (Layer.notes layer)]] in
        let params :=
          if py_truthy (Layer.dur layer)
          then params ++ [param "dur" (Layer.dur layer)] else params in
        let params :=
          if py_truthy new_amp then params ++ [param "amp" new_amp] else params in
        let params :=
          if py_truthy new_oct then params ++ [param "oct" new_oct] else params in
        let params := params ++ effect_params new_effects in
        Ok (Built ([Hole player; Lit " >> "; Hole (Layer.synth layer); Lit "("]
                     ++ join ", " params ++ [Lit ")"]))
    end
  else if String.eqb func_name "execute_code" then
    code <~ index args "code";
    Ok (Passed code)
  else if String.eqb func_name "get_session_state" then
    Ok (Passed VNone)
  else
    Ok (Built [Lit "# Unknown function: "; Hole (VStr func_name)]).

(** The dictionary [execute_function] returns, by its shape. *)
Inductive CallResult : Type :=
| StateResult (state : ContextSummary)
    (* {"status": "success", "state": ...} *)
| BuildFailure
    (* {"status": "error", "message": "Could not build code for function"} *)
| Executed (result : ExecutionResult) (code : code_value)
    (* {"status": ..., "code", "output", "error", "players_affected"} *)
| Generated (code : code_value).
    (* {"status": "code_generated", "code", "message"} *)

(** [result["status"]] *)
Definition status (r : CallResult) : string :=
  match r with
  | StateResult _ => "success"
  | BuildFailure => "error"
  | Executed result _ => if success result then "success" else "error"
  | Generated _ => "code_generated"
  end.

(** [result.get("code")] *)
Definition result_code (r : CallResult) : option code_value :=
  match r with
  | Executed _ code | Generated code => Some code
  | StateResult _ | BuildFailure => None
  end.

Section Dispatch.
Context (host : Host).

(** [eval(args['notes']) if 'notes' in args else None], with what is then
    bound to [args], [synth] and [desc]. *)
Definition evaluate_notes (frame : Frame) (synth desc : pyval) : M Machine Evaluated :=
  match frame_args frame !! "notes" with
  | Some source =>
      evaluated <- py_eval host frame source;;
      ret {| value := value evaluated;
             args_left := args_left evaluated;
             synth_left := in_place synth (synth_left evaluated);
             desc_left := in_place desc (desc_left evaluated) |}
  | None =>
      ret {| value := VNone; args_left := frame_args frame;
             synth_left := synth; desc_left := desc |}
  end.

(** The keyword arguments [notes], [pattern], [dur], [amp], [oct] and
    [effects] of the call of [add_layer]: [args] is read once [notes] has
    been evaluated. *)
Definition musical_props (evaluated : Evaluated) : gmap string pyval :=
  let args := args_left evaluated in
  <["notes" := value evaluated]>
  (<["pattern" := get args "pattern" VNone]>
  (<["dur" := get args "dur" VNone]>
  (<["amp" := get args "amp" VNone]>
  (<["oct" := get args "oct" VNone]>
  (<["effects" := get args "effects" (VDict [])]> ∅))))).

(** The block under [# Update session state].  It returns the dictionary
    [args], which the evaluation of [notes] may have changed. *)
Definition update_session_state (func_name : string) (args : gmap string pyval)
    (code : code_value) (auto_execute : bool) : M Machine (gmap string pyval) :=
  if String.eqb func_name "set_tempo" then
    bpm <- lift_res (index args "bpm");;
    modify (with_session (FoxDotSession.set_tempo bpm));;
    ret args
  else if String.eqb func_name "set_scale" then
    scale <- lift_res (index args "scale");;
    modify (with_session (FoxDotSession.set_scale scale));;
    ret args
  else if String.eqb func_name "set_root" then
    root <- lift_res (index args "root");;
    modify (with_session (FoxDotSession.set_root root));;
    ret args
  else if String.eqb func_name "stop_all" then
    modify (with_session FoxDotSession.clear_all);;
    ret args
  else if String.eqb func_name "stop_player" then
    player <- lift_res (index args "player");;
    key <- lift_res (key_of player);;
    modify (with_session (fun s => fst (FoxDotSession.remove_layer key s)));;
    ret args
  else if String.eqb func_name "play_synth" || String.eqb func_name "play_drums" then
    player <- lift_res (index args "player");;
    let synth := get args "synth" (VStr "play") in
    let desc := get args "description" (VStr "Layer") in
    evaluated <- evaluate_notes
                   {| frame_func_name := func_name; frame_args := args;
                      frame_code := code; frame_auto_execute := auto_execute |}
                   synth desc;;
    (* add_layer builds the Layer, then looks the player up *)
    now_created <- now host;;
    now_modified <- now host;;
    key <- lift_res (key_of player);;
    modify (with_session (fun s =>
      fst (FoxDotSession.add_layer key (synth_left evaluated) code
             (desc_left evaluated) (musical_props evaluated)
             now_created now_modified s)));;
    ret (args_left evaluated)
  else ret args.

(** [execute_function], with the dictionary [args] as the call leaves
    it: the caller holds the same dictionary. *)
Definition execute_function_on (func_name : string) (args : gmap string pyval)
    (auto_execute : bool) : M Machine (CallResult * gmap string pyval) :=
  (* Handle get_session_state specially *)
  if String.eqb func_name "get_session_state" then
    s <- gets session;;
    ret (StateResult (FoxDotSession.get_context_summary s), args)
  else
    (* Build the code *)
    s <- gets session;;
    code <- lift_res (build_foxdot_code func_name args s);;
    if negb (code_truthy code) then ret (BuildFailure, args)
    else
      (* Update session state *)
      args <- update_session_state func_name args code auto_execute;;
      (* Execute if enabled *)
      if auto_execute then
        result <- executor_execute host code (get args "description" VNone);;
        stamp <- now host;;
        modify (with_session
                  (FoxDotSession.add_code_execution code (success result)
                     (output result) stamp));;
        ret (Executed result code, args)
      else ret (Generated code, args).

Definition execute_function (func_name : string) (args : gmap string pyval)
    (auto_execute : bool) : M Machine CallResult :=
  answer <- execute_function_on func_name args auto_execute;;
  ret (fst answer).
End Dispatch.

(* ===================================================================== *)
(** * streaming_agent.py: the context manager *)
(* ===================================================================== *)

(** An entry of [function_calls_made]: [{"name", "args", "result"}]. *)
Record CallRecord : Type := {
  call_name : string;
  call_args : gmap string pyval;
  call_result : CallResult
}.

Module ConversationTurn.
Record t : Type := mk {
  role : string;
  content : string;
  thinking : option string;
  function_calls : list CallRecord;
  token_count : Z;
  timestamp : string
}.
End ConversationTurn.

(** [z * f] for an [int] and a [float]: the integer is converted first,
    and the conversion raises when it does not fit. *)
Definition int_times_float (z : Z) (f : spec_float) : res spec_float :=
  match float_of_Z z with
  | S754_infinity _ => Raise (OverflowError "int too large to convert to float")
  | zf => Ok (float_mul zf f)
  end.

(** [z > f] for an [int] and a [float]: Python compares the exact values. *)
Definition int_gt_float (z : Z) (f : spec_float) : bool :=
  match f with
  | S754_nan => false
  | S754_infinity negative => negative
  | S754_zero _ => (0 <? z)%Z
  | S754_finite s m e =>
      let v := cond_Zopp s (Zpos m) in
      if (0 <=? e)%Z then (v * 2 ^ e <? z)%Z else (v <? z * 2 ^ (- e))%Z
  end.

(** What [z > f] means: the exact value of [f], a rational when it is
    finite, lies strictly below [z]. *)
Definition float_below (f : spec_float) (z : Z) : Prop :=
  match f with
  | S754_nan => False
  | S754_infinity negative => negative = true
  | S754_zero _ => (0 < z)%Z
  | S754_finite s m e => (inject_Z (cond_Zopp s (Zpos m)) * 2 ^ e < inject_Z z)%Q
  end.

(** [sum(t.token_count for t in turns)] *)
Definition sum_token_counts (turns : list ConversationTurn.t) : Z :=
  fold_right (fun t acc => ConversationTurn.token_count t + acc)%Z 0%Z turns.

Module ContextManager.
Record t : Type := mk {
  max_tokens : Z;
  consolidation_threshold : spec_float;
  keep_recent_turns : Z;
  turns : list ConversationTurn.t;
  consolidated_summary : option string;
  total_tokens : Z
}.

(** [__init__]; the defaults are 100000, 0.7 and 5. *)
Definition init (max_tokens : Z) (consolidation_threshold : spec_float)
    (keep_recent_turns : Z) : t :=
  mk max_tokens consolidation_threshold keep_recent_turns [] None 0.

Definition add_turn (turn : ConversationTurn.t) (cm : t) : t :=
  mk (max_tokens cm) (consolidation_threshold cm) (keep_recent_turns cm)
     (turns cm ++ [turn]) (consolidated_summary cm)
     (total_tokens cm + ConversationTurn.token_count turn).

(** Rough token estimation (4 chars per token average).  [len(text)]
    counts code points; a character of a [string] stands for one. *)
Definition estimate_tokens (text : string) : Z :=
  Z.of_nat (String.length text) / 4.

(** [self.max_tokens * self.consolidation_threshold] *)
Definition threshold (cm : t) : res spec_float :=
  int_times_float (max_tokens cm) (consolidation_threshold cm).

Definition needs_consolidation (cm : t) : res bool :=
  limit <~ threshold cm;
  Ok (int_gt_float (total_tokens cm) limit).

Definition consolidate (summary : string) (cm : t) : t :=
  (* Keep only recent turns *)
  let kept := py_slice_from (- keep_recent_turns cm) (turns cm) in
  mk (max_tokens cm) (consolidation_threshold cm) (keep_recent_turns cm)
     kept (Some summary)
     (sum_token_counts kept + estimate_tokens summary).

Definition clear (cm : t) : t :=
  mk (max_tokens cm) (consolidation_threshold cm) (keep_recent_turns cm)
     [] None 0.

(** The turns [get_consolidation_prompt] asks the model to summarise. *)
Definition old_turns (cm : t) : list ConversationTurn.t :=
  if (keep_recent_turns cm <? Z.of_nat (length (turns cm)))%Z
  then py_slice_to (- keep_recent_turns cm) (turns cm)
  else [].

(** The lines one turn adds to [turn_texts]. *)
Definition turn_texts (turn : ConversationTurn.t) : list string :=
  (ConversationTurn.role turn +:+ ": "
     +:+ substring 0 500 (ConversationTurn.content turn) +:+ "...")
  :: match ConversationTurn.function_calls turn with
     | [] => []
     | calls =>
         ["  [Functions called: " +:+ String.concat ", " (map call_name calls) +:+ "]"]
     end.

Definition get_consolidation_prompt (cm : t) : string :=
  match old_turns cm with
  | [] => EmptyString
  | old =>
      "Summarize the following conversation history into a concise summary that preserves:"
      +:+ newline +:+ "1. Key musical decisions made (tempo, scale, instruments)"
      +:+ newline +:+ "2. User preferences discovered"
      +:+ newline +:+ "3. Current state of the composition"
      +:+ newline +:+ "4. Any important context for future requests"
      +:+ newline +:+ newline +:+ "Conversation:"
      +:+ newline +:+ String.concat newline (flat_map turn_texts old)
      +:+ newline +:+ newline +:+ "Provide a brief summary (2-3 paragraphs max):"
  end.
End ContextManager.

(* ===================================================================== *)
(** * streaming_agent.py: the streaming agent *)
(* ===================================================================== *)

Inductive StreamEventType : Type :=
| THINKING_START | THINKING_CHUNK | THINKING_END
| TEXT_START | TEXT_CHUNK | TEXT_END
| FUNCTION_CALL_START | FUNCTION_CALL | FUNCTION_RESULT | FUNCTION_CALL_END
| ERROR | DONE.

(** The [data] of an event, by what the agent puts there. *)
Inductive EventData : Type :=
| NoData
| Text (s : string)
| CallData (name : string) (args : gmap string pyval)
| ResultData (name : string) (result : CallResult)
| ErrorData (e : exn)                  (* [str(e)] *)
| ContinuationErrorData (e : exn)      (* [f"Continuation error: {e}"] *)
| DoneData (response thinking : string) (function_calls : list CallRecord).

Module StreamEvent.
Record t : Type := mk {
  type : StreamEventType;
  data : EventData;
  timestamp : string
}.
End StreamEvent.

(** ** What the model sends *)

Record FunctionCall : Type := {
  fc_name : string;
  fc_args : option (gmap string pyval)       (* [None] when the call has none *)
}.

(** A part of a streamed chunk. *)
Record Part : Type := {
  thought : bool;
  text : option string;
  function_call : option FunctionCall
}.

(** A response stream: the chunks it delivers, each with the parts of its
    first candidate (none when the chunk has no candidate or no part), and
    how it ends: exhausted, or raising.  A delta that cannot be read is a
    stream that raises at that point. *)
Record Stream : Type := {
  chunks : list (list Part);
  failure : option exn
}.

(** ** The outbound conversation buffer *)

Inductive ContentPart : Type :=
| TextPart (s : string)
| FunctionResponse (name : string) (result : CallResult).

Record Content : Type := {
  content_role : string;
  content_parts : list ContentPart
}.

(** ** The agent *)

(** The agent's objects, and the events its generator has yielded. *)
Record World : Type := {
  machine : Machine;
  context_manager : ContextManager.t;
  contents : list Content;
  emitted : list StreamEvent.t
}.

Definition on_machine {A} (m : M Machine A) : M World A :=
  fun w =>
    let (r, m') := m (machine w) in
    (r, {| machine := m'; context_manager := context_manager w;
           contents := contents w; emitted := emitted w |}).

Definition with_context_manager (f : ContextManager.t -> ContextManager.t) (w : World) : World :=
  {| machine := machine w; context_manager := f (context_manager w);
     contents := contents w; emitted := emitted w |}.

Definition contents_append (c : Content) (w : World) : World :=
  {| machine := machine w; context_manager := context_manager w;
     contents := contents w ++ [c]; emitted := emitted w |}.

Definition emitted_append (ev : StreamEvent.t) (w : World) : World :=
  {| machine := machine w; context_manager := context_manager w;
     contents := contents w; emitted := emitted w ++ [ev] |}.

(** The local variables of [chat_stream]. *)
Record Locals : Type := {
  function_calls_made : list CallRecord;
  full_thinking : string;
  full_response : string;
  is_thinking : bool;
  is_responding : bool
}.

Definition text_of (p : Part) : string :=
  match text p with Some s => s | None => "" end.

(** [x.text] is truthy *)
Definition has_text (p : Part) : bool := str_nonempty (text_of p).

(** The text of a code, where [join] needs a [str]. *)
Definition code_text (c : code_value) : res template :=
  match c with
  | Built t => Ok t
  | Passed (VStr s) => Ok [Lit s]
  | Passed _ => Raise (TypeError "sequence item: expected str instance")
  end.

Fixpoint all_ok {A} (l : list (res A)) : res (list A) :=
  match l with
  | [] => Ok []
  | r :: rest => x <~ r; xs <~ all_ok rest; Ok (x :: xs)
  end.

(** ["\n".join(fc["result"].get("code", "") for fc in calls
               if fc["result"].get("code"))] *)
Definition join_generated_code (calls : list CallRecord) : res template :=
  let codes :=
    filter (fun c => code_truthy c = true)
      (omap (fun fc => result_code (call_result fc)) calls) in
  texts <~ all_ok (map code_text codes);
  Ok (join (String (ascii_of_nat 10) EmptyString) texts).

(** [event.data or ""], where [+=] appends it to a [str]. *)
Definition data_text (d : EventData) : res string :=
  match d with
  | NoData => Ok ""
  | Text s => Ok s
  | _ => Raise (TypeError "can only concatenate str")
  end.

(** The loop of [collect_stream], in [chat]: the chunks are accumulated
    until a [DONE] event, whose data replaces the result. *)
Fixpoint collect_stream (events : list StreamEvent.t) (response thinking : string)
    : res EventData :=
  match events with
  | [] => Ok (DoneData response thinking [])
  | event :: rest =>
      match StreamEvent.type event with
      | THINKING_CHUNK =>
          s <~ data_text (StreamEvent.data event);
          collect_stream rest response (thinking +:+ s)
      | TEXT_CHUNK =>
          s <~ data_text (StreamEvent.data event);
          collect_stream rest (response +:+ s) thinking
      | DONE => Ok (StreamEvent.data event)
      | _ => collect_stream rest response thinking
      end
  end.

Module StreamingFoxDotAgent.
Section Agent.
Context (host : Host).
(** [self.auto_execute]; the two callbacks are left unset, as
    [__init__] leaves them. *)
Context (auto_execute : bool).

(** [yield StreamEvent(type, data)] *)
Definition yield_event (type : StreamEventType) (data : EventData) : M World unit :=
  stamp <- on_machine (now host);;
  modify (emitted_append (StreamEvent.mk type data stamp)).

(** [_execute_function], with [args] as the call leaves it. *)
Definition _execute_function (func_name : string) (args : gmap string pyval)
    : M World (CallResult * gmap string pyval) :=
  on_machine (execute_function_on host func_name args auto_execute).

(** [if is_thinking: is_thinking = False; yield THINKING_END] *)
Definition close_thinking (l : Locals) : M World Locals :=
  if is_thinking l then
    yield_event THINKING_END (Text (full_thinking l));;
    ret {| function_calls_made := function_calls_made l;
           full_thinking := full_thinking l; full_response := full_response l;
           is_thinking := false; is_responding := is_responding l |}
  else ret l.

(** The body of [for part in chunk.candidates[0].content.parts]. *)
Definition handle_part (l : Locals) (part : Part) : M World Locals :=
  (* Handle thinking parts *)
  if thought part && has_text part then
    (if is_thinking l then ret tt else yield_event THINKING_START NoData);;
    yield_event THINKING_CHUNK (Text (text_of part));;
    ret {| function_calls_made := function_calls_made l;
           full_thinking := full_thinking l +:+ text_of part;
           full_response := full_response l;
           is_thinking := true; is_responding := is_responding l |}
  else
    match function_call part with
    (* Handle function calls *)
    | Some fc =>
        l <- close_thinking l;;
        let func_name := fc_name fc in
        func_args <- lift_res (match fc_args fc with
                               | Some a => Ok a
                               | None => Raise (TypeError "'NoneType' object is not iterable")
                               end);;
        yield_event FUNCTION_CALL_START NoData;;
        yield_event FUNCTION_CALL (CallData func_name func_args);;
        (* Execute function *)
        answer <- _execute_function func_name func_args;;
        let result := fst answer in
        let func_args := snd answer in
        let made :=
          function_calls_made l
            ++ [{| call_name := func_name; call_args := func_args;
                   call_result := result |}] in
        yield_event FUNCTION_RESULT (ResultData func_name result);;
        yield_event FUNCTION_CALL_END NoData;;
        ret {| function_calls_made := made;
               full_thinking := full_thinking l; full_response := full_response l;
               is_thinking := is_thinking l; is_responding := is_responding l |}
    | None =>
        (* Handle text response *)
        if has_text part then
          l <- close_thinking l;;
          (if is_responding l then ret tt else yield_event TEXT_START NoData);;
          yield_event TEXT_CHUNK (Text (text_of part));;
          ret {| function_calls_made := function_calls_made l;
                 full_thinking := full_thinking l;
                 full_response := full_response l +:+ text_of part;
                 is_thinking := is_thinking l; is_responding := true |}
        else ret l
    end.

(** [for chunk in stream: for part in ...parts: body], then the end of
    the stream. *)
Definition consume {L} (stream : Stream) (body : L -> Part -> M World L) (l : L)
    : M World L :=
  l <- for_each (chunks stream) (fun l chunk => for_each chunk body l) l;;
  match failure stream with
  | Some e => raise e
  | None => ret l
  end.

Definition function_responses (calls : list CallRecord) : list ContentPart :=
  map (fun fc => FunctionResponse (call_name fc) (call_result fc)) calls.

(** The loop body of [_continue_after_functions]; its locals are
    [(is_responding, continuation)]. *)
Definition continuation_part (l : bool * string) (part : Part) : M World (bool * string) :=
  if has_text part && negb (thought part) then
    (if fst l then ret tt else yield_event TEXT_START NoData);;
    yield_event TEXT_CHUNK (Text (text_of part));;
    ret (true, snd l +:+ text_of part)
  else ret l.

Definition _continue_after_functions (function_calls : list CallRecord)
    (continuation : Stream) : M World unit :=
  (* Build function response content *)
  modify (contents_append
            {| content_role := "user";
               content_parts := function_responses function_calls |});;
  (* Generate continuation *)
  try_except
    (l <- consume continuation continuation_part (false, "");;
     if fst l then yield_event TEXT_END (Text (snd l)) else ret tt)
    (fun e => yield_event ERROR (ContinuationErrorData e)).

(** The consolidation block that opens [chat_stream].  [summary_reply]
    is what the summarisation request does: raise, or answer with a text
    or with none.  ([get_consolidation_prompt()] renders the text of the
    request and changes nothing.) *)
Definition consolidation_step (summary_reply : res (option string)) : M World unit :=
  cm <- gets context_manager;;
  needed <- lift_res (ContextManager.needs_consolidation cm);;
  if needed : bool then
    yield_event THINKING_START (Text "Consolidating context...");;
    summary_response <- lift_res summary_reply;;
    (match summary_response with
     | Some summary =>
         if str_nonempty summary
         then modify (with_context_manager (ContextManager.consolidate summary))
         else ret tt
     | None => ret tt
     end);;
    yield_event THINKING_END (Text "Context consolidated")
  else ret tt.

(** The statements of [chat_stream] under [try:], up to the end of the
    first stream. *)
Definition first_pass (stream : Stream) : M World Locals :=
  l <- consume stream handle_part
         {| function_calls_made := []; full_thinking := ""; full_response := "";
            is_thinking := false; is_responding := false |};;
  (* End states *)
  (if is_thinking l then yield_event THINKING_END (Text (full_thinking l)) else ret tt);;
  (if is_responding l then yield_event TEXT_END (Text (full_response l)) else ret tt);;
  ret l.

(** From [# Add to context manager] to the [DONE] event. *)
Definition finalize (l : Locals) : M World unit :=
  stamp <- on_machine (now host);;
  let turn :=
    ConversationTurn.mk "assistant" (full_response l)
      (if str_nonempty (full_thinking l) then Some (full_thinking l) else None)
      (function_calls_made l)
      (ContextManager.estimate_tokens (full_response l +:+ full_thinking l))
      stamp in
  modify (with_context_manager (ContextManager.add_turn turn));;
  (* Add to session *)
  code_generated <- lift_res (join_generated_code (function_calls_made l));;
  stamp <- on_machine (now host);;
  on_machine (modify (with_session (fun s =>
    fst (FoxDotSession.add_chat_message "assistant" (full_response l)
           (Some code_generated) None stamp s))));;
  yield_event DONE
    (DoneData (full_response l) (full_thinking l) (function_calls_made l)).

(** The statements under [# Add user message]. *)
Definition add_user_message (user_message : string) : M World unit :=
  stamp <- on_machine (now host);;
  on_machine (modify (with_session (fun s =>
    fst (FoxDotSession.add_chat_message "user" user_message None None stamp s))));;
  modify (contents_append
            {| content_role := "user"; content_parts := [TextPart user_message] |}).

Definition chat_stream (user_message : string)
    (summary_reply : res (option string)) (stream continuation : Stream)
    : M World unit :=
  (* Check if context needs consolidation *)
  consolidation_step summary_reply;;
  (* Add user message *)
  add_user_message user_message;;
  (* _get_generation_config() renders the system prompt from the session:
     it reads, and changes nothing *)
  try_except
    (l <- first_pass stream;;
     (* Handle function responses and continue generation if needed *)
     (match function_calls_made l with
      | [] => ret tt
      | _ :: _ =>
          modify (contents_append
                    {| content_role := "model";
                       content_parts :=
                         (if str_nonempty (full_response l)
                          then [TextPart (full_response l)] else [])
                         ++ function_responses (function_calls_made l) |});;
          _continue_after_functions (function_calls_made l) continuation
      end);;
     finalize l)
    (fun e => yield_event ERROR (ErrorData e)).

(** [chat]: the events of one [chat_stream] are collected.  [DONE] is the
    last event the generator yields, so leaving the loop there cuts
    nothing short. *)
Definition chat (user_message : string)
    (summary_reply : res (option string)) (stream continuation : Stream)
    : M World EventData :=
  before <- gets (fun w => length (emitted w));;
  chat_stream user_message summary_reply stream continuation;;
  events <- gets (fun w => drop before (emitted w));;
  lift_res (collect_stream events "" "").

Definition stop_all_music : M World ExecutionResult :=
  on_machine
    (result <- executor_stop_all host;;
     modify (with_session FoxDotSession.clear_all);;
     ret result).

Definition clear_context : M World unit :=
  modify (with_context_manager ContextManager.clear);;
  modify (fun w =>
            {| machine := machine w; context_manager := context_manager w;
               contents := []; emitted := emitted w |}).
End Agent.
End StreamingFoxDotAgent.

(* ===================================================================== *)
(** * Scenarios *)
(* ===================================================================== *)

(** A call of [add_layer], with the two clock readings it takes. *)
Record Upsert : Type := {
  u_name : pykey;
  u_synth : pyval;
  u_code : code_value;
  u_description : pyval;
  u_props : gmap string pyval;
  u_now_created : string;
  u_now_modified : string
}.

Definition upsert (u : Upsert) (s : FoxDotSession.t) : FoxDotSession.t :=
  fst (FoxDotSession.add_layer (u_name u) (u_synth u) (u_code u) (u_description u)
         (u_props u) (u_now_created u) (u_now_modified u) s).

Definition upsert_all (us : list Upsert) (s : FoxDotSession.t) : FoxDotSession.t :=
  fold_left (fun s u => upsert u s) us s.

(** The calls that have a branch under [# Update session state]. *)
Definition mutators : list string :=
  [ "set_tempo"; "set_scale"; "set_root"; "stop_all"; "stop_player";
    "play_synth"; "play_drums" ].

(** The history of the executor once it has been asked to run [code]. *)
Definition history_with (code : code_value) (explanation : pyval) (m : Machine)
    : list Invocation :=
  FoxDotExecutor.calls (executor m)
    ++ [{| inv_code := code; inv_explanation := explanation |}].

(** The machine once [code] has been executed and the execution recorded
    in the session's [code_history]. *)
Definition after_execution (host : Host) (code : code_value) (explanation : pyval)
    (m : Machine) : Machine :=
  let result := runtime host (history_with code explanation m) in
  {| session :=
       FoxDotSession.add_code_execution code (success result) (output result)
         (wall_clock host (ticks m)) (session m);
     executor := FoxDotExecutor.mk (history_with code explanation m);
     ticks := S (ticks m) |}.

#[global] Instance StreamEventType_eq_dec : EqDecision StreamEventType.
Proof. solve_decision. Defined.

(** How many of the events [evs] have the type [ty]. *)
Definition count_type (ty : StreamEventType) (evs : list StreamEvent.t) : nat :=
  length (filter (fun ev => StreamEvent.type ev = ty) evs).

(** The type of the last event of [evs]. *)
Definition last_type (evs : list StreamEvent.t) : option StreamEventType :=
  StreamEvent.type <$> last evs.

(** The turn [chat_stream] records from its locals, at the clock reading
    [stamp]. *)
Definition recorded_turn (l : Locals) (stamp : string) : ConversationTurn.t :=
  ConversationTurn.mk "assistant" (full_response l)
    (if str_nonempty (full_thinking l) then Some (full_thinking l) else None)
    (function_calls_made l)
    (ContextManager.estimate_tokens (full_response l +:+ full_thinking l))
    stamp.

(** What [chat_stream] does before it enters its [try] block. *)
Definition prologue (host : Host) (user_message : string)
    (summary_reply : res (option string)) : M World unit :=
  StreamingFoxDotAgent.consolidation_step host summary_reply;;
  StreamingFoxDotAgent.add_user_message host user_message.

(** One [ERROR] event from the continuation pass, when it runs (some call
    was made) and its stream raises; none otherwise. *)
Definition continuation_errors (l : Locals) (continuation : Stream) : nat :=
  match function_calls_made l, failure continuation with
  | _ :: _, Some _ => 1
  | _, _ => 0
  end.

(** [emits errors dones w w']: from [w] to [w'] the context manager is
    untouched and the generator has yielded further events, of which
    [errors] are [ERROR] events and [dones] are [DONE] events. *)
Definition emits (errors dones : nat) (w w' : World) : Prop :=
  context_manager w' = context_manager w /\
  exists evs,
    emitted w' = emitted w ++ evs /\
    count_type ERROR evs = errors /\
    count_type DONE evs = dones.

(** A step of the turn that neither ends nor aborts it. *)
Definition quiet (w w' : World) : Prop := emits 0 0 w w'.

(** A computation all of whose runs are quiet, however they end. *)
Definition always_quiet {A} (c : M World A) : Prop :=
  forall w, quiet w (snd (c w)).

(** The machine as the evaluation of the [notes] argument leaves it,
    whether it returns or raises, in the block under [# Update session
    state] of a call whose code is [code]; the machine itself when the
    block evaluates nothing. *)
Definition after_notes (host : Host) (func_name : string) (args : gmap string pyval)
    (code : code_value) (auto_execute : bool) (m : Machine) : Machine :=
  if String.eqb func_name "play_synth" || String.eqb func_name "play_drums" then
    match args !! "player", args !! "notes" with
    | Some _, Some source =>
        snd (py_eval host
               {| frame_func_name := func_name; frame_args := args;
                  frame_code := code; frame_auto_execute := auto_execute |}
               source m)
    | _, _ => m
    end
  else m.

(** The same for a call of [execute_function], which gets to that block
    once it has built a code that is not empty. *)
Definition evaluation (host : Host) (func_name : string) (args : gmap string pyval)
    (auto_execute : bool) (m : Machine) : Machine :=
  if String.eqb func_name "get_session_state" then m
  else
    match build_foxdot_code func_name args (session m) with
    | Ok code =>
        if code_truthy code
        then after_notes host func_name args code auto_execute m
        else m
    | Raise _ => m
    end.

(** What the dispatcher's own statements may do to the session in one
    call: nothing, or one call of one of the session's mutators. *)
Inductive session_change (s : FoxDotSession.t) : FoxDotSession.t -> Prop :=
| Unchanged : session_change s s
| TempoSet (bpm : pyval) : session_change s (FoxDotSession.set_tempo bpm s)
| ScaleSet (scale : pyval) : session_change s (FoxDotSession.set_scale scale s)
| RootSet (root : pyval) : session_change s (FoxDotSession.set_root root s)
| Cleared : session_change s (FoxDotSession.clear_all s)
| Removed (name : pykey) : session_change s (fst (FoxDotSession.remove_layer name s))
| Upserted (u : Upsert) : session_change s (upsert u s).

(** Every layer is filed under its own player name and is playing. *)
Definition well_filed (s : FoxDotSession.t) : Prop :=
  forall name layer,
    FoxDotSession.active_layers s !! name = Some layer ->
    Layer.player_name layer = name /\ Layer.state layer = PLAYING.

(** A call of [execute_function]. *)
Record Call : Type := {
  c_name : string;
  c_args : gmap string pyval;
  c_auto_execute : bool
}.

(** The evaluation of a [notes] argument keeps the property [P] of the
    session, whether it returns or raises. *)
Definition eval_keeps (host : Host) (P : FoxDotSession.t -> Prop) : Prop :=
  forall frame source m,
    P (session m) -> P (session (snd (py_eval host frame source m))).

(** The machine after a sequence of calls, whether they return or raise. *)
Definition run_calls (host : Host) (calls : list Call) (m : Machine) : Machine :=
  fold_left
    (fun m c => snd (execute_function host (c_name c) (c_args c) (c_auto_execute c) m))
    calls m.

(** The methods of the context manager that change it. *)
Inductive ManagerOp : Type :=
| AddTurn (turn : ConversationTurn.t)
| Consolidate (summary : string)
| Clear.

Definition apply_op (op : ManagerOp) (cm : ContextManager.t) : ContextManager.t :=
  match op with
  | AddTurn turn => ContextManager.add_turn turn cm
  | Consolidate summary => ContextManager.consolidate summary cm
  | Clear => ContextManager.clear cm
  end.

Definition apply_ops (ops : list ManagerOp) (cm : ContextManager.t) : ContextManager.t :=
  fold_left (fun cm op => apply_op op cm) ops cm.

(** The estimate of the rolling summary, when there is one. *)
Definition summary_tokens (cm : ContextManager.t) : Z :=
  match ContextManager.consolidated_summary cm with
  | Some summary => ContextManager.estimate_tokens summary
  | None => 0
  end.

(** The running total is the weight of what the manager holds. *)
Definition accounted (cm : ContextManager.t) : Prop :=
  ContextManager.total_tokens cm
  = (sum_token_counts (ContextManager.turns cm) + summary_tokens cm)%Z.

(** A computation all of whose runs, however they end, take a state to
    one that [R] relates to it. *)
Definition always {S A} (R : S -> S -> Prop) (c : M S A) : Prop :=
  forall s, R s (snd (c s)).

(** From [w] to [w'] the session, the executor, the context manager and
    the outbound buffer are untouched: only the clock and the events
    move. *)
Definition same_objects (w w' : World) : Prop :=
  session (machine w') = session (machine w) /\
  executor (machine w') = executor (machine w) /\
  context_manager w' = context_manager w /\
  contents w' = contents w.

(** From [w] to [w'] the chat history is untouched and the outbound
    buffer has only grown. *)
Definition same_chat (w w' : World) : Prop :=
  FoxDotSession.chat_history (session (machine w'))
    = FoxDotSession.chat_history (session (machine w)) /\
  exists more, contents w' = contents w ++ more.

(** The events [evs] hold no [DONE] and carry the response text
    [response] and the thinking text [thinking] in their chunks: whatever
    follows them, [collect_stream] goes on with these texts appended. *)
Definition carries (evs : list StreamEvent.t) (response thinking : string) : Prop :=
  forall rest r t,
    collect_stream (evs ++ rest) r t
    = collect_stream rest (r +:+ response) (t +:+ thinking).

(** The texts that the events of type [ty] among [evs] hold, one after
    the other. *)
Fixpoint chunk_text (ty : StreamEventType) (evs : list StreamEvent.t) : string :=
  match evs with
  | [] => ""
  | ev :: rest =>
      (if decide (StreamEvent.type ev = ty)
       then match StreamEvent.data ev with Text s => s | _ => "" end
       else "")
      +:+ chunk_text ty rest
  end.

(** From [w] to [w'] the generator has yielded events that
    [collect_stream] reads through, gathering the texts of their
    chunks. *)
Definition readable (w w' : World) : Prop :=
  exists evs,
    emitted w' = emitted w ++ evs /\
    carries evs (chunk_text TEXT_CHUNK evs) (chunk_text THINKING_CHUNK evs).

(** The evaluation of a [notes] argument has no effect: whether it
    returns or raises, the machine is as before, and when it returns the
    dictionary [args] is as before. *)
Definition eval_without_effect (host : Host) : Prop :=
  forall frame source m,
    snd (py_eval host frame source m) = m /\
    forall evaluated,
      fst (py_eval host frame source m) = Ok evaluated ->
      args_left evaluated = frame_args frame.

(** The evaluation of a [notes] argument leaves the chat history of the
    session as it is. *)
Definition eval_keeps_chat (host : Host) : Prop :=
  forall history,
    eval_keeps host (fun s => FoxDotSession.chat_history s = history).

(** The events of a first pass that has not ended, against its locals. *)
Record protocol (l : Locals) (evs : list StreamEvent.t) : Prop := {
  thinking_open :
    count_type THINKING_START evs
    = (count_type THINKING_END evs + if is_thinking l then 1 else 0)%nat;
  text_open : count_type TEXT_START evs = (if is_responding l then 1 else 0)%nat;
  text_not_closed : count_type TEXT_END evs = 0%nat;
  calls_started : count_type FUNCTION_CALL_START evs = length (function_calls_made l);
  calls_announced : count_type FUNCTION_CALL evs = length (function_calls_made l);
  calls_answered : count_type FUNCTION_RESULT evs = length (function_calls_made l);
  calls_ended : count_type FUNCTION_CALL_END evs = length (function_calls_made l);
  texts_carried : carries evs (full_response l) (full_thinking l)
}.

(** Whether a value is of a JSON type. *)
Definition has_json_type (type : string) (v : pyval) : bool :=
  match v with
  | VNone => String.eqb type "null"
  | VBool _ => String.eqb type "boolean"
  | VInt _ => String.eqb type "integer" || String.eqb type "number"
  | VFloat _ => String.eqb type "number"
  | VStr _ => String.eqb type "string"
  | VList _ => String.eqb type "array"
  | VDict _ => String.eqb type "object"
  end.

(** The arguments of a call fit the parameters of a declaration: every
    required parameter is given, and every declared parameter that is
    given has the declared type.  Nothing is asked of the enumerations,
    of the properties inside [effects], or of arguments the declaration
    does not name. *)
Definition fits (parameters : Schema) (args : gmap string pyval) : bool :=
  forallb (fun key => match args !! key with Some _ => true | None => false end)
    (schema_required parameters)
  && forallb (fun property =>
                match args !! fst property with
                | Some v => has_json_type (schema_type (snd property)) v
                | None => true
                end)
       (schema_properties parameters).

(** The effects of every layer are a dictionary. *)
Definition effects_are_mappings (s : FoxDotSession.t) : Prop :=
  forall name layer,
    FoxDotSession.active_layers s !! name = Some layer ->
    exists items, Layer.effects layer = VDict items.

(** The names a declaration lets its [player] parameter take. *)
Definition declared_players (declaration : Declaration) : list string :=
  match List.find (fun property => String.eqb (fst property) "player")
          (schema_properties (decl_parameters declaration)) with
  | Some (_, schema) => default [] (schema_enum schema)
  | None => []
  end.

(** Concrete hosts and objects for the examples. *)
Module Fixtures.
(** A machine on which FoxDot is not installed: [execute] reports the
    failure of the import for whatever it is given. *)
Definition no_foxdot : list Invocation -> ExecutionResult :=
  fun _ =>
    {| success := false; output := "";
       error := Some "FoxDot not initialized. Make sure FoxDot and SuperCollider are installed.";
       players_affected := [] |}.

(** A runtime that runs everything it is given without complaint. *)
Definition obliging : list Invocation -> ExecutionResult :=
  fun _ => {| success := true; output := ""; error := None; players_affected := [] |}.

(** An [eval] that knows one expression, which has no effect. *)
Definition eval_triad (frame : Frame) (src : pyval) : M Machine Evaluated :=
  if py_eq_str src "[0, 2, 4]"
  then ret (untouched frame (VList [VInt 0; VInt 2; VInt 4]))
  else raise (Exception "SyntaxError" "invalid syntax").

(** The n-th reading of the clock reads [T<n>]. *)
Definition tick_clock (n : nat) : string := "T" +:+ pretty n.

Definition offline : Host :=
  {| runtime := no_foxdot; py_eval := eval_triad; wall_clock := tick_clock |}.

Definition online : Host :=
  {| runtime := obliging; py_eval := eval_triad; wall_clock := tick_clock |}.



Definition fresh_machine : Machine :=
  {| session := FoxDotSession.init "20240101_000000" "2024-01-01T00:00:00";
     executor := FoxDotExecutor.init; ticks := 0 |}.

(** [ContextManager(max_tokens=max_tokens)], as the agent builds it. *)
Definition default_manager (max_tokens : Z) : ContextManager.t :=
  ContextManager.init max_tokens (decimal 7 10) 5.

Definition fresh_world : World :=
  {| machine := fresh_machine; context_manager := default_manager 100000;
     contents := []; emitted := [] |}.

Definition turn_of_size (n : Z) : ConversationTurn.t :=
  ConversationTurn.mk "assistant" "ok" None [] n "2024-01-01T00:00:01".

(** A manager built with [keep_recent_turns=0] that has recorded one turn. *)
Definition keep_none_manager : ContextManager.t :=
  ContextManager.add_turn (turn_of_size 10)
    (ContextManager.init 100000 (decimal 7 10) 0).

(** The default manager after twelve turns of 10000 tokens, numbered by
    their content. *)
Definition numbered_turn (n : nat) : ConversationTurn.t :=
  ConversationTurn.mk "assistant" (pretty n) None [] 10000 "2024-01-01T00:00:01".

Definition busy_manager : ContextManager.t :=
  fold_left (fun cm n => ContextManager.add_turn (numbered_turn n) cm)
    (seq 1 12) (default_manager 100000).

(** The same twelve turns under a ceiling of 50000 tokens. *)
Definition tight_manager : ContextManager.t :=
  fold_left (fun cm n => ContextManager.add_turn (numbered_turn n) cm)
    (seq 1 12) (default_manager 50000).

(** A manager with a ceiling of 100 that has recorded one large turn. *)
Definition crowded_manager : ContextManager.t :=
  ContextManager.add_turn (turn_of_size 1000) (default_manager 100).

(** An upsert of the layer [p1] at the clock readings [stamp], with the
    amplitude [amp] and nothing else. *)
Definition strum (stamp : string) (amp : pyval) : Upsert :=
  {| u_name := KStr "p1"; u_synth := VStr "pluck";
     u_code := Built [Lit "p1 >> pluck([0, 2, 4])"];
     u_description := VStr "arpeggio"; u_props := {["amp" := amp]};
     u_now_created := stamp; u_now_modified := stamp |}.

Definition args_of (l : list (string * pyval)) : gmap string pyval := list_to_map l.

Definition call_part (name : string) (args : gmap string pyval) : Part :=
  {| thought := false; text := None;
     function_call := Some {| fc_name := name; fc_args := Some args |} |}.

Definition text_part (s : string) : Part :=
  {| thought := false; text := Some s; function_call := None |}.

Definition thought_part (s : string) : Part :=
  {| thought := true; text := Some s; function_call := None |}.

(** The model thinks, then asks for [stop_all], and the stream ends. *)
Definition stop_all_stream : Stream :=
  {| chunks := [[thought_part "silence it"]; [call_part "stop_all" ∅]];
     failure := None |}.

(** A stream that fails before its first chunk. *)
Definition broken_stream : Stream :=
  {| chunks := []; failure := Some (Exception "ConnectionError" "connection reset") |}.

(** A stream that fails in the middle of the model's reasoning. *)
Definition interrupted_stream : Stream :=
  {| chunks := [[thought_part "let me"]];
     failure := Some (Exception "ConnectionError" "connection reset") |}.

(** A machine on which the layer [p1] plays at amplitude 0.5. *)
Definition machine_with_p1 : Machine :=
  snd (execute_function offline "play_synth"
         (args_of [("player", VStr "p1"); ("synth", VStr "pluck");
                   ("notes", VStr "[0, 2, 4]"); ("description", VStr "arpeggio");
                   ("amp", VFloat (decimal 5 10))])
         false fresh_machine).
End Fixtures.

(* ===================================================================== *)
(** * Properties of the session store *)
(* ===================================================================== *)

Section SessionFacts.
Implicit Types (s : FoxDotSession.t) (n : pykey) (u : Upsert).

Lemma active_layers_with_layers layers s :
  FoxDotSession.active_layers (FoxDotSession.with_layers layers s) = layers.
Proof. reflexivity. Qed.

Lemma upsert_lookup_same u s :
  FoxDotSession.active_layers (upsert u s) !! u_name u =
    Some (snd (FoxDotSession.add_layer (u_name u) (u_synth u) (u_code u)
                 (u_description u) (u_props u) (u_now_created u)
                 (u_now_modified u) s)).
Proof.
  unfold upsert, FoxDotSession.add_layer; simpl.
  rewrite active_layers_with_layers. apply lookup_insert_eq.
Qed.

Lemma upsert_lookup_other u s n :
  u_name u ≠ n ->
  FoxDotSession.active_layers (upsert u s) !! n = FoxDotSession.active_layers s !! n.
Proof.
  intros Hne. unfold upsert, FoxDotSession.add_layer; simpl.
  rewrite active_layers_with_layers. by apply lookup_insert_ne.
Qed.

(** On a name that has no layer, an upsert stores the first clock reading. *)
Lemma upsert_created_at_fresh u s :
  FoxDotSession.active_layers s !! u_name u = None ->
  Layer.created_at <$> (FoxDotSession.active_layers (upsert u s) !! u_name u)
    = Some (u_now_created u).
Proof.
  intros Hnone. rewrite upsert_lookup_same.
  unfold FoxDotSession.add_layer. rewrite Hnone. reflexivity.
Qed.

(** On a name that has a layer, an upsert keeps its creation time. *)
Lemma upsert_created_at_kept u s old :
  FoxDotSession.active_layers s !! u_name u = Some old ->
  Layer.created_at <$> (FoxDotSession.active_layers (upsert u s) !! u_name u)
    = Some (Layer.created_at old).
Proof.
  intros Hsome. rewrite upsert_lookup_same.
  unfold FoxDotSession.add_layer. rewrite Hsome. reflexivity.
Qed.

(** Upserts, to whatever names, never change the creation time of a layer
    that is there. *)
Lemma upsert_all_created_at_kept us : forall s n ts,
  Layer.created_at <$> (FoxDotSession.active_layers s !! n) = Some ts ->
  Layer.created_at <$> (FoxDotSession.active_layers (upsert_all us s) !! n) = Some ts.
Proof.
  induction us as [|u us IH]; intros s n ts Hs; simpl; [exact Hs|].
  apply IH.
  destruct (decide (u_name u = n)) as [<-|Hne].
  - destruct (FoxDotSession.active_layers s !! u_name u) as [old|] eqn:Hold;
      [|discriminate].
    rewrite (upsert_created_at_kept _ _ _ Hold). exact Hs.
  - by rewrite upsert_lookup_other.
Qed.

(** In any sequence of upserts, the creation time of a name that had no
    layer is the clock reading of the first upsert that targets it. *)
Lemma upsert_all_created_at_first before u after s :
  FoxDotSession.active_layers s !! u_name u = None ->
  Forall (fun v => u_name v ≠ u_name u) before ->
  Layer.created_at <$>
    (FoxDotSession.active_layers (upsert_all (before ++ u :: after) s) !! u_name u)
    = Some (u_now_created u).
Proof.
  revert s. induction before as [|v before IH]; intros s Hnone Hbefore; simpl.
  - apply upsert_all_created_at_kept. by apply upsert_created_at_fresh.
  - inversion Hbefore as [|? ? Hv Hrest]; subst.
    apply IH; [|exact Hrest]. by rewrite upsert_lookup_other.
Qed.
End SessionFacts.

(** C8.  For every sequence of upserts that all target one layer name,
    starting from a session in which that name has no layer, the layer
    stored after the last call carries the creation timestamp read by the
    first call of the sequence, whatever the later calls read. *)
Theorem created_at_is_that_of_first_upsert
    (n : pykey) (first : Upsert) (rest : list Upsert) (s : FoxDotSession.t) :
  FoxDotSession.active_layers s !! n = None ->
  Forall (fun u => u_name u = n) (first :: rest) ->
  Layer.created_at <$> (FoxDotSession.active_layers (upsert_all (first :: rest) s) !! n)
    = Some (u_now_created first).
Proof.
  intros Hnone Hall.
  inversion Hall as [|? ? Hfirst Hrest]; subst.
  exact (upsert_all_created_at_first [] first rest s Hnone (Forall_nil_2 _)).
Qed.

(** C10.  An upsert on a name that has a layer stores a layer built from
    the new call alone: notes, pattern, dur, amp, oct and effects are the
    new call's (None, or the empty dictionary for effects, when the call
    omits them), the state is PLAYING, the modification time is the new
    clock reading, and only the creation time is the previous layer's. *)
Theorem add_layer_replaces_all_but_created_at
    (n : pykey) (synth : pyval) (code : code_value) (description : pyval)
    (props : gmap string pyval) (now_created now_modified : string)
    (s : FoxDotSession.t) (old : Layer.t) :
  FoxDotSession.active_layers s !! n = Some old ->
  FoxDotSession.active_layers
    (fst (FoxDotSession.add_layer n synth code description props
            now_created now_modified s)) !! n
  = Some (Layer.mk n synth code description PLAYING
            (Layer.created_at old) now_modified
            (get props "notes" VNone) (get props "pattern" VNone)
            (get props "dur" VNone) (get props "amp" VNone)
            (get props "oct" VNone) (get props "effects" (VDict []))).
Proof.
  intros Hold. unfold FoxDotSession.add_layer; simpl.
  rewrite active_layers_with_layers, lookup_insert_eq, Hold. reflexivity.
Qed.

Lemma created_at_is_that_of_first_upsert_witness :
  let calls := [Fixtures.strum "T0" (VInt 1); Fixtures.strum "T1" (VInt 2);
                Fixtures.strum "T2" (VInt 3)] in
  let s := session Fixtures.fresh_machine in
  FoxDotSession.active_layers s !! KStr "p1" = None /\
  Layer.created_at <$> (FoxDotSession.active_layers (upsert_all calls s) !! KStr "p1")
    = Some "T0".
Proof.
  split; [reflexivity|].
  apply (created_at_is_that_of_first_upsert (KStr "p1") (Fixtures.strum "T0" (VInt 1))
           [Fixtures.strum "T1" (VInt 2); Fixtures.strum "T2" (VInt 3)]);
    [reflexivity | repeat constructor].
Defined.

Lemma add_layer_replaces_all_but_created_at_witness :
  let s := upsert (Fixtures.strum "T0" (VInt 1)) (session Fixtures.fresh_machine) in
  FoxDotSession.active_layers
    (fst (FoxDotSession.add_layer (KStr "p1") (VStr "play") (Built [Lit "p1 >> play(x)"])
            (VStr "beat") {["pattern" := VStr "x-o-"]} "T7" "T8" s)) !! KStr "p1"
  = Some (Layer.mk (KStr "p1") (VStr "play") (Built [Lit "p1 >> play(x)"]) (VStr "beat")
            PLAYING "T0" "T8" VNone (VStr "x-o-") VNone VNone VNone (VDict [])).
Proof.
  exact (add_layer_replaces_all_but_created_at (KStr "p1") (VStr "play")
           (Built [Lit "p1 >> play(x)"]) (VStr "beat") {["pattern" := VStr "x-o-"]}
           "T7" "T8" (upsert (Fixtures.strum "T0" (VInt 1)) (session Fixtures.fresh_machine))
           (snd (FoxDotSession.add_layer (KStr "p1") (VStr "pluck")
                   (Built [Lit "p1 >> pluck([0, 2, 4])"]) (VStr "arpeggio")
                   {["amp" := VInt 1]} "T0" "T0" (session Fixtures.fresh_machine)))
           eq_refl).
Defined.

(* ===================================================================== *)
(** * Properties of the context manager *)
(* ===================================================================== *)

Section SliceFacts.
Context {A : Type}.
Implicit Types (l : list A) (k : Z).

(** [l[-k:]] for a positive [k] drops all but the last [k] elements. *)
Lemma py_slice_from_last l k :
  (0 < k)%Z -> py_slice_from (- k) l = drop (length l - Z.to_nat k) l.
Proof.
  intros Hk. unfold py_slice_from.
  destruct (Z.ltb_spec (- k) 0) as [_|Hge]; [|lia].
  f_equal. lia.
Qed.

(** [l[-0:]] is [l[0:]]: the whole list. *)
Lemma py_slice_from_zero l : py_slice_from (- 0) l = l.
Proof.
  unfold py_slice_from. simpl.
  rewrite Z.min_l by lia. reflexivity.
Qed.

Lemma py_slice_from_suffix l k :
  exists dropped, l = dropped ++ py_slice_from k l.
Proof.
  unfold py_slice_from. eexists. symmetry. apply take_drop.
Qed.
End SliceFacts.

Lemma two_power_pos (k : Z) : (0 <= k)%Z -> (0 < inject_Z (2 ^ k))%Q.
Proof.
  intros Hk. change 0%Q with (inject_Z 0). rewrite <- Zlt_Qlt.
  apply Z.pow_pos_nonneg; lia.
Qed.

(** The comparison computes what it means. *)
Lemma int_gt_float_spec (z : Z) (f : spec_float) :
  int_gt_float z f = true <-> float_below f z.
Proof.
  destruct f as [s|s| |s m e]; simpl.
  - apply Z.ltb_lt.
  - reflexivity.
  - split; [discriminate | contradiction].
  - set (v := cond_Zopp s (Z.pos m)).
    destruct (Z.leb_spec 0 e) as [He|He].
    + rewrite Z.ltb_lt, Zlt_Qlt, inject_Z_mult, Zpower_Qpower by exact He.
      reflexivity.
    + rewrite Z.ltb_lt, Zlt_Qlt, inject_Z_mult.
      assert (Hpos : (0 < inject_Z (2 ^ (- e)))%Q) by (apply two_power_pos; lia).
      assert (Hpow : (2 ^ e == / inject_Z (2 ^ (- e)))%Q).
      { rewrite <- (Z.opp_involutive e) at 1. rewrite Qpower_opp.
        rewrite Zpower_Qpower by lia. reflexivity. }
      rewrite Hpow.
      rewrite <- (Qmult_lt_r (inject_Z v * / inject_Z (2 ^ (- e))) _ _ Hpos).
      rewrite <- Qmult_assoc, (Qmult_comm (/ _)), Qmult_inv_r, Qmult_1_r;
        [reflexivity|].
      intros Heq. rewrite Heq in Hpos. discriminate.
Qed.

Section ContextManagerFacts.
Import ContextManager.
Implicit Types (cm : ContextManager.t) (summary : string).

Lemma threshold_consolidate summary cm :
  threshold (consolidate summary cm) = threshold cm.
Proof. reflexivity. Qed.

Lemma needs_consolidation_true cm :
  needs_consolidation cm = Ok true <->
  exists limit, threshold cm = Ok limit /\ float_below limit (total_tokens cm).
Proof.
  unfold needs_consolidation, res_bind.
  destruct (threshold cm) as [limit|e].
  - split.
    + intros [= H]. exists limit. split; [done|]. by apply int_gt_float_spec.
    + intros (? & [= <-] & H). apply int_gt_float_spec in H. by rewrite H.
  - split; [discriminate | intros (? & [=] & _)].
Qed.

Lemma needs_consolidation_false cm :
  needs_consolidation cm = Ok false <->
  exists limit, threshold cm = Ok limit /\ ~ float_below limit (total_tokens cm).
Proof.
  unfold needs_consolidation, res_bind.
  destruct (threshold cm) as [limit|e].
  - split.
    + intros [= H]. exists limit. split; [done|].
      rewrite <- int_gt_float_spec, H. discriminate.
    + intros (? & [= <-] & H). rewrite <- int_gt_float_spec in H.
      by destruct (int_gt_float _ _).
  - split; [discriminate | intros (? & [=] & _)].
Qed.

(** With [keep_recent_turns >= 1], consolidation keeps the last
    [keep_recent_turns] turns, in order, takes the new summary in place of
    any earlier one, and recomputes the running total. *)
Lemma consolidate_keeps_recent summary cm :
  (0 < keep_recent_turns cm)%Z ->
  (keep_recent_turns cm < Z.of_nat (length (turns cm)))%Z ->
  let cm' := consolidate summary cm in
  turns cm' = drop (length (turns cm) - Z.to_nat (keep_recent_turns cm)) (turns cm) /\
  (exists dropped,
      turns cm = dropped ++ turns cm' /\
      length dropped = (length (turns cm) - Z.to_nat (keep_recent_turns cm))%nat) /\
  Z.of_nat (length (turns cm')) = keep_recent_turns cm /\
  consolidated_summary cm' = Some summary /\
  total_tokens cm' = (sum_token_counts (turns cm') + estimate_tokens summary)%Z.
Proof.
  intros Hpos Hmore. simpl.
  rewrite (py_slice_from_last _ _ Hpos).
  repeat split.
  - eexists. split; [symmetry; apply take_drop|].
    rewrite length_take. lia.
  - rewrite length_drop. lia.
Qed.

(** With [keep_recent_turns = 0] consolidation drops no turn at all. *)
Lemma consolidate_keeps_all_at_zero summary cm :
  keep_recent_turns cm = 0%Z ->
  turns (consolidate summary cm) = turns cm.
Proof.
  intros Hzero. unfold consolidate; simpl. rewrite Hzero.
  apply py_slice_from_zero.
Qed.
End ContextManagerFacts.

(** C6.  With [keep_recent_turns = 0] and one recorded turn, a state with
    more than K turns, consolidation drops nothing: [turns[-0:]] is the
    whole list, where the last K = 0 turns are none.  The summary and the
    running total are set as described. *)
Theorem consolidate_keeping_none_keeps_all :
  let cm := Fixtures.keep_none_manager in
  let cm' := ContextManager.consolidate "summary" cm in
  ContextManager.keep_recent_turns cm = 0%Z /\
  ContextManager.turns cm = [Fixtures.turn_of_size 10] /\
  ContextManager.turns cm' = [Fixtures.turn_of_size 10] /\
  ContextManager.consolidated_summary cm' = Some "summary" /\
  ContextManager.total_tokens cm' = 11%Z.
Proof. repeat split. Qed.

(** C9 as amended.  [needs_consolidation()] is true exactly when the
    running total strictly exceeds the product [max_tokens *
    consolidation_threshold]; right after [consolidate(summary)] it is false
    exactly when the token counts of the kept turns plus the estimate of
    the summary do not exceed that product. *)
Theorem needs_consolidation_after_consolidate
    (cm : ContextManager.t) (summary : string) :
  (ContextManager.needs_consolidation cm = Ok true <->
   exists limit, ContextManager.threshold cm = Ok limit /\
                 float_below limit (ContextManager.total_tokens cm)) /\
  (ContextManager.needs_consolidation (ContextManager.consolidate summary cm) = Ok false <->
   exists limit, ContextManager.threshold cm = Ok limit /\
     ~ float_below limit
         (sum_token_counts (ContextManager.turns (ContextManager.consolidate summary cm))
          + ContextManager.estimate_tokens summary)).
Proof.
  split; [apply needs_consolidation_true|].
  rewrite needs_consolidation_false, threshold_consolidate. reflexivity.
Qed.

(** C9, the claim as stated fails: under a ceiling of 50000 tokens
    (threshold 35000.0), twelve turns of 10000 tokens are consolidated
    with a non-empty summary; the five turns kept weigh 50000 tokens, and
    the manager needs consolidation again at once. *)
Lemma needs_consolidation_right_after_consolidate :
  let cm := ContextManager.consolidate "summary" Fixtures.tight_manager in
  length (ContextManager.turns Fixtures.tight_manager) = 12%nat /\
  length (ContextManager.turns cm) = 5%nat /\
  ContextManager.total_tokens cm = 50001%Z /\
  ContextManager.needs_consolidation cm = Ok true.
Proof. vm_compute. repeat split. Qed.

(* ===================================================================== *)
(** * Properties of call resolution *)
(* ===================================================================== *)

Lemma mutators_in_catalog (name : string) : name ∈ mutators -> name ∈ catalog.
Proof.
  unfold mutators, catalog. intros Hin.
  repeat (apply elem_of_cons in Hin as [->|Hin]; [repeat constructor|]).
  by apply elem_of_nil in Hin.
Qed.

Lemma eqb_not_elem_of (name : string) (names : list string) :
  name ∉ names -> Forall (fun c => String.eqb name c = false) names.
Proof.
  intros Hnot. apply Forall_forall. intros c Hc.
  apply String.eqb_neq. intros ->. exact (Hnot Hc).
Qed.

(** Rewrites every test [func_name == "..."] that a hypothesis
    [Forall (fun c => String.eqb name c = false) names] decides. *)
Ltac decide_names H :=
  unfold mutators, catalog in H;
  repeat match type of H with
         | Forall _ (_ :: _) =>
             let Hhead := fresh "Hname" in
             let Htail := fresh "Hnames" in
             apply Forall_cons_1 in H as [Hhead Htail];
             cbv beta in Hhead; try rewrite !Hhead; clear Hhead;
             rename Htail into H
         end;
  clear H.

Section DispatchFacts.
Context (host : Host).
Implicit Types (m : Machine) (args : gmap string pyval) (code : code_value).

Lemma update_session_state_other func_name args code auto_execute :
  func_name ∉ mutators ->
  update_session_state host func_name args code auto_execute = ret args.
Proof.
  intros Hnot. apply eqb_not_elem_of in Hnot.
  unfold update_session_state. decide_names Hnot. reflexivity.
Qed.

(** [execute_function] returns what [execute_function_on] returns, less
    the dictionary. *)
Lemma execute_function_run func_name args auto_execute m :
  execute_function host func_name args auto_execute m
  = match execute_function_on host func_name args auto_execute m with
    | (Ok answer, m') => (Ok (fst answer), m')
    | (Raise e, m') => (Raise e, m')
    end.
Proof. reflexivity. Qed.

(** A call that is not [get_session_state], whose code builds to a
    non-empty string and that has no branch under [# Update session
    state]: the result carries the code; the session changes only by
    the execution record, when the code is executed. *)
Lemma execute_function_without_mutation func_name args auto_execute m code :
  func_name ≠ "get_session_state" ->
  func_name ∉ mutators ->
  build_foxdot_code func_name args (session m) = Ok code ->
  code_truthy code = true ->
  code_is_str code = true ->
  execute_function host func_name args auto_execute m =
    if auto_execute
    then (Ok (Executed
                (runtime host (history_with code (get args "description" VNone) m))
                code),
          after_execution host code (get args "description" VNone) m)
    else (Ok (Generated code), m).
Proof.
  intros Hstate Hother Hbuild Htruthy Hstr.
  unfold execute_function, execute_function_on.
  apply String.eqb_neq in Hstate. rewrite Hstate.
  unfold bind, gets, lift_res, ret. rewrite Hbuild, Htruthy. cbn [negb].
  rewrite (update_session_state_other _ _ _ _ Hother). unfold ret.
  destruct auto_execute; [|reflexivity].
  unfold executor_execute. rewrite Hstr. reflexivity.
Qed.

Lemma build_unknown func_name args (s : FoxDotSession.t) :
  func_name ∉ catalog ->
  build_foxdot_code func_name args s
    = Ok (Built [Lit "# Unknown function: "; Hole (VStr func_name)]).
Proof.
  intros Hnot. apply eqb_not_elem_of in Hnot.
  unfold build_foxdot_code. decide_names Hnot. reflexivity.
Qed.

Lemma build_modify_absent args (s : FoxDotSession.t) (player : string) :
  args !! "player" = Some (VStr player) ->
  FoxDotSession.get_layer (KStr player) s = None ->
  build_foxdot_code "modify_layer" args s
    = Ok (Built [Lit "# Error: Player "; Hole (VStr player); Lit " not found"]).
Proof.
  intros Hplayer Habsent.
  unfold build_foxdot_code; simpl. unfold index. rewrite Hplayer; simpl.
  rewrite Habsent. reflexivity.
Qed.

End DispatchFacts.

Section MusicStateFacts.
Context (host : Host).

(** A call with no branch under [# Update session state] leaves tempo,
    scale, root and layers as they are, however it ends. *)
Lemma execute_function_keeps_music_state func_name args auto_execute m :
  func_name ∉ mutators ->
  FoxDotSession.music_state
    (session (snd (execute_function host func_name args auto_execute m)))
  = FoxDotSession.music_state (session m).
Proof.
  intros Hother. unfold execute_function, execute_function_on.
  destruct (String.eqb func_name "get_session_state"); [reflexivity|].
  unfold bind, gets, lift_res, ret.
  destruct (build_foxdot_code func_name args (session m)) as [code|e];
    [|reflexivity].
  destruct (code_truthy code); cbn [negb]; [|reflexivity].
  rewrite (update_session_state_other host _ _ _ _ Hother). unfold ret.
  destruct auto_execute; [|reflexivity].
  unfold executor_execute.
  destruct (code_is_str code); reflexivity.
Qed.
End MusicStateFacts.

(** C1 as amended.  A call whose name is not in the catalog does not
    abort: resolution returns a result whose code is the comment
    [# Unknown function: <name>], and tempo, scale, root and layer map are
    as before.  With automatic execution disabled the status is
    [code_generated] and nothing else changes; with it enabled the comment
    goes to the executor and the status is the executor's verdict on it. *)
Theorem unknown_call_resolves_to_a_comment
    (host : Host) (func_name : string) (args : gmap string pyval)
    (auto_execute : bool) (m : Machine) :
  func_name ∉ catalog ->
  let code := Built [Lit "# Unknown function: "; Hole (VStr func_name)] in
  let explanation := get args "description" VNone in
  let run := execute_function host func_name args auto_execute m in
  exists result,
    fst run = Ok result /\
    result_code result = Some code /\
    FoxDotSession.music_state (session (snd run)) = FoxDotSession.music_state (session m) /\
    if auto_execute
    then status result
           = (if success (runtime host (history_with code explanation m))
              then "success" else "error") /\
         FoxDotExecutor.calls (executor (snd run)) = history_with code explanation m
    else status result = "code_generated" /\ snd run = m.
Proof.
  intros Hunknown code explanation run.
  assert (Hrun : run = if auto_execute
                       then (Ok (Executed (runtime host (history_with code explanation m)) code),
                             after_execution host code explanation m)
                       else (Ok (Generated code), m)).
  { apply execute_function_without_mutation.
    - intros ->. apply Hunknown. unfold catalog. repeat constructor.
    - intros Hin. by apply Hunknown, mutators_in_catalog.
    - by apply build_unknown.
    - reflexivity.
    - reflexivity. }
  rewrite Hrun. destruct auto_execute; eexists; repeat split.
Qed.

Lemma unknown_call_resolves_to_a_comment_witness :
  let code := Built [Lit "# Unknown function: "; Hole (VStr "play_piano")] in
  let run := execute_function Fixtures.online "play_piano" ∅ true Fixtures.fresh_machine in
  exists result,
    fst run = Ok result /\
    result_code result = Some code /\
    FoxDotSession.music_state (session (snd run))
      = FoxDotSession.music_state (session Fixtures.fresh_machine) /\
    status result = "success" /\
    FoxDotExecutor.calls (executor (snd run))
      = [{| inv_code := code; inv_explanation := VNone |}].
Proof.
  assert (Hunknown : "play_piano" ∉ catalog).
  { unfold catalog. intros Hin.
    repeat (apply elem_of_cons in Hin as [Hin|Hin]; [discriminate|]).
    by apply elem_of_nil in Hin. }
  pose proof (unknown_call_resolves_to_a_comment Fixtures.online "play_piano" ∅ true
                Fixtures.fresh_machine Hunknown) as H.
  vm_compute in H |- *. exact H.
Defined.

(** C1, the claim as stated fails: with automatic execution disabled the
    unknown call [play_piano] is answered with status [code_generated], and
    with it enabled on a runtime that accepts the comment, with [success]. *)
Lemma unknown_call_status_is_not_error :
  let code := Built [Lit "# Unknown function: "; Hole (VStr "play_piano")] in
  execute_function Fixtures.offline "play_piano" ∅ false Fixtures.fresh_machine
    = (Ok (Generated code), Fixtures.fresh_machine) /\
  status (Generated code) = "code_generated" /\
  status <$> returned (fst (execute_function Fixtures.online "play_piano" ∅ true
                              Fixtures.fresh_machine)) = Some "success".
Proof. vm_compute. repeat split. Qed.

Lemma modify_layer_is_no_mutator : "modify_layer" ∉ mutators.
Proof.
  unfold mutators. intros Hin.
  repeat (apply elem_of_cons in Hin as [Hin|Hin]; [discriminate|]).
  by apply elem_of_nil in Hin.
Qed.

(** C3 as amended.  A modify-layer call that names a player with no layer
    does not abort and leaves tempo, scale, root and layer map as they are;
    its result carries the comment [# Error: Player <p> not found] as code.
    With automatic execution disabled the status is [code_generated] and
    nothing is sent to the executor; with it enabled that comment, and
    nothing else, is sent, and the status is the executor's verdict. *)
Theorem modify_of_absent_layer_resolves_to_a_comment
    (host : Host) (player : string) (args : gmap string pyval)
    (auto_execute : bool) (m : Machine) :
  args !! "player" = Some (VStr player) ->
  FoxDotSession.get_layer (KStr player) (session m) = None ->
  let code := Built [Lit "# Error: Player "; Hole (VStr player); Lit " not found"] in
  let explanation := get args "description" VNone in
  let run := execute_function host "modify_layer" args auto_execute m in
  exists result,
    fst run = Ok result /\
    result_code result = Some code /\
    FoxDotSession.music_state (session (snd run)) = FoxDotSession.music_state (session m) /\
    if auto_execute
    then status result
           = (if success (runtime host (history_with code explanation m))
              then "success" else "error") /\
         FoxDotExecutor.calls (executor (snd run)) = history_with code explanation m
    else status result = "code_generated" /\ snd run = m.
Proof.
  intros Hplayer Habsent code explanation run.
  assert (Hrun : run = if auto_execute
                       then (Ok (Executed (runtime host (history_with code explanation m)) code),
                             after_execution host code explanation m)
                       else (Ok (Generated code), m)).
  { apply execute_function_without_mutation.
    - discriminate.
    - exact modify_layer_is_no_mutator.
    - by apply build_modify_absent.
    - reflexivity.
    - reflexivity. }
  rewrite Hrun. destruct auto_execute; eexists; repeat split.
Qed.

Lemma modify_of_absent_layer_resolves_to_a_comment_witness :
  let args := Fixtures.args_of [("player", VStr "p1"); ("amp", VFloat (decimal 9 10))] in
  let code := Built [Lit "# Error: Player "; Hole (VStr "p1"); Lit " not found"] in
  let run := execute_function Fixtures.online "modify_layer" args true Fixtures.fresh_machine in
  exists result,
    fst run = Ok result /\
    result_code result = Some code /\
    FoxDotSession.music_state (session (snd run))
      = FoxDotSession.music_state (session Fixtures.fresh_machine) /\
    status result = "success" /\
    FoxDotExecutor.calls (executor (snd run))
      = [{| inv_code := code; inv_explanation := VNone |}].
Proof.
  pose proof (modify_of_absent_layer_resolves_to_a_comment Fixtures.online "p1"
                (Fixtures.args_of [("player", VStr "p1"); ("amp", VFloat (decimal 9 10))])
                true Fixtures.fresh_machine eq_refl eq_refl) as H.
  vm_compute in H |- *. exact H.
Defined.

(** C3, the claim as stated fails: ["modify layer"(player="p1", amp=0.9)]
    on a session without [p1] is answered with status [code_generated] when
    automatic execution is disabled; when it is enabled, the comment is
    handed to the executor and the status is [success] on a runtime
    that accepts it. *)
Lemma modify_of_absent_layer_status_is_not_error :
  let args := Fixtures.args_of [("player", VStr "p1"); ("amp", VFloat (decimal 9 10))] in
  let code := Built [Lit "# Error: Player "; Hole (VStr "p1"); Lit " not found"] in
  execute_function Fixtures.offline "modify_layer" args false Fixtures.fresh_machine
    = (Ok (Generated code), Fixtures.fresh_machine) /\
  status (Generated code) = "code_generated" /\
  (let run := execute_function Fixtures.online "modify_layer" args true
                Fixtures.fresh_machine in
   status <$> returned (fst run) = Some "success" /\
   FoxDotExecutor.calls (executor (snd run))
     = [{| inv_code := code; inv_explanation := VNone |}]).
Proof. vm_compute. repeat split. Qed.

(** C4.  The layer [p1] plays at amplitude 0.5; ["modify layer"(player="p1",
    amp=0.9)] builds code with the new amplitude, and the layer stored in
    the session still has amplitude 0.5: the machine is left exactly as it
    was. *)
Theorem modify_layer_leaves_stored_layer_unmerged :
  let args := Fixtures.args_of [("player", VStr "p1"); ("amp", VFloat (decimal 9 10))] in
  let before := Fixtures.machine_with_p1 in
  let run := execute_function Fixtures.offline "modify_layer" args false before in
  Layer.amp <$> (FoxDotSession.get_layer (KStr "p1") (session before))
    = Some (VFloat (decimal 5 10)) /\
  fst run
    = Ok (Generated
            (Built [Hole (VStr "p1"); Lit " >> "; Hole (VStr "pluck"); Lit "(";
                    Hole (VList [VInt 0; VInt 2; VInt 4]); Lit ", ";
                    Lit "amp="; Hole (VFloat (decimal 9 10)); Lit ")"])) /\
  Layer.amp <$> (FoxDotSession.get_layer (KStr "p1") (session (snd run)))
    = Some (VFloat (decimal 5 10)) /\
  snd run = before.
Proof. vm_compute. repeat split. Qed.

(** Runs the monadic plumbing of a goal or hypothesis. *)
Ltac run_monad :=
  unfold bind, ret, raise, lift_res, gets, modify, try_except, res_bind in *.

Section DisabledExecution.
Context (host : Host).
Implicit Types (m : Machine) (args : gmap string pyval) (code : code_value).

(** Text that [build_foxdot_code] formats itself is never empty. *)
Lemma build_foxdot_code_built func_name args (s : FoxDotSession.t) t :
  build_foxdot_code func_name args s = Ok (Built t) ->
  template_nonempty t = true.
Proof.
  unfold build_foxdot_code.
  repeat match goal with
         | |- context [if String.eqb ?a ?b then _ else _] =>
             destruct (String.eqb a b)
         end;
    run_monad; unfold index, items_of, expect_str, as_mapping;
    repeat case_match; intros; simplify_eq;
    unfold template_nonempty; simpl; rewrite ?orb_true_r; reflexivity.
Qed.

(** Only [execute_code] and [get_session_state] pass an object through. *)
Lemma build_foxdot_code_passed func_name args (s : FoxDotSession.t) v :
  build_foxdot_code func_name args s = Ok (Passed v) ->
  (func_name = "execute_code" /\ args !! "code" = Some v)
  \/ func_name = "get_session_state".
Proof.
  unfold build_foxdot_code.
  repeat match goal with
         | |- context [if String.eqb ?a ?b then _ else _] =>
             destruct (String.eqb_spec a b)
         end;
    run_monad; unfold index, items_of, expect_str, as_mapping;
    repeat case_match; intros; simplify_eq; auto.
Qed.

(** Without a [notes] argument nothing is evaluated. *)
Lemma evaluate_notes_absent frame synth desc m :
  frame_args frame !! "notes" = None ->
  evaluate_notes host frame synth desc m
  = (Ok {| value := VNone; args_left := frame_args frame;
           synth_left := synth; desc_left := desc |}, m).
Proof. intros Hnone. unfold evaluate_notes. by rewrite Hnone. Qed.

(** With one, the machine is left as the expression leaves it. *)
Lemma evaluate_notes_present frame synth desc m source :
  frame_args frame !! "notes" = Some source ->
  snd (evaluate_notes host frame synth desc m) = snd (py_eval host frame source m) /\
  forall evaluated,
    fst (evaluate_notes host frame synth desc m) = Ok evaluated ->
    exists raw,
      fst (py_eval host frame source m) = Ok raw /\
      value evaluated = value raw /\
      args_left evaluated = args_left raw.
Proof.
  intros Hsome. unfold evaluate_notes. rewrite Hsome. run_monad.
  destruct (py_eval host frame source m) as [[raw|e] m1]; simpl.
  - split; [reflexivity|]. intros evaluated [= <-]. by exists raw.
  - split; [reflexivity|]. discriminate.
Qed.

(** A call that is no play call evaluates nothing: the block under
    [# Update session state] leaves the executor and the dictionary
    [args] as they are. *)
Lemma update_session_state_executor func_name args code auto_execute m :
  func_name <> "play_synth" -> func_name <> "play_drums" ->
  executor (snd (update_session_state host func_name args code auto_execute m))
    = executor m /\
  forall args',
    fst (update_session_state host func_name args code auto_execute m) = Ok args' ->
    args' = args.
Proof.
  intros Hsynth Hdrums.
  apply String.eqb_neq in Hsynth. apply String.eqb_neq in Hdrums.
  unfold update_session_state. rewrite Hsynth, Hdrums. cbn [orb].
  repeat match goal with
         | |- context [if ?b then _ else _] => destruct b
         end;
    run_monad; unfold index; simpl;
    repeat case_match; simplify_eq; simpl;
    (split; [reflexivity | intros ? ?; simplify_eq; reflexivity]).
Qed.
End DisabledExecution.

Section DisabledExecutionByCall.
Context (host : Host).
Implicit Types (m : Machine) (args : gmap string pyval) (result : CallResult).







(** The block under [# Update session state], for a play call. *)
Lemma update_session_state_play func_name args code auto_execute :
  func_name = "play_synth" \/ func_name = "play_drums" ->
  update_session_state host func_name args code auto_execute
  = (player <- lift_res (index args "player");;
     evaluated <- evaluate_notes host
                    {| frame_func_name := func_name; frame_args := args;
                       frame_code := code; frame_auto_execute := auto_execute |}
                    (get args "synth" (VStr "play"))
                    (get args "description" (VStr "Layer"));;
     now_created <- now host;;
     now_modified <- now host;;
     key <- lift_res (key_of player);;
     modify (with_session (fun s =>
       fst (FoxDotSession.add_layer key (synth_left evaluated) code
              (desc_left evaluated) (musical_props evaluated)
              now_created now_modified s)));;
     ret (args_left evaluated)).
Proof. intros [->| ->]; reflexivity. Qed.

(** What [play_synth] and [play_drums] do: the [notes] argument is
    evaluated, and the layer is added to the session as the evaluation
    left it. *)
Lemma update_play func_name args code auto_execute m args' m' :
  func_name = "play_synth" \/ func_name = "play_drums" ->
  update_session_state host func_name args code auto_execute m = (Ok args', m') ->
  exists player key evaluated m1,
    args !! "player" = Some player /\
    key_of player = Ok key /\
    evaluate_notes host
      {| frame_func_name := func_name; frame_args := args;
         frame_code := code; frame_auto_execute := auto_execute |}
      (get args "synth" (VStr "play")) (get args "description" (VStr "Layer")) m
    = (Ok evaluated, m1) /\
    args' = args_left evaluated /\
    executor m' = executor m1 /\
    ticks m' = S (S (ticks m1)) /\
    session m'
    = fst (FoxDotSession.add_layer key (synth_left evaluated) code
             (desc_left evaluated) (musical_props evaluated)
             (wall_clock host (ticks m1)) (wall_clock host (S (ticks m1)))
             (session m1)).
Proof.
  intros Hname. rewrite (update_session_state_play _ _ _ _ Hname).
  run_monad. unfold index, now.
  destruct (args !! "player") as [player|]; [|discriminate].
  destruct (evaluate_notes host _ _ _ m) as [[evaluated|e] m1] eqn:Heval;
    [|discriminate].
  simpl. destruct (key_of player) as [key|e] eqn:Hkey; [|discriminate].
  intros [= <- <-]. exists player, key, evaluated, m1. by repeat split.
Qed.
End DisabledExecutionByCall.




(* ===================================================================== *)
(** * Properties of the streaming agent *)
(* ===================================================================== *)

(** ** Events of a computation *)

Lemma count_type_app ty evs evs' :
  count_type ty (evs ++ evs') = (count_type ty evs + count_type ty evs')%nat.
Proof. unfold count_type. by rewrite filter_app, length_app. Qed.

Lemma count_type_singleton ty ev :
  count_type ty [ev] = if decide (StreamEvent.type ev = ty) then 1%nat else 0%nat.
Proof.
  unfold count_type. rewrite filter_cons, filter_nil.
  by destruct (decide (StreamEvent.type ev = ty)).
Qed.

Lemma bind_run {S A B} (c : M S A) (k : A -> M S B) (s : S) :
  bind c k s = match c s with
               | (Ok a, s') => k a s'
               | (Raise e, s') => (Raise e, s')
               end.
Proof. reflexivity. Qed.

Lemma emits_refl w : quiet w w.
Proof. split; [reflexivity|]. exists []. by rewrite app_nil_r. Qed.

Lemma emits_trans e1 d1 e2 d2 w1 w2 w3 :
  emits e1 d1 w1 w2 -> emits e2 d2 w2 w3 -> emits (e1 + e2) (d1 + d2) w1 w3.
Proof.
  intros (Hcm1 & evs1 & Hev1 & He1 & Hd1) (Hcm2 & evs2 & Hev2 & He2 & Hd2).
  split; [congruence|].
  exists (evs1 ++ evs2). rewrite Hev2, Hev1, <- app_assoc, !count_type_app.
  auto.
Qed.

Lemma quiet_trans w1 w2 w3 : quiet w1 w2 -> quiet w2 w3 -> quiet w1 w3.
Proof. apply (emits_trans 0 0 0 0). Qed.

Section Quiet.
Context (host : Host) (auto_execute : bool).
Import StreamingFoxDotAgent.

Lemma quiet_ret {A} (a : A) : always_quiet (ret a).
Proof. intros w. apply emits_refl. Qed.

Lemma quiet_raise {A} (e : exn) : always_quiet (raise (A := A) e).
Proof. intros w. apply emits_refl. Qed.

Lemma quiet_lift_res {A} (r : res A) : always_quiet (lift_res r).
Proof. intros w. apply emits_refl. Qed.

Lemma quiet_bind {A B} (c : M World A) (k : A -> M World B) :
  always_quiet c -> (forall a, always_quiet (k a)) -> always_quiet (bind c k).
Proof.
  intros Hc Hk w. unfold bind. specialize (Hc w).
  destruct (c w) as [[a|e] w1]; simpl in *; [|exact Hc].
  eapply quiet_trans; [exact Hc | apply Hk].
Qed.

Lemma quiet_on_machine {A} (c : M Machine A) : always_quiet (on_machine c).
Proof.
  intros w. unfold on_machine. destruct (c (machine w)) as [r m1]; simpl.
  split; [reflexivity|]. exists []. by rewrite app_nil_r.
Qed.

Lemma quiet_contents_append (c : Content) : always_quiet (modify (contents_append c)).
Proof.
  intros w. split; [reflexivity|]. exists []. simpl. by rewrite app_nil_r.
Qed.

(** What one [yield] does. *)
Lemma yield_event_spec type data w :
  exists ev,
    StreamEvent.type ev = type /\
    yield_event host type data w
      = (Ok tt, {| machine := snd (now host (machine w));
                   context_manager := context_manager w;
                   contents := contents w;
                   emitted := emitted w ++ [ev] |}).
Proof. eexists. split; [|reflexivity]. reflexivity. Qed.

Lemma quiet_yield_event type data :
  type <> ERROR -> type <> DONE -> always_quiet (yield_event host type data).
Proof.
  intros Herror Hdone w.
  destruct (yield_event_spec type data w) as (ev & Hty & ->). simpl.
  split; [reflexivity|]. exists [ev].
  rewrite !count_type_singleton, Hty.
  split; [reflexivity|]. split; by case_decide.
Qed.

Lemma quiet_for_each {A L} (body : L -> A -> M World L) (l : list A) :
  (forall acc x, always_quiet (body acc x)) ->
  forall acc, always_quiet (for_each l body acc).
Proof.
  intros Hbody. induction l as [|x l IH]; intros acc; simpl.
  - apply quiet_ret.
  - apply quiet_bind; [apply Hbody | exact IH].
Qed.

Lemma quiet_consume {L} (stream : Stream) (body : L -> Part -> M World L) :
  (forall acc x, always_quiet (body acc x)) ->
  forall acc, always_quiet (consume stream body acc).
Proof.
  intros Hbody acc. unfold consume. apply quiet_bind.
  - apply quiet_for_each. intros acc' chunk. by apply quiet_for_each.
  - intros l. destruct (failure stream); [apply quiet_raise | apply quiet_ret].
Qed.
End Quiet.

Create HintDb quiet.
#[local] Hint Resolve quiet_ret quiet_raise quiet_lift_res quiet_on_machine
  quiet_contents_append : quiet.

(** Proves [always_quiet] of a computation built from binds, branches and
    events other than [ERROR] and [DONE]. *)
Ltac prove_quiet :=
  repeat first
    [ apply quiet_yield_event; discriminate
    | solve [auto with quiet]
    | apply quiet_bind; [|intros ?]
    | match goal with
      | |- always_quiet (if ?b then _ else _) => destruct b
      | |- always_quiet (match ?x with _ => _ end) => destruct x
      end ].

Section TurnFacts.
Context (host : Host) (auto_execute : bool).
Import StreamingFoxDotAgent.

Lemma quiet_close_thinking l : always_quiet (close_thinking host l).
Proof. unfold close_thinking. prove_quiet. Qed.

Lemma quiet_handle_part l part : always_quiet (handle_part host auto_execute l part).
Proof.
  unfold handle_part, _execute_function.
  pose proof quiet_close_thinking. prove_quiet.
Qed.

Lemma quiet_continuation_part l part : always_quiet (continuation_part host l part).
Proof. unfold continuation_part. prove_quiet. Qed.

(** The first pass neither records a turn nor yields [ERROR] or [DONE],
    whether it completes or raises. *)
Lemma quiet_first_pass stream : always_quiet (first_pass host auto_execute stream).
Proof.
  unfold first_pass. apply quiet_bind.
  - apply quiet_consume. apply quiet_handle_part.
  - intros l. prove_quiet.
Qed.

(** The continuation pass never raises; it yields one [ERROR] event when
    its stream raises, and none otherwise. *)
Lemma continue_after_functions_spec calls continuation w :
  exists w',
    _continue_after_functions host calls continuation w = (Ok tt, w') /\
    emits (match failure continuation with Some _ => 1 | None => 0 end) 0 w w'.
Proof.
  unfold _continue_after_functions.
  set (body := bind (consume _ _ _) _).
  assert (Hbody : always_quiet body).
  { unfold body. apply quiet_bind.
    - apply quiet_consume. apply quiet_continuation_part.
    - intros l. prove_quiet. }
  assert (Hraises : forall w0,
             match failure continuation with
             | Some _ => exists e, fst (body w0) = Raise e
             | None => fst (body w0) = Ok tt
             end).
  { intros w0. unfold body, consume, bind.
    assert (Hloop : forall cs acc w1,
               exists acc', fst (for_each cs
                                   (fun l chunk => for_each chunk (continuation_part host) l)
                                   acc w1) = Ok acc').
    { assert (Hinner : forall chunk acc w1,
                 exists acc', fst (for_each chunk (continuation_part host) acc w1) = Ok acc').
      { induction chunk as [|part chunk IH]; intros acc w1; simpl; [by eexists|].
        unfold bind, continuation_part at 1.
        destruct (has_text part && negb (thought part)).
        - run_monad. destruct (fst acc); simpl; apply IH.
        - apply IH. }
      induction cs as [|chunk cs IH]; intros acc w1; simpl; [by eexists|].
      unfold bind at 1.
      destruct (Hinner chunk acc w1) as (acc' & Hacc').
      destruct (for_each chunk (continuation_part host) acc w1) as [[a|e] w2];
        simpl in Hacc'; [|discriminate].
      apply IH. }
    destruct (Hloop (chunks continuation) (false, "") w0) as (acc' & Hacc').
    destruct (for_each (chunks continuation) _ (false, "") w0) as [[a|e] w2];
      simpl in Hacc'; [|discriminate].
    destruct (failure continuation) as [e|]; simpl.
    - by eexists.
    - destruct (fst a); reflexivity. }
  unfold bind at 1, modify at 1, try_except.
  set (w0 := contents_append _ w).
  specialize (Hbody w0). specialize (Hraises w0).
  assert (Hw0 : quiet w w0) by apply quiet_contents_append.
  destruct (body w0) as [[[]|e] w1] eqn:Hrun; simpl in *.
  - exists w1. split; [reflexivity|].
    destruct (failure continuation); [by destruct Hraises|].
    exact (quiet_trans _ _ _ Hw0 Hbody).
  - destruct (failure continuation); [|discriminate].
    destruct (yield_event_spec host ERROR (ContinuationErrorData e) w1)
      as (ev & Hty & ->).
    eexists. split; [reflexivity|].
    apply (emits_trans 0 0 1 0 w w1); [exact (quiet_trans _ _ _ Hw0 Hbody)|].
    split; [reflexivity|]. exists [ev]. simpl.
    by rewrite !count_type_singleton, Hty.
Qed.
End TurnFacts.

Section TurnOutcome.
Context (host : Host) (auto_execute : bool).
Import StreamingFoxDotAgent.

Lemma last_type_snoc evs ev : last_type (evs ++ [ev]) = Some (StreamEvent.type ev).
Proof. unfold last_type. by rewrite last_snoc. Qed.

(** The end of a turn: the turn is recorded first; then either the
    generated codes are joined and [DONE] is yielded, or the join raises. *)
Lemma finalize_spec l w :
  let stamp := wall_clock host (ticks (machine w)) in
  let recorded := ContextManager.add_turn (recorded_turn l stamp) (context_manager w) in
  exists w',
    context_manager w' = recorded /\
    match join_generated_code (function_calls_made l) with
    | Ok _ =>
        finalize host l w = (Ok tt, w') /\
        exists ev, StreamEvent.type ev = DONE /\ emitted w' = emitted w ++ [ev]
    | Raise e =>
        finalize host l w = (Raise e, w') /\ emitted w' = emitted w
    end.
Proof.
  intros stamp recorded. unfold finalize.
  destruct (join_generated_code (function_calls_made l)) as [t|e] eqn:Hjoin.
  - eexists. split; [|split].
    2:{ unfold bind, on_machine, modify, lift_res, now, yield_event. simpl.
        reflexivity. }
    + reflexivity.
    + eexists. split; [|reflexivity]. reflexivity.
  - eexists. split; [|split].
    2:{ unfold bind, on_machine, modify, lift_res, now. simpl.
        reflexivity. }
    + reflexivity.
    + reflexivity.
Qed.

(** Past its prologue, [chat_stream] is its [try] block. *)
Lemma chat_stream_after_prologue user_message summary_reply stream continuation w w1 :
  prologue host user_message summary_reply w = (Ok tt, w1) ->
  chat_stream host auto_execute user_message summary_reply stream continuation w
  = try_except
      (l <- first_pass host auto_execute stream;;
       (match function_calls_made l with
        | [] => ret tt
        | _ :: _ =>
            modify (contents_append
                      {| content_role := "model";
                         content_parts :=
                           (if str_nonempty (full_response l)
                            then [TextPart (full_response l)] else [])
                           ++ function_responses (function_calls_made l) |});;
            _continue_after_functions host (function_calls_made l) continuation
        end);;
       finalize host l)
      (fun e => yield_event host ERROR (ErrorData e)) w1.
Proof.
  unfold prologue, chat_stream.
  set (guarded := try_except _ _).
  unfold bind.
  destruct (consolidation_step host summary_reply w) as [[[]|e] w0]; [|discriminate].
  destruct (add_user_message host user_message w0) as [[[]|e] w0']; [|discriminate].
  by intros [= ->].
Qed.
End TurnOutcome.

Section TurnTheorem.
Context (host : Host) (auto_execute : bool).
Import StreamingFoxDotAgent.

(** Between the first pass and the end of the turn: the continuation
    pass, when some call was made. *)
Lemma continuation_spec l continuation w :
  exists w',
    (match function_calls_made l with
     | [] => ret tt
     | _ :: _ =>
         modify (contents_append
                   {| content_role := "model";
                      content_parts :=
                        (if str_nonempty (full_response l)
                         then [TextPart (full_response l)] else [])
                        ++ function_responses (function_calls_made l) |});;
         _continue_after_functions host (function_calls_made l) continuation
     end) w = (Ok tt, w') /\
    emits (continuation_errors l continuation) 0 w w'.
Proof.
  unfold continuation_errors.
  destruct (function_calls_made l) as [|fc calls].
  - exists w. split; [reflexivity | apply emits_refl].
  - unfold bind, modify.
    set (w0 := contents_append _ w).
    destruct (continue_after_functions_spec host (fc :: calls) continuation w0)
      as (w' & -> & Hemits).
    exists w'. split; [reflexivity|].
    assert (Hw0 : quiet w w0) by apply quiet_contents_append.
    apply (emits_trans 0 0 _ 0 w w0 w' Hw0) in Hemits. simpl in Hemits.
    by destruct (failure continuation).
Qed.
End TurnTheorem.

(** C2 as amended.  Once the prologue of a turn (consolidation check and
    user message) has completed, the generator never raises.  If the first
    generation pass raises, because the stream fails or a call raises, the
    turn yields exactly one [ERROR] event, as its last event, and no
    [DONE] event, and the context manager is as it was when the pass
    began.  If the first pass completes and the generated codes are
    strings, the turn is recorded and exactly one [DONE] event is yielded,
    as the last event; before it there is one [ERROR] event when the
    continuation pass ran and its stream raised (the continuation reports
    the failure and the turn completes), and none otherwise. *)
Theorem turn_ends_in_done_or_error
    (host : Host) (auto_execute : bool) (user_message : string)
    (summary_reply : res (option string)) (stream continuation : Stream)
    (w w1 : World) :
  prologue host user_message summary_reply w = (Ok tt, w1) ->
  let run := StreamingFoxDotAgent.chat_stream host auto_execute user_message
               summary_reply stream continuation w in
  exists evs,
    fst run = Ok tt /\
    emitted (snd run) = emitted w1 ++ evs /\
    match StreamingFoxDotAgent.first_pass host auto_execute stream w1 with
    | (Raise _, _) =>
        count_type ERROR evs = 1%nat /\
        count_type DONE evs = 0%nat /\
        last_type evs = Some ERROR /\
        context_manager (snd run) = context_manager w1
    | (Ok l, _) =>
        is_ok (join_generated_code (function_calls_made l)) = true ->
        count_type DONE evs = 1%nat /\
        last_type evs = Some DONE /\
        count_type ERROR evs = continuation_errors l continuation /\
        exists stamp,
          context_manager (snd run)
            = ContextManager.add_turn (recorded_turn l stamp) (context_manager w1)
    end.
Proof.
  intros Hprologue run. subst run.
  rewrite (chat_stream_after_prologue host auto_execute _ _ _ _ _ _ Hprologue).
  unfold try_except. rewrite bind_run.
  pose proof (quiet_first_pass host auto_execute stream w1) as Hfirst.
  destruct (StreamingFoxDotAgent.first_pass host auto_execute stream w1)
    as [[l|e] w2]; simpl in Hfirst.
  - (* the first pass completes *)
    rewrite bind_run.
    destruct (continuation_spec host l continuation w2) as (w3 & -> & Hcont).
    pose proof (emits_trans _ _ _ _ _ _ _ Hfirst Hcont) as Hmid. simpl in Hmid.
    destruct Hmid as (Hcm & evs & Hevs & Herr & Hdone).
    destruct (finalize_spec host l w3) as (w4 & Hcm4 & Hfinal).
    cbn beta iota.
    destruct (join_generated_code (function_calls_made l)) as [t|e].
    + destruct Hfinal as (-> & ev & Hty & Hev). simpl.
      exists (evs ++ [ev]). split; [reflexivity|].
      split; [by rewrite Hev, Hevs, <- app_assoc|].
      intros _. rewrite !count_type_app, !count_type_singleton, Hty, Herr, Hdone.
      rewrite last_type_snoc, Hty. simpl.
      split; [reflexivity|]. split; [reflexivity|]. split; [lia|].
      eexists. by rewrite Hcm4, Hcm.
    + destruct Hfinal as (-> & Hev).
      destruct (yield_event_spec host ERROR (ErrorData e) w4)
        as (ev & Hty & ->). simpl.
      exists (evs ++ [ev]). split; [reflexivity|].
      split; [by rewrite Hev, Hevs, <- app_assoc|].
      discriminate.
  - (* the first pass raises *)
    destruct Hfirst as (Hcm & evs & Hevs & Herr & Hdone).
    destruct (yield_event_spec host ERROR (ErrorData e) w2)
      as (ev & Hty & ->). simpl.
    exists (evs ++ [ev]). split; [reflexivity|].
    split; [by rewrite Hevs, <- app_assoc|].
    rewrite !count_type_app, !count_type_singleton, Hty, Herr, Hdone.
    rewrite last_type_snoc, Hty. simpl. auto.
Qed.

Lemma turn_ends_in_done_or_error_witness :
  let w := Fixtures.fresh_world in
  let w1 := snd (prologue Fixtures.offline "stop" (Ok None) w) in
  let run := StreamingFoxDotAgent.chat_stream Fixtures.offline false "stop" (Ok None)
               Fixtures.stop_all_stream Fixtures.broken_stream w in
  exists evs,
    fst run = Ok tt /\
    emitted (snd run) = emitted w1 ++ evs /\
    count_type DONE evs = 1%nat /\
    last_type evs = Some DONE /\
    count_type ERROR evs = 1%nat.
Proof.
  intros w w1 run.
  assert (Hprologue : prologue Fixtures.offline "stop" (Ok None) w = (Ok tt, w1))
    by (vm_compute; reflexivity).
  destruct (turn_ends_in_done_or_error Fixtures.offline false "stop" (Ok None)
              Fixtures.stop_all_stream Fixtures.broken_stream w w1 Hprologue)
    as (evs & Hok & Hevs & Hcase).
  exists evs. split; [exact Hok|]. split; [exact Hevs|].
  assert (Hfirst : fst (StreamingFoxDotAgent.first_pass Fixtures.offline false
                          Fixtures.stop_all_stream w1)
                   = Ok {| function_calls_made :=
                             [{| call_name := "stop_all"; call_args := ∅;
                                 call_result := Generated (Built [Lit "Clock.clear()"]) |}];
                           full_thinking := "silence it"; full_response := "";
                           is_thinking := false; is_responding := false |})
    by (vm_compute; reflexivity).
  destruct (StreamingFoxDotAgent.first_pass Fixtures.offline false
              Fixtures.stop_all_stream w1) as [r w2].
  simpl in Hfirst. subst r.
  destruct (Hcase eq_refl) as (Hdone & Hlast & Herror & _).
  auto.
Defined.

(** C2, the claim as stated fails: the model asks for [stop_all] and the
    continuation stream raises; the turn yields an [ERROR] event and then a
    [DONE] event, and the turn is recorded. *)
Lemma continuation_failure_yields_error_and_done :
  let run := StreamingFoxDotAgent.chat_stream Fixtures.offline false "stop" (Ok None)
               Fixtures.stop_all_stream Fixtures.broken_stream Fixtures.fresh_world in
  fst run = Ok tt /\
  map StreamEvent.type (emitted (snd run))
    = [THINKING_START; THINKING_CHUNK; THINKING_END;
       FUNCTION_CALL_START; FUNCTION_CALL; FUNCTION_RESULT; FUNCTION_CALL_END;
       ERROR; DONE] /\
  length (ContextManager.turns (context_manager (snd run))) = 1%nat /\
  ContextManager.turns (context_manager Fixtures.fresh_world) = [].
Proof. vm_compute. repeat split. Qed.

Section ConsolidationStep.
Context (host : Host) (auto_execute : bool).
Import StreamingFoxDotAgent.

Lemma yield_event_context_manager type data w :
  context_manager (snd (yield_event host type data w)) = context_manager w.
Proof. reflexivity. Qed.

(** The consolidation block changes the context manager only by calling
    [consolidate] on a summary text that is not empty. *)
Lemma consolidation_step_context_manager summary_reply w :
  context_manager (snd (consolidation_step host summary_reply w))
  = match ContextManager.needs_consolidation (context_manager w), summary_reply with
    | Ok true, Ok (Some summary) =>
        if str_nonempty summary
        then ContextManager.consolidate summary (context_manager w)
        else context_manager w
    | _, _ => context_manager w
    end.
Proof.
  unfold consolidation_step. rewrite bind_run. unfold gets.
  rewrite bind_run. unfold lift_res at 1.
  destruct (ContextManager.needs_consolidation (context_manager w)) as [[|]|e];
    [|reflexivity|reflexivity].
  rewrite bind_run.
  destruct (yield_event_spec host THINKING_START (Text "Consolidating context...") w)
    as (ev & _ & ->).
  rewrite bind_run. unfold lift_res at 1.
  destruct summary_reply as [[summary|]|e]; [|reflexivity|reflexivity].
  destruct (str_nonempty summary); reflexivity.
Qed.

(** After the prologue the rest of the turn adds at most one turn to the
    context manager and changes nothing else in it. *)
Lemma guarded_context_manager stream continuation w (handler_data : exn -> EventData) :
  let body :=
    (l <- first_pass host auto_execute stream;;
     (match function_calls_made l with
      | [] => ret tt
      | _ :: _ =>
          modify (contents_append
                    {| content_role := "model";
                       content_parts :=
                         (if str_nonempty (full_response l)
                          then [TextPart (full_response l)] else [])
                         ++ function_responses (function_calls_made l) |});;
          _continue_after_functions host (function_calls_made l) continuation
      end);;
     finalize host l) in
  let w' := snd (try_except body (fun e => yield_event host ERROR (handler_data e)) w) in
  context_manager w' = context_manager w
  \/ exists turn, context_manager w' = ContextManager.add_turn turn (context_manager w).
Proof.
  intros body w'. subst w' body. unfold try_except. rewrite bind_run.
  pose proof (quiet_first_pass host auto_execute stream w) as Hfirst.
  destruct (first_pass host auto_execute stream w) as [[l|e] w2]; simpl in Hfirst.
  - rewrite bind_run.
    destruct (continuation_spec host l continuation w2) as (w3 & -> & Hcont).
    destruct Hfirst as (Hcm2 & _). destruct Hcont as (Hcm3 & _).
    destruct (finalize_spec host l w3) as (w4 & Hcm4 & Hfinal).
    right. eexists.
    destruct (join_generated_code (function_calls_made l)) as [t|e].
    + destruct Hfinal as (-> & _). simpl. by rewrite Hcm4, Hcm3, Hcm2.
    + destruct Hfinal as (-> & _).
      rewrite yield_event_context_manager. by rewrite Hcm4, Hcm3, Hcm2.
  - left. rewrite yield_event_context_manager. by destruct Hfirst.
Qed.

Lemma add_user_message_spec user_message w :
  exists w',
    add_user_message host user_message w = (Ok tt, w') /\
    context_manager w' = context_manager w.
Proof. eexists. split; reflexivity. Qed.

(** Over a whole turn: the context manager after the consolidation
    block, with at most one turn added. *)
Lemma chat_stream_context_manager user_message summary_reply stream continuation w :
  let cm := context_manager (snd (consolidation_step host summary_reply w)) in
  let cm' := context_manager
               (snd (chat_stream host auto_execute user_message summary_reply
                       stream continuation w)) in
  cm' = cm \/ exists turn, cm' = ContextManager.add_turn turn cm.
Proof.
  intros cm cm'. subst cm cm'. unfold chat_stream.
  set (guarded := try_except _ _).
  rewrite bind_run.
  destruct (consolidation_step host summary_reply w) as [[[]|e] w0]; [|by left].
  rewrite bind_run.
  destruct (add_user_message_spec user_message w0) as (w1 & -> & Hcm1).
  simpl. rewrite <- Hcm1.
  apply guarded_context_manager.
Qed.
End ConsolidationStep.

(** C7.  When the summarisation request of a turn answers with an empty
    text, or with none, the consolidation block leaves the context manager
    exactly as it was: turns, rolling summary and running total.  Over the
    whole turn nothing is dropped either: the rolling summary is the one
    from before and the turns are those from before, followed by the turn
    this message records, if it records one. *)
Theorem empty_summary_is_a_no_op
    (host : Host) (auto_execute : bool) (user_message : string)
    (stream continuation : Stream) (w : World) (summary_reply : res (option string)) :
  summary_reply = Ok (Some "") \/ summary_reply = Ok None ->
  context_manager (snd (StreamingFoxDotAgent.consolidation_step host summary_reply w))
    = context_manager w /\
  let cm' := context_manager
               (snd (StreamingFoxDotAgent.chat_stream host auto_execute user_message
                       summary_reply stream continuation w)) in
  ContextManager.consolidated_summary cm'
    = ContextManager.consolidated_summary (context_manager w) /\
  exists recorded,
    ContextManager.turns cm' = ContextManager.turns (context_manager w) ++ recorded /\
    (length recorded <= 1)%nat.
Proof.
  intros Hempty.
  assert (Hstep : context_manager
                    (snd (StreamingFoxDotAgent.consolidation_step host summary_reply w))
                  = context_manager w).
  { rewrite consolidation_step_context_manager.
    destruct (ContextManager.needs_consolidation (context_manager w)) as [[|]|e];
      destruct Hempty as [-> | ->]; reflexivity. }
  split; [exact Hstep|].
  intros cm'. subst cm'.
  destruct (chat_stream_context_manager host auto_execute user_message summary_reply
              stream continuation w) as [Hcm | (turn & Hcm)];
    simpl in Hcm; rewrite Hcm, Hstep.
  - split; [reflexivity|]. exists []. split; [by rewrite app_nil_r | simpl; lia].
  - split; [reflexivity|]. exists [turn]. split; [reflexivity|]. simpl. lia.
Qed.

Lemma empty_summary_is_a_no_op_witness :
  let w := {| machine := Fixtures.fresh_machine;
              context_manager := Fixtures.crowded_manager;
              contents := []; emitted := [] |} in
  ContextManager.needs_consolidation (context_manager w) = Ok true /\
  context_manager
    (snd (StreamingFoxDotAgent.consolidation_step Fixtures.offline (Ok (Some "")) w))
    = Fixtures.crowded_manager.
Proof.
  intros w. split; [vm_compute; reflexivity|].
  exact (proj1 (empty_summary_is_a_no_op Fixtures.offline false "hello"
                  Fixtures.broken_stream Fixtures.broken_stream w (Ok (Some ""))
                  (or_introl eq_refl))).
Defined.

(* ===================================================================== *)
(** * Further properties of the session store *)
(* ===================================================================== *)

Section NextPlayer.
Import FoxDotSession.
Implicit Types (s : FoxDotSession.t) (player_type : string).

(** [find] returns the first element that passes the test. *)
Lemma find_first {A} (f : A -> bool) (l : list A) (x : A) :
  List.find f l = Some x ->
  exists earlier later,
    l = earlier ++ x :: later /\ f x = true /\ Forall (fun y => f y = false) earlier.
Proof.
  induction l as [|y l IH]; simpl; [discriminate|].
  destruct (f y) eqn:Hy.
  - intros [= ->]. exists [], l. auto.
  - intros Hfind. destruct (IH Hfind) as (earlier & later & -> & Hx & Hearlier).
    exists (y :: earlier), later. auto.
Qed.

Lemma find_nowhere {A} (f : A -> bool) (l : list A) :
  List.find f l = None -> Forall (fun y => f y = false) l.
Proof.
  induction l as [|y l IH]; simpl; [constructor|].
  destruct (f y) eqn:Hy; [discriminate|]. auto.
Qed.

Lemma players_for_cases player_type :
  players_for player_type = DRUM_PLAYERS \/ players_for player_type = BASS_PLAYERS
  \/ players_for player_type = PAD_PLAYERS \/ players_for player_type = MELODIC_PLAYERS.
Proof.
  unfold players_for.
  destruct (_ || _); [by left|].
  destruct (String.eqb player_type "bass"); [by right; left|].
  destruct (String.eqb player_type "pad"); auto.
Qed.

Lemma players_for_first player_type :
  exists first rest, players_for player_type = first :: rest.
Proof.
  destruct (players_for_cases player_type) as [-> | [-> | [-> | ->]]];
    vm_compute; eauto.
Qed.

(** What [get_next_player] answers, in the two cases of its loop. *)
Lemma get_next_player_cases player_type s :
  (exists player earlier later,
      get_next_player player_type s = Ok player /\
      players_for player_type = earlier ++ player :: later /\
      has_layer (KStr player) s = false /\
      Forall (fun p => has_layer (KStr p) s = true) earlier)
  \/ (exists first rest,
        get_next_player player_type s = Ok first /\
        players_for player_type = first :: rest /\
        Forall (fun p => has_layer (KStr p) s = true) (first :: rest)).
Proof.
  unfold get_next_player.
  destruct (List.find _ _) as [player|] eqn:Hfind.
  - left. apply find_first in Hfind as (earlier & later & Heq & Hfree & Hearlier).
    exists player, earlier, later. split; [reflexivity|]. split; [exact Heq|].
    split; [by apply negb_true_iff|].
    eapply Forall_impl; [exact Hearlier|]. intros p. apply negb_false_iff.
  - right. apply find_nowhere in Hfind.
    destruct (players_for_first player_type) as (first & rest & Heq).
    rewrite Heq in *. exists first, rest. split; [reflexivity|]. split; [reflexivity|].
    eapply Forall_impl; [exact Hfind|]. intros p. apply negb_false_iff.
Qed.
End NextPlayer.


Section LayerStore.
Import FoxDotSession.
Implicit Types (s : FoxDotSession.t) (n : pykey).

Lemma with_layers_same s : with_layers (active_layers s) s = s.
Proof. by destruct s as [? ? [] ? ?]. Qed.

Lemma with_layers_twice layers layers' s :
  with_layers layers (with_layers layers' s) = with_layers layers s.
Proof. reflexivity. Qed.

Lemma remove_layer_absent n s :
  active_layers s !! n = None -> remove_layer n s = (s, false).
Proof. intros Hnone. unfold remove_layer. by rewrite Hnone. Qed.

Lemma remove_layer_layers n s :
  active_layers (fst (remove_layer n s)) = delete n (active_layers s).
Proof.
  unfold remove_layer.
  destruct (active_layers s !! n) eqn:Hn; simpl; [reflexivity|].
  symmetry. by apply delete_id.
Qed.

Lemma upsert_layers u s :
  active_layers (upsert u s)
  = <[u_name u := snd (add_layer (u_name u) (u_synth u) (u_code u) (u_description u)
                         (u_props u) (u_now_created u) (u_now_modified u) s)]>
      (active_layers s).
Proof. reflexivity. Qed.
End LayerStore.

(** X2.  Adding a layer under a name that has none and removing it again
    gives back the session as it was: layers, settings and histories. *)
Theorem remove_layer_undoes_add_layer
    (n : pykey) (synth : pyval) (code : code_value) (description : pyval)
    (props : gmap string pyval) (now_created now_modified : string)
    (s : FoxDotSession.t) :
  FoxDotSession.active_layers s !! n = None ->
  FoxDotSession.remove_layer n
    (fst (FoxDotSession.add_layer n synth code description props
            now_created now_modified s))
  = (s, true).
Proof.
  intros Hnone. unfold FoxDotSession.remove_layer, FoxDotSession.add_layer; simpl.
  rewrite active_layers_with_layers, lookup_insert_eq, with_layers_twice.
  rewrite delete_insert_id by exact Hnone.
  by rewrite with_layers_same.
Qed.

Lemma remove_layer_undoes_add_layer_witness :
  let s := session Fixtures.fresh_machine in
  FoxDotSession.remove_layer (KStr "d1")
    (fst (FoxDotSession.add_layer (KStr "d1") (VStr "play") (Built [Lit "d1 >> play(x)"])
            (VStr "beat") {["pattern" := VStr "x-o-"]} "T0" "T1" s))
  = (s, true).
Proof.
  exact (remove_layer_undoes_add_layer (KStr "d1") (VStr "play") (Built [Lit "d1 >> play(x)"])
           (VStr "beat") {["pattern" := VStr "x-o-"]} "T0" "T1"
           (session Fixtures.fresh_machine) eq_refl).
Defined.

(** X3.  [remove_layer] answers whether the name had a layer; afterwards
    the name has none, every other layer and the settings and histories
    are as they were, and removing the name once more answers [False] and
    changes nothing. *)
Theorem remove_layer_then_again (n : pykey) (s : FoxDotSession.t) :
  let s1 := fst (FoxDotSession.remove_layer n s) in
  snd (FoxDotSession.remove_layer n s) = FoxDotSession.has_layer n s /\
  FoxDotSession.active_layers s1 = delete n (FoxDotSession.active_layers s) /\
  FoxDotSession.with_layers (FoxDotSession.active_layers s) s1 = s /\
  FoxDotSession.remove_layer n s1 = (s1, false).
Proof.
  intros s1. subst s1. split_and!.
  - unfold FoxDotSession.remove_layer, FoxDotSession.has_layer.
    by destruct (FoxDotSession.active_layers s !! n).
  - apply remove_layer_layers.
  - unfold FoxDotSession.remove_layer.
    destruct (FoxDotSession.active_layers s !! n); simpl;
      [rewrite with_layers_twice|]; apply with_layers_same.
  - apply remove_layer_absent. rewrite remove_layer_layers. apply lookup_delete_eq.
Qed.

(** X4.  After any sequence of upserts the names that have a layer are
    those that had one before together with those the sequence targets: no
    layer is lost, and a name the sequence does not target keeps the very
    layer it had.  Tempo, scale, root and the two histories are as
    before. *)
Theorem upsert_all_adds_its_names (us : list Upsert) (s : FoxDotSession.t) :
  let s' := upsert_all us s in
  (dom (FoxDotSession.active_layers s')
     = (dom (FoxDotSession.active_layers s) ∪ list_to_set (u_name <$> us) : gset pykey)) /\
  (forall n, n ∉ u_name <$> us ->
     FoxDotSession.active_layers s' !! n = FoxDotSession.active_layers s !! n) /\
  FoxDotSession.with_layers (FoxDotSession.active_layers s) s' = s.
Proof.
  revert s. induction us as [|u us IH]; intros s; simpl.
  - split_and!; [by rewrite union_empty_r_L | done | apply with_layers_same].
  - destruct (IH (upsert u s)) as (Hdom & Hothers & Hframe).
    split_and!.
    + rewrite Hdom, upsert_layers, dom_insert_L.
      rewrite (comm_L (∪) {[u_name u]}), <- (assoc_L (∪)). reflexivity.
    + intros n Hn. apply not_elem_of_cons in Hn as [Hne Hn].
      rewrite (Hothers n Hn). by apply upsert_lookup_other.
    + rewrite <- (with_layers_twice _ (FoxDotSession.active_layers (upsert u s))).
      rewrite Hframe. unfold upsert, FoxDotSession.add_layer; simpl.
      rewrite with_layers_twice. apply with_layers_same.
Qed.

(** X5.  The summary of the session shows the last five chat messages, or
    all of them when there are fewer, in order; right after
    [add_chat_message] the last message shown is the one just added. *)
Theorem context_summary_shows_latest_messages
    (role content : string) (code_generated : option template)
    (layers_affected : option (list string)) (now : string) (s : FoxDotSession.t) :
  let s' := fst (FoxDotSession.add_chat_message role content code_generated
                   layers_affected now s) in
  let message := snd (FoxDotSession.add_chat_message role content code_generated
                        layers_affected now s) in
  let shown := shown_messages (FoxDotSession.get_context_summary s') in
  last shown = Some message /\
  length shown = Nat.min 5 (S (length (FoxDotSession.chat_history s))) /\
  (exists earlier, FoxDotSession.chat_history s ++ [message] = earlier ++ shown) /\
  shown_state (FoxDotSession.get_context_summary s') = FoxDotSession.music_state s.
Proof.
  intros s' message shown. subst s' message shown.
  unfold FoxDotSession.get_context_summary, FoxDotSession.add_chat_message.
  cbn [fst snd shown_messages shown_state FoxDotSession.chat_history
       FoxDotSession.music_state].
  set (message := ChatMessage.mk _ _ _ _ _).
  set (history := FoxDotSession.chat_history s).
  change (-5)%Z with (- (5))%Z.
  rewrite py_slice_from_last by lia.
  change (Z.to_nat 5) with 5%nat.
  assert (Hlen : length (history ++ [message]) = S (length history))
    by (rewrite length_app; simpl; lia).
  rewrite Hlen.
  split_and!.
  - rewrite drop_app_le by lia. apply last_snoc.
  - rewrite length_drop, Hlen. lia.
  - eexists. symmetry. apply take_drop.
  - reflexivity.
Qed.

(* ===================================================================== *)
(** * Further properties of call resolution *)
(* ===================================================================== *)

Section Resolution.
Context (host : Host).
Implicit Types (m : Machine) (args : gmap string pyval) (code : code_value).

(** [execute_function_on], step by step. *)
Lemma execute_function_on_unfold func_name args auto_execute m :
  execute_function_on host func_name args auto_execute m =
  if String.eqb func_name "get_session_state"
  then (Ok (StateResult (FoxDotSession.get_context_summary (session m)), args), m)
  else
    match build_foxdot_code func_name args (session m) with
    | Raise e => (Raise e, m)
    | Ok code =>
        if code_truthy code then
          match update_session_state host func_name args code auto_execute m with
          | (Raise e, m1) => (Raise e, m1)
          | (Ok args', m1) =>
              let explanation := get args' "description" VNone in
              if auto_execute then
                if code_is_str code
                then (Ok (Executed (runtime host (history_with code explanation m1)) code,
                          args'),
                      after_execution host code explanation m1)
                else (Raise (TypeError "expected string or bytes-like object"),
                      {| session := session m1;
                         executor := FoxDotExecutor.mk (history_with code explanation m1);
                         ticks := ticks m1 |})
              else (Ok (Generated code, args'), m1)
          end
        else (Ok (BuildFailure, args), m)
    end.
Proof.
  unfold execute_function_on.
  destruct (String.eqb func_name "get_session_state"); [reflexivity|].
  unfold bind, gets, lift_res, ret.
  destruct (build_foxdot_code func_name args (session m)) as [code|e]; [|reflexivity].
  destruct (code_truthy code); cbn [negb]; [|reflexivity].
  destruct (update_session_state host func_name args code auto_execute m)
    as [[args'|e] m1]; [|reflexivity].
  destruct auto_execute; [|reflexivity].
  unfold executor_execute. destruct (code_is_str code); reflexivity.
Qed.

(** [execute_function], step by step. *)
Lemma execute_function_unfold func_name args auto_execute m :
  execute_function host func_name args auto_execute m =
  if String.eqb func_name "get_session_state"
  then (Ok (StateResult (FoxDotSession.get_context_summary (session m))), m)
  else
    match build_foxdot_code func_name args (session m) with
    | Raise e => (Raise e, m)
    | Ok code =>
        if code_truthy code then
          match update_session_state host func_name args code auto_execute m with
          | (Raise e, m1) => (Raise e, m1)
          | (Ok args', m1) =>
              let explanation := get args' "description" VNone in
              if auto_execute then
                if code_is_str code
                then (Ok (Executed (runtime host (history_with code explanation m1)) code),
                      after_execution host code explanation m1)
                else (Raise (TypeError "expected string or bytes-like object"),
                      {| session := session m1;
                         executor := FoxDotExecutor.mk (history_with code explanation m1);
                         ticks := ticks m1 |})
              else (Ok (Generated code), m1)
          end
        else (Ok BuildFailure, m)
    end.
Proof.
  rewrite execute_function_run, execute_function_on_unfold.
  destruct (String.eqb func_name "get_session_state"); [reflexivity|].
  destruct (build_foxdot_code func_name args (session m)) as [code|e]; [|reflexivity].
  destruct (code_truthy code); [|reflexivity].
  destruct (update_session_state host func_name args code auto_execute m)
    as [[args'|e] m1]; [|reflexivity].
  destruct auto_execute; [|reflexivity].
  destruct (code_is_str code); reflexivity.
Qed.

(** A call that is no play call evaluates nothing. *)
Lemma after_notes_other func_name args code auto_execute m :
  func_name <> "play_synth" -> func_name <> "play_drums" ->
  after_notes host func_name args code auto_execute m = m.
Proof.
  intros Hsynth%String.eqb_neq Hdrums%String.eqb_neq.
  unfold after_notes. by rewrite Hsynth, Hdrums.
Qed.

(** Neither does a call without a [notes] argument. *)
Lemma after_notes_absent func_name args code auto_execute m :
  args !! "notes" = None ->
  after_notes host func_name args code auto_execute m = m.
Proof.
  intros Hnone. unfold after_notes. rewrite Hnone.
  destruct (_ || _); [|reflexivity]. by destruct (args !! "player").
Qed.

Lemma evaluation_absent func_name args auto_execute m :
  args !! "notes" = None ->
  evaluation host func_name args auto_execute m = m.
Proof.
  intros Hnone. unfold evaluation.
  destruct (String.eqb func_name "get_session_state"); [reflexivity|].
  destruct (build_foxdot_code func_name args (session m)) as [code|e]; [|reflexivity].
  destruct (code_truthy code); [|reflexivity].
  by apply after_notes_absent.
Qed.

Lemma evaluation_other func_name args auto_execute m :
  func_name <> "play_synth" -> func_name <> "play_drums" ->
  evaluation host func_name args auto_execute m = m.
Proof.
  intros Hsynth Hdrums. unfold evaluation.
  destruct (String.eqb func_name "get_session_state"); [reflexivity|].
  destruct (build_foxdot_code func_name args (session m)) as [code|e]; [|reflexivity].
  destruct (code_truthy code); [|reflexivity].
  by apply after_notes_other.
Qed.

(** [evaluate_notes] leaves the machine as [after_notes] tells. *)
Lemma evaluate_notes_after func_name args code auto_execute m player synth desc :
  func_name = "play_synth" \/ func_name = "play_drums" ->
  args !! "player" = Some player ->
  snd (evaluate_notes host
         {| frame_func_name := func_name; frame_args := args;
            frame_code := code; frame_auto_execute := auto_execute |}
         synth desc m)
  = after_notes host func_name args code auto_execute m.
Proof.
  intros Hplay Hplayer.
  assert (Htest : String.eqb func_name "play_synth" || String.eqb func_name "play_drums"
                  = true) by (destruct Hplay as [->| ->]; reflexivity).
  unfold after_notes, evaluate_notes. rewrite Htest, Hplayer. simpl.
  destruct (args !! "notes") as [source|]; [|reflexivity].
  run_monad. by destruct (py_eval host _ source m) as [[raw|e] m1].
Qed.

(** The block under [# Update session state], however it ends, once the
    [notes] argument has been evaluated: when it raises, it has changed
    neither session nor executor; when it completes, the session has gone
    through at most one of its mutators and the executor is untouched. *)
Lemma update_session_state_cases func_name args code auto_execute m :
  let run := update_session_state host func_name args code auto_execute m in
  let m0 := after_notes host func_name args code auto_execute m in
  (exists e, fst run = Raise e /\
             session (snd run) = session m0 /\ executor (snd run) = executor m0)
  \/ (exists args', fst run = Ok args' /\
        executor (snd run) = executor m0 /\
        session_change (session m0) (session (snd run))).
Proof.
  intros run m0. subst run m0.
  destruct (decide (func_name = "play_synth" \/ func_name = "play_drums")) as [Hplay|Hother].
  - rewrite (update_session_state_play host _ _ _ _ Hplay).
    run_monad. unfold index.
    destruct (args !! "player") as [player|] eqn:Hplayer.
    2:{ left. eexists. split; [reflexivity|].
        unfold after_notes. rewrite Hplayer.
        by destruct (_ || _). }
    rewrite <- (evaluate_notes_after func_name args code auto_execute m player
                  (get args "synth" (VStr "play"))
                  (get args "description" (VStr "Layer")) Hplay Hplayer).
    destruct (evaluate_notes host _ _ _ m) as [[evaluated|e] m1]; simpl.
    2:{ left. by eexists. }
    destruct (key_of player) as [key|e]; simpl.
    2:{ left. by eexists. }
    right. eexists. split; [reflexivity|]. split; [reflexivity|].
    exact (Upserted _ {| u_name := key; u_synth := synth_left evaluated;
                         u_code := code; u_description := desc_left evaluated;
                         u_props := musical_props evaluated;
                         u_now_created := wall_clock host (ticks m1);
                         u_now_modified := wall_clock host (S (ticks m1)) |}).
  - rewrite after_notes_other by tauto.
    assert (Htest : String.eqb func_name "play_synth" || String.eqb func_name "play_drums"
                    = false).
    { apply orb_false_iff. split; apply String.eqb_neq; tauto. }
    unfold update_session_state. rewrite Htest.
    repeat match goal with
           | |- context [if ?b then _ else _] => destruct b
           end;
      run_monad; unfold index; simpl;
      repeat case_match; simplify_eq; simpl;
      try (left; eexists; repeat split; reflexivity);
      right; eexists; (split; [reflexivity|]); (split; [reflexivity|]);
      constructor.
Qed.
End Resolution.

Section ResolutionFacts.
Context (host : Host).
Implicit Types (m : Machine) (args : gmap string pyval) (code : code_value).

Lemma session_change_histories (s s' : FoxDotSession.t) :
  session_change s s' ->
  FoxDotSession.chat_history s' = FoxDotSession.chat_history s /\
  FoxDotSession.code_history s' = FoxDotSession.code_history s.
Proof.
  intros [ | | | | |name|u]; try (split; reflexivity).
  unfold FoxDotSession.remove_layer.
  destruct (FoxDotSession.active_layers s !! name); split; reflexivity.
Qed.

(** A code that is not a string comes from [execute_code], which has no
    branch under [# Update session state]. *)
Lemma update_session_state_not_str func_name args code (s : FoxDotSession.t)
    auto_execute m :
  String.eqb func_name "get_session_state" = false ->
  build_foxdot_code func_name args s = Ok code ->
  code_is_str code = false ->
  update_session_state host func_name args code auto_execute m = (Ok args, m).
Proof.
  intros Hname Hbuild Hstr.
  destruct code as [t|v]; [discriminate|].
  apply build_foxdot_code_passed in Hbuild as [[-> _] | ->]; [|discriminate].
  reflexivity.
Qed.


(** The session after a call, against the session after its session
    update: the music state and the chat history are the same, and the
    execution is recorded at most once. *)
Lemma execute_function_music_state func_name args auto_execute m :
  let s' := session (snd (execute_function host func_name args auto_execute m)) in
  let s1 :=
    if String.eqb func_name "get_session_state" then session m
    else match build_foxdot_code func_name args (session m) with
         | Ok code =>
             if code_truthy code
             then session (snd (update_session_state host func_name args code
                                  auto_execute m))
             else session m
         | Raise _ => session m
         end in
  FoxDotSession.music_state s' = FoxDotSession.music_state s1 /\
  FoxDotSession.chat_history s' = FoxDotSession.chat_history s1 /\
  (s' = s1 \/
   exists code ok out stamp,
     s' = FoxDotSession.add_code_execution code ok out stamp s1).
Proof.
  intros s' s1. subst s' s1. rewrite execute_function_unfold.
  destruct (String.eqb func_name "get_session_state"); [by auto|].
  destruct (build_foxdot_code func_name args (session m)) as [code|e']; [|by auto].
  destruct (code_truthy code); [|by auto].
  destruct (update_session_state host func_name args code auto_execute m)
    as [[args'|e''] m1]; [|by auto].
  destruct auto_execute; [|by auto].
  destruct (code_is_str code); simpl; [|by auto].
  split; [reflexivity|]. split; [reflexivity|]. right. by do 4 eexists.
Qed.

(** A play call builds a code that is not empty. *)
Lemma build_play_truthy func_name args (s : FoxDotSession.t) code :
  func_name = "play_synth" \/ func_name = "play_drums" ->
  build_foxdot_code func_name args s = Ok code ->
  code_truthy code = true.
Proof.
  intros Hplay Hbuild. destruct code as [t|v].
  - by apply build_foxdot_code_built in Hbuild.
  - apply build_foxdot_code_passed in Hbuild as [[-> _] | ->];
      destruct Hplay as [? | ?]; discriminate.
Qed.

(** What a play call that returns stores, as a map. *)
Lemma execute_play_layers func_name args auto_execute m r m1 player key :
  func_name = "play_synth" \/ func_name = "play_drums" ->
  args !! "player" = Some player ->
  key_of player = Ok key ->
  execute_function host func_name args auto_execute m = (Ok r, m1) ->
  exists layer,
    FoxDotSession.active_layers (session m1)
    = <[key := layer]>
        (FoxDotSession.active_layers
           (session (evaluation host func_name args auto_execute m))).
Proof.
  intros Hplay Hplayer Hkey. rewrite execute_function_unfold. unfold evaluation.
  assert (Hname : String.eqb func_name "get_session_state" = false)
    by (destruct Hplay as [-> | ->]; reflexivity).
  rewrite Hname.
  destruct (build_foxdot_code func_name args (session m)) as [code|e] eqn:Hbuild;
    [|discriminate].
  rewrite (build_play_truthy _ _ _ _ Hplay Hbuild).
  destruct (update_session_state host func_name args code auto_execute m)
    as [[args'|e] m2] eqn:Hupd; [|discriminate].
  intros Hrun.
  assert (Hm1 : FoxDotSession.active_layers (session m1)
                = FoxDotSession.active_layers (session m2)).
  { destruct auto_execute; [destruct (code_is_str code); [|discriminate]|];
      injection Hrun as _ <-; reflexivity. }
  apply (update_play host _ _ _ _ _ _ _ Hplay) in Hupd
    as (player' & key' & evaluated & m0 & Hplayer' & Hkey' & Heval & _ & _ & _
        & Hsession).
  assert (player' = player) as -> by congruence.
  assert (key' = key) as -> by congruence.
  pose proof (evaluate_notes_after host func_name args code auto_execute m player
                (get args "synth" (VStr "play")) (get args "description" (VStr "Layer"))
                Hplay Hplayer) as Hafter.
  rewrite Heval in Hafter. simpl in Hafter. subst m0.
  rewrite Hm1, Hsession. eexists. reflexivity.
Qed.

(** [stop_player] on a string always resolves; it removes the layer. *)
Lemma execute_stop_player args auto_execute m name :
  args !! "player" = Some (VStr name) ->
  let run := execute_function host "stop_player" args auto_execute m in
  is_ok (fst run) = true /\
  FoxDotSession.active_layers (session (snd run))
  = delete (KStr name) (FoxDotSession.active_layers (session m)).
Proof.
  intros Hplayer run. subst run.
  assert (Hbuild : build_foxdot_code "stop_player" args (session m)
                   = Ok (Built [Hole (VStr name); Lit ".stop()"])).
  { unfold build_foxdot_code; simpl. unfold res_bind, index. by rewrite Hplayer. }
  assert (Hupd : forall code,
             update_session_state host "stop_player" args code auto_execute m
             = (Ok args, with_session
                           (fun s => fst (FoxDotSession.remove_layer (KStr name) s)) m)).
  { intros code. unfold update_session_state; simpl. run_monad.
    unfold index. by rewrite Hplayer. }
  rewrite execute_function_unfold, Hbuild, Hupd.
  cbn [String.eqb Ascii.eqb Bool.eqb code_truthy template_nonempty existsb
       piece_nonempty code_is_str].
  rewrite orb_true_r.
  destruct auto_execute; simpl; (split; [reflexivity|]); apply remove_layer_layers.
Qed.

(** The session and the executor after a call, against the machine
    [m0] as the evaluation of [notes] left it: the session has gone
    through one mutator at most, then one execution record at most; the
    executor has been asked once at most. *)
Lemma execute_function_frame func_name args auto_execute m :
  let run := execute_function_on host func_name args auto_execute m in
  let m0 := evaluation host func_name args auto_execute m in
  exists s1,
    session_change (session m0) s1 /\
    ((session (snd run) = s1 /\
      (executor (snd run) = executor m0
       \/ exists code explanation,
            fst run = Raise (TypeError "expected string or bytes-like object") /\
            FoxDotExecutor.calls (executor (snd run))
            = FoxDotExecutor.calls (executor m0)
                ++ [{| inv_code := code; inv_explanation := explanation |}]) /\
      forall result args', fst run = Ok (result, args') ->
        match result with Executed _ _ => False | _ => True end)
     \/ exists code result args' stamp,
          fst run = Ok (Executed result code, args') /\
          build_foxdot_code func_name args (session m) = Ok code /\
          FoxDotExecutor.calls (executor (snd run))
          = FoxDotExecutor.calls (executor m0)
              ++ [{| inv_code := code;
                     inv_explanation := get args' "description" VNone |}] /\
          result = runtime host (FoxDotExecutor.calls (executor (snd run))) /\
          session (snd run)
          = FoxDotSession.add_code_execution code (success result) (output result)
              stamp s1).
Proof.
  intros run m0. subst run m0. rewrite execute_function_on_unfold. unfold evaluation.
  destruct (String.eqb func_name "get_session_state").
  { exists (session m). split; [constructor|]. left. split; [reflexivity|].
    split; [by left|]. by intros ? ? [= <- <-]. }
  destruct (build_foxdot_code func_name args (session m)) as [code|e] eqn:Hbuild.
  2:{ exists (session m). split; [constructor|]. left. split; [reflexivity|].
      split; [by left|]. discriminate. }
  destruct (code_truthy code).
  2:{ exists (session m). split; [constructor|]. left. split; [reflexivity|].
      split; [by left|]. by intros ? ? [= <- <-]. }
  destruct (update_session_state_cases host func_name args code auto_execute m)
    as [(e & Hraise & Hsession & Hexecutor) | (args' & Hok & Hexecutor & Hchange)].
  - destruct (update_session_state host func_name args code auto_execute m)
      as [[args'|e'] m1]; simpl in *; [discriminate|].
    eexists. split; [constructor|]. left. split; [exact Hsession|].
    split; [by left|]. discriminate.
  - destruct (update_session_state host func_name args code auto_execute m)
      as [[args''|e'] m1]; simpl in *; [|discriminate].
    injection Hok as ->.
    destruct auto_execute.
    2:{ exists (session m1). split; [exact Hchange|]. left. split; [reflexivity|].
        split; [by left|]. by intros ? ? [= <- <-]. }
    destruct (code_is_str code).
    + exists (session m1). split; [exact Hchange|]. right.
      exists code. eexists. exists args'. eexists.
      split; [reflexivity|]. split; [reflexivity|].
      unfold after_execution, history_with. simpl. rewrite Hexecutor.
      split; [reflexivity|]. split; reflexivity.
    + exists (session m1). split; [exact Hchange|]. left. split; [reflexivity|].
      split; [|discriminate]. right. do 2 eexists. split; [reflexivity|].
      unfold history_with. simpl. by rewrite Hexecutor.
Qed.
End ResolutionFacts.

(** X6.  A call that raises keeps no setting, layer or history entry of
    its own: it leaves the session as the evaluation of the [notes]
    argument left it, which is exactly as it was before the call when the
    call has no [notes] argument, or is no play call. *)
Theorem raising_call_leaves_session_untouched
    (host : Host) (func_name : string) (args : gmap string pyval)
    (auto_execute : bool) (m : Machine) (e : exn) :
  let run := execute_function host func_name args auto_execute m in
  fst run = Raise e ->
  session (snd run) = session (evaluation host func_name args auto_execute m) /\
  (args !! "notes" = None -> session (snd run) = session m) /\
  (func_name <> "play_synth" -> func_name <> "play_drums" ->
   session (snd run) = session m).
Proof.
  intros run Hraise.
  assert (Hsession : session (snd run)
                     = session (evaluation host func_name args auto_execute m)).
  { subst run. revert Hraise. rewrite execute_function_unfold. unfold evaluation.
    destruct (String.eqb func_name "get_session_state") eqn:Hname; [discriminate|].
    destruct (build_foxdot_code func_name args (session m)) as [code|e'] eqn:Hbuild;
      [|reflexivity].
    destruct (code_truthy code); [|discriminate].
    destruct (update_session_state_cases host func_name args code auto_execute m)
      as [(e3 & Hfst & Hsession & _) | (args' & Hfst & _ & _)].
    - destruct (update_session_state host func_name args code auto_execute m)
        as [[args'|e4] m2]; simpl in *; [discriminate|].
      intros _. exact Hsession.
    - destruct (update_session_state host func_name args code auto_execute m)
        as [[args''|e4] m2] eqn:Hupd; simpl in *; [|discriminate].
      destruct auto_execute; [|discriminate].
      destruct (code_is_str code) eqn:Hstr; [discriminate|].
      intros _. simpl.
      rewrite (update_session_state_not_str host _ _ _ _ _ m Hname Hbuild Hstr) in Hupd.
      injection Hupd as <- <-.
      destruct code as [t|v]; [discriminate|].
      apply build_foxdot_code_passed in Hbuild as [[-> _] | ->]; [|discriminate].
      reflexivity. }
  split; [exact Hsession|]. split.
  - intros Hnone. by rewrite Hsession, evaluation_absent.
  - intros Hsynth Hdrums. by rewrite Hsession, evaluation_other.
Qed.

Lemma raising_call_leaves_session_untouched_witness :
  let args := Fixtures.args_of [("player", VStr "p1"); ("synth", VStr "pluck");
                                ("notes", VStr "[0, 2"); ("description", VStr "broken")] in
  let run := execute_function Fixtures.online "play_synth" args true Fixtures.fresh_machine in
  fst run = Raise (Exception "SyntaxError" "invalid syntax") /\
  session (snd run)
    = session (evaluation Fixtures.online "play_synth" args true Fixtures.fresh_machine) /\
  session (snd run) = session Fixtures.fresh_machine.
Proof.
  intros args run.
  assert (Hraise : fst run = Raise (Exception "SyntaxError" "invalid syntax"))
    by (vm_compute; reflexivity).
  split; [exact Hraise|]. split; [|vm_compute; reflexivity].
  exact (proj1 (raising_call_leaves_session_untouched Fixtures.online "play_synth" args
                  true Fixtures.fresh_machine _ Hraise)).
Defined.



Section WellFiled.
Context (host : Host).

Lemma well_filed_layers (s s' : FoxDotSession.t) :
  FoxDotSession.active_layers s' = FoxDotSession.active_layers s ->
  well_filed s -> well_filed s'.
Proof. unfold well_filed. by intros ->. Qed.

Lemma session_change_well_filed (s s' : FoxDotSession.t) :
  session_change s s' -> well_filed s -> well_filed s'.
Proof.
  intros [ | | | | |name|u] Hs; try exact Hs.
  - intros n l. unfold FoxDotSession.clear_all.
    rewrite active_layers_with_layers, lookup_empty. discriminate.
  - intros n l. rewrite remove_layer_layers.
    intros [_ Hl]%lookup_delete_Some. by apply Hs.
  - intros n l. destruct (decide (u_name u = n)) as [<-|Hne].
    + rewrite upsert_lookup_same. unfold FoxDotSession.add_layer.
      destruct (FoxDotSession.active_layers s !! u_name u); intros [= <-]; by split.
    + rewrite upsert_lookup_other by done. apply Hs.
Qed.

(** The evaluation of [notes] keeps what every evaluation keeps. *)
Lemma evaluation_keeps (P : FoxDotSession.t -> Prop) func_name args auto_execute
    (m : Machine) :
  eval_keeps host P ->
  P (session m) ->
  P (session (evaluation host func_name args auto_execute m)).
Proof.
  intros Hkeeps Hm. unfold evaluation, after_notes.
  repeat case_match; try exact Hm. by apply Hkeeps.
Qed.

(** The session after a call: what the evaluation of [notes] left, taken
    through one mutator at most, then one execution record at most. *)
Lemma execute_function_session_change func_name args auto_execute (m : Machine) :
  let s' := session (snd (execute_function host func_name args auto_execute m)) in
  exists s1,
    session_change (session (evaluation host func_name args auto_execute m)) s1 /\
    (s' = s1 \/
     exists code ok out stamp,
       s' = FoxDotSession.add_code_execution code ok out stamp s1).
Proof.
  intros s'. subst s'.
  assert (Hsnd : snd (execute_function host func_name args auto_execute m)
                 = snd (execute_function_on host func_name args auto_execute m)).
  { rewrite execute_function_run.
    by destruct (execute_function_on host func_name args auto_execute m) as [[?|?] ?]. }
  rewrite Hsnd.
  destruct (execute_function_frame host func_name args auto_execute m)
    as (s1 & Hchange & [(Hs1 & _) | (code & result & args' & stamp & _ & _ & _ & _ & Hs1)]);
    exists s1; (split; [exact Hchange|]).
  - by left.
  - right. by do 4 eexists.
Qed.

Lemma execute_function_well_filed func_name args auto_execute (m : Machine) :
  eval_keeps host well_filed ->
  well_filed (session m) ->
  well_filed (session (snd (execute_function host func_name args auto_execute m))).
Proof.
  intros Hkeeps Hm.
  pose proof (evaluation_keeps well_filed func_name args auto_execute m Hkeeps Hm) as Hm0.
  destruct (execute_function_session_change func_name args auto_execute m)
    as (s1 & Hchange & [-> | (code & ok & out & stamp & ->)]).
  - by apply (session_change_well_filed _ _ Hchange).
  - apply (well_filed_layers s1); [reflexivity|].
    by apply (session_change_well_filed _ _ Hchange).
Qed.

(** Without a [notes] argument a call leaves [args] as it is. *)
Lemma execute_function_on_args func_name args auto_execute (m : Machine) r args' m' :
  args !! "notes" = None ->
  execute_function_on host func_name args auto_execute m = (Ok (r, args'), m') ->
  args' = args.
Proof.
  intros Hnone. rewrite execute_function_on_unfold.
  destruct (String.eqb func_name "get_session_state"); [by intros [= _ <- _]|].
  destruct (build_foxdot_code func_name args (session m)) as [code|e]; [|discriminate].
  destruct (code_truthy code); [|by intros [= _ <- _]].
  destruct (update_session_state host func_name args code auto_execute m)
    as [[args''|e] m1] eqn:Hupd; [|discriminate].
  assert (args'' = args) as ->.
  { destruct (decide (func_name = "play_synth" \/ func_name = "play_drums"))
      as [Hplay|Hother].
    - apply (update_play host _ _ _ _ _ _ _ Hplay) in Hupd
        as (player & key & evaluated & m0 & _ & _ & Heval & -> & _).
      rewrite evaluate_notes_absent in Heval by exact Hnone.
      by injection Heval as <- _.
    - destruct (update_session_state_executor host func_name args code auto_execute m)
        as [_ Hargs]; [tauto | tauto |].
      apply Hargs. by rewrite Hupd. }
  destruct auto_execute; [destruct (code_is_str code); [|discriminate]|];
    by intros [= _ <- _].
Qed.
End WellFiled.

(** X8.  Apart from what the evaluation of a [notes] argument does, one
    call, however it ends, takes the session through at most one of its
    mutators ([set_tempo], [set_scale], [set_root], [clear_all],
    [remove_layer], [add_layer]) and then records at most one execution in
    [code_history]; a call without a [notes] argument evaluates nothing. *)
Theorem call_applies_at_most_one_mutator
    (host : Host) (func_name : string) (args : gmap string pyval)
    (auto_execute : bool) (m : Machine) :
  let s' := session (snd (execute_function host func_name args auto_execute m)) in
  let m0 := evaluation host func_name args auto_execute m in
  (args !! "notes" = None -> m0 = m) /\
  exists s1,
    session_change (session m0) s1 /\
    (s' = s1 \/
     exists code ok out stamp,
       s' = FoxDotSession.add_code_execution code ok out stamp s1).
Proof.
  intros s' m0. split; [apply evaluation_absent|].
  apply execute_function_session_change.
Qed.

(** X9.  With automatic execution enabled, a call that returns an
    execution result has itself asked the executor exactly once, after the
    evaluation of its [notes] argument if it has one, for the code it
    built and with the call's description; it carries the runtime's answer
    to that request, and has appended exactly one entry to [code_history]
    with that code and that answer; its status is [success] or [error]
    as the answer says.  A call that returns anything else (the state
    snapshot, or the build failure) has changed nothing. *)
Theorem executed_call_is_recorded_once
    (host : Host) (func_name : string) (args : gmap string pyval)
    (m : Machine) (r : CallResult) (args' : gmap string pyval) (m' : Machine) :
  execute_function_on host func_name args true m = (Ok (r, args'), m') ->
  let m0 := evaluation host func_name args true m in
  match r with
  | Executed result code =>
      build_foxdot_code func_name args (session m) = Ok code /\
      FoxDotExecutor.calls (executor m')
        = FoxDotExecutor.calls (executor m0)
            ++ [{| inv_code := code; inv_explanation := get args' "description" VNone |}] /\
      result = runtime host (FoxDotExecutor.calls (executor m')) /\
      (exists stamp,
          FoxDotSession.code_history (session m')
          = FoxDotSession.code_history (session m0)
              ++ [{| ce_timestamp := stamp; ce_code := code;
                     ce_success := success result; ce_output := output result |}]) /\
      status r = (if success result then "success" else "error") /\
      (args !! "notes" = None -> m0 = m /\ args' = args)
  | StateResult _ | BuildFailure => m' = m
  | Generated _ => False
  end.
Proof.
  intros Hrun m0.
  destruct (execute_function_frame host func_name args true m)
    as (s1 & Hchange & [(_ & _ & Hnot) | (code & result & args'' & stamp & Hok & Hbuild
                                          & Hcalls & Hresult & Hsession)]).
  - rewrite Hrun in Hnot. specialize (Hnot r args' eq_refl).
    revert Hrun. rewrite execute_function_on_unfold.
    destruct (String.eqb func_name "get_session_state"); [by intros [= <- _ <-]|].
    destruct (build_foxdot_code func_name args (session m)) as [code|e]; [|discriminate].
    destruct (code_truthy code); [|by intros [= <- _ <-]].
    destruct (update_session_state host func_name args code true m)
      as [[args''|e] m1]; [|discriminate].
    destruct (code_is_str code); [|discriminate].
    intros [= <- _ _]. contradiction.
  - rewrite Hrun in Hok, Hcalls, Hresult, Hsession. simpl in *.
    injection Hok as -> ->.
    apply session_change_histories in Hchange as (_ & Hcode).
    split_and!; try done.
    + exists stamp. rewrite Hsession. simpl. by rewrite Hcode.
    + intros Hnone. split; [by apply evaluation_absent|].
      by apply (execute_function_on_args host _ _ _ _ _ _ _ Hnone Hrun).
Qed.

Lemma executed_call_is_recorded_once_witness :
  let args := Fixtures.args_of [("bpm", VInt 140)] in
  let code := Built [Lit "Clock.bpm = "; Hole (VInt 140)] in
  let m' := snd (execute_function_on Fixtures.offline "set_tempo" args true
                   Fixtures.fresh_machine) in
  FoxDotExecutor.calls (executor m')
    = [{| inv_code := code; inv_explanation := VNone |}] /\
  exists stamp,
    FoxDotSession.code_history (session m')
    = [{| ce_timestamp := stamp; ce_code := code; ce_success := false;
          ce_output := "" |}].
Proof.
  intros args code m'.
  destruct (executed_call_is_recorded_once Fixtures.offline "set_tempo" args
              Fixtures.fresh_machine
              (Executed (Fixtures.no_foxdot []) code) args m' eq_refl)
    as (_ & Hcalls & _ & Hhistory & _).
  split; [exact Hcalls | exact Hhistory].
Defined.

(** X10.  A layer started by [play_synth] or [play_drums] and then stopped
    by [stop_player] is gone: the stop always resolves, and the layers
    after it are those the evaluation of the play call's [notes] argument
    left (those from before the play call, when it has no such argument)
    without that player. *)
Theorem stop_player_undoes_play
    (host : Host) (func_name : string) (args stop_args : gmap string pyval)
    (auto_execute auto_execute' : bool) (m m1 : Machine) (r : CallResult)
    (name : string) :
  func_name = "play_synth" \/ func_name = "play_drums" ->
  args !! "player" = Some (VStr name) ->
  stop_args !! "player" = Some (VStr name) ->
  execute_function host func_name args auto_execute m = (Ok r, m1) ->
  let m0 := evaluation host func_name args auto_execute m in
  let run := execute_function host "stop_player" stop_args auto_execute' m1 in
  FoxDotSession.has_layer (KStr name) (session m1) = true /\
  is_ok (fst run) = true /\
  FoxDotSession.active_layers (session (snd run))
    = delete (KStr name) (FoxDotSession.active_layers (session m0)) /\
  (FoxDotSession.has_layer (KStr name) (session m0) = false ->
   FoxDotSession.active_layers (session (snd run))
     = FoxDotSession.active_layers (session m0)) /\
  (args !! "notes" = None -> m0 = m).
Proof.
  intros Hplay Hplayer Hstop Hrun m0 run.
  destruct (execute_play_layers host func_name args auto_execute m r m1 (VStr name)
              (KStr name) Hplay Hplayer eq_refl Hrun) as (layer & Hlayers).
  fold m0 in Hlayers.
  destruct (execute_stop_player host stop_args auto_execute' m1 name Hstop)
    as (Hok & Hafter).
  fold run in Hok, Hafter.
  assert (Hdelete : FoxDotSession.active_layers (session (snd run))
                    = delete (KStr name) (FoxDotSession.active_layers (session m0)))
    by (rewrite Hafter, Hlayers; apply delete_insert_eq).
  split_and!.
  - unfold FoxDotSession.has_layer. by rewrite Hlayers, lookup_insert_eq.
  - exact Hok.
  - exact Hdelete.
  - unfold FoxDotSession.has_layer. intros Hnone. rewrite Hdelete.
    apply delete_id.
    by destruct (FoxDotSession.active_layers (session m0) !! KStr name).
  - apply evaluation_absent.
Qed.

Lemma stop_player_undoes_play_witness :
  let args := Fixtures.args_of [("player", VStr "d1"); ("pattern", VStr "x-o-");
                                ("description", VStr "beat")] in
  let stop_args := Fixtures.args_of [("player", VStr "d1")] in
  let m1 := snd (execute_function Fixtures.online "play_drums" args true
                   Fixtures.fresh_machine) in
  let run := execute_function Fixtures.online "stop_player" stop_args true m1 in
  FoxDotSession.has_layer (KStr "d1") (session m1) = true /\
  is_ok (fst run) = true /\
  FoxDotSession.active_layers (session (snd run))
    = FoxDotSession.active_layers (session Fixtures.fresh_machine).
Proof.
  intros args stop_args m1 run.
  assert (Hrun : exists r,
             execute_function Fixtures.online "play_drums" args true
               Fixtures.fresh_machine = (Ok r, m1))
    by (eexists; vm_compute; reflexivity).
  destruct Hrun as (r & Hrun).
  destruct (stop_player_undoes_play Fixtures.online "play_drums" args stop_args
              true true Fixtures.fresh_machine m1 r "d1"
              (or_intror eq_refl) eq_refl eq_refl Hrun)
    as (Hplaying & Hok & _ & Hsame & Hm0).
  split; [exact Hplaying|]. split; [exact Hok|].
  rewrite (Hm0 eq_refl) in Hsame. exact (Hsame eq_refl).
Defined.

(** X11.  When the evaluation of [notes] arguments keeps every layer of
    the session filed under its own player name and in the state PLAYING,
    so does any sequence of calls, whether they return or raise: a layer
    that is stopped is removed, never kept as stopped. *)
Theorem layers_stay_filed_and_playing
    (host : Host) (calls : list Call) (m : Machine) :
  eval_keeps host well_filed ->
  well_filed (session m) ->
  well_filed (session (run_calls host calls m)).
Proof.
  intros Hkeeps.
  revert m. induction calls as [|c calls IH]; intros m Hm; simpl; [exact Hm|].
  apply IH. by apply execute_function_well_filed.
Qed.

Lemma layers_stay_filed_and_playing_witness :
  let calls :=
    [ {| c_name := "play_drums";
         c_args := Fixtures.args_of [("player", VStr "d1"); ("pattern", VStr "x-o-")];
         c_auto_execute := true |};
      {| c_name := "stop_player";
         c_args := Fixtures.args_of [("player", VStr "d2")];
         c_auto_execute := false |};
      {| c_name := "set_tempo"; c_args := ∅; c_auto_execute := true |} ] in
  let m := run_calls Fixtures.offline calls Fixtures.fresh_machine in
  FoxDotSession.has_layer (KStr "d1") (session m) = true /\
  well_filed (session m).
Proof.
  intros calls m. split; [vm_compute; reflexivity|].
  apply (layers_stay_filed_and_playing Fixtures.offline calls Fixtures.fresh_machine).
  - intros frame source m0 Hm0. simpl. unfold Fixtures.eval_triad.
    by destruct (py_eq_str source "[0, 2, 4]").
  - intros name layer Hlayer. vm_compute in Hlayer. discriminate Hlayer.
Defined.

(* ===================================================================== *)
(** * Further properties of the context manager *)
(* ===================================================================== *)

Section Accounting.
Import ContextManager.
Implicit Types (cm : ContextManager.t) (summary : string).

Lemma sum_token_counts_app (l l' : list ConversationTurn.t) :
  sum_token_counts (l ++ l') = (sum_token_counts l + sum_token_counts l')%Z.
Proof. induction l as [|t l IH]; simpl; lia. Qed.

Lemma accounted_init max_tokens consolidation_threshold keep_recent_turns :
  accounted (init max_tokens consolidation_threshold keep_recent_turns).
Proof. reflexivity. Qed.

Lemma accounted_add_turn turn cm : accounted cm -> accounted (add_turn turn cm).
Proof.
  unfold accounted, summary_tokens. simpl. intros ->.
  rewrite sum_token_counts_app. simpl. lia.
Qed.

Lemma accounted_consolidate summary cm : accounted (consolidate summary cm).
Proof. reflexivity. Qed.

Lemma accounted_clear cm : accounted (clear cm).
Proof. reflexivity. Qed.

Lemma accounted_apply_op op cm : accounted cm -> accounted (apply_op op cm).
Proof.
  destruct op; simpl;
    [apply accounted_add_turn | intros _; apply accounted_consolidate
    | intros _; apply accounted_clear].
Qed.

(** [l[:k] ++ l[k:]] is [l], for every integer [k]. *)
Lemma py_slice_to_from {A} (k : Z) (l : list A) :
  py_slice_to k l ++ py_slice_from k l = l.
Proof. unfold py_slice_to, py_slice_from. apply take_drop. Qed.

(** [l[-k:]] is [l] when [l] has at most [k] elements. *)
Lemma py_slice_from_short {A} (k : Z) (l : list A) :
  (Z.of_nat (length l) <= k)%Z -> py_slice_from (- k) l = l.
Proof.
  intros Hshort. unfold py_slice_from.
  destruct (Z.ltb_spec (- k) 0) as [Hneg|Hpos].
  - rewrite Z.max_r by lia. reflexivity.
  - assert (length l = 0%nat) as Hnil by lia.
    apply length_zero_iff_nil in Hnil. subst. apply drop_nil.
Qed.

End Accounting.

(** X12.  A manager made by the constructor and driven through
    [add_turn], [consolidate] and [clear], in any order, keeps its running
    total equal to the sum of the token counts of the turns it holds plus
    the estimate of its rolling summary. *)
Theorem running_total_is_accounted
    (max_tokens : Z) (consolidation_threshold : spec_float) (keep_recent_turns : Z)
    (ops : list ManagerOp) :
  accounted
    (apply_ops ops
       (ContextManager.init max_tokens consolidation_threshold keep_recent_turns)).
Proof.
  unfold apply_ops.
  generalize (accounted_init max_tokens consolidation_threshold keep_recent_turns).
  generalize (ContextManager.init max_tokens consolidation_threshold keep_recent_turns).
  induction ops as [|op ops IH]; intros cm Hcm; simpl; [exact Hcm|].
  apply IH. by apply accounted_apply_op.
Qed.

(** X13.  The turns that [get_consolidation_prompt] hands over for
    summarising and the turns that [consolidate] keeps are the two halves
    of the history, in order: no turn is both summarised and kept, and
    none is dropped without having been offered to the summary.  This
    holds for every value of [keep_recent_turns]. *)
Theorem summarised_and_kept_turns_partition
    (cm : ContextManager.t) (summary : string) :
  ContextManager.old_turns cm
    ++ ContextManager.turns (ContextManager.consolidate summary cm)
  = ContextManager.turns cm.
Proof.
  unfold ContextManager.old_turns, ContextManager.consolidate; simpl.
  destruct (Z.ltb_spec (ContextManager.keep_recent_turns cm)
              (Z.of_nat (length (ContextManager.turns cm))))
    as [Hmore|Hfew].
  - apply py_slice_to_from.
  - simpl. by apply py_slice_from_short.
Qed.

(** X14.  The consolidation prompt is the empty string exactly when there
    is no turn to summarise, and that is when the manager holds at most
    [keep_recent_turns] turns, or holds none, or [keep_recent_turns] is
    zero. *)
Theorem consolidation_prompt_is_empty_iff (cm : ContextManager.t) :
  (ContextManager.get_consolidation_prompt cm = ""
   <-> ContextManager.old_turns cm = []) /\
  (ContextManager.old_turns cm = []
   <-> (Z.of_nat (length (ContextManager.turns cm)) <= ContextManager.keep_recent_turns cm)%Z
       \/ ContextManager.turns cm = []
       \/ ContextManager.keep_recent_turns cm = 0%Z).
Proof.
  split.
  - unfold ContextManager.get_consolidation_prompt.
    destruct (ContextManager.old_turns cm); split; try done; discriminate.
  - unfold ContextManager.old_turns, py_slice_to.
    set (K := ContextManager.keep_recent_turns cm).
    set (l := ContextManager.turns cm).
    destruct (Z.ltb_spec K (Z.of_nat (length l))) as [Hmore|Hfew];
      [|split; [intros _; by left | done]].
    split.
    + intros Hnil. apply (f_equal length) in Hnil.
      rewrite length_take in Hnil. simpl in Hnil.
      destruct (Z.ltb_spec (- K) 0) as [Hneg|Hpos].
      * lia.
      * destruct (decide (K = 0%Z)) as [?|HK]; [by auto|].
        right; left. apply length_zero_iff_nil. lia.
    + intros [Hle | [Hnil | Hzero]]; [lia | |].
      * subst l. rewrite Hnil. apply take_nil.
      * rewrite Hzero. simpl. rewrite Z.min_l by lia. reflexivity.
Qed.

Section Threshold.
Import ContextManager.
Implicit Types (cm : ContextManager.t) (summary : string).

Lemma float_below_mono (f : spec_float) (z z' : Z) :
  (z <= z')%Z -> float_below f z -> float_below f z'.
Proof.
  destruct f as [s|s| |s m e]; simpl; try done; [lia|].
  intros Hle Hlt. eapply Qlt_le_trans; [exact Hlt|]. by rewrite <- Zle_Qle.
Qed.

Lemma py_slice_from_twice {A} (k : Z) (l : list A) :
  (0 <= k)%Z -> py_slice_from (- k) (py_slice_from (- k) l) = py_slice_from (- k) l.
Proof.
  intros Hk. destruct (decide (k = 0%Z)) as [->|Hne].
  - by rewrite !py_slice_from_zero.
  - apply py_slice_from_short.
    rewrite py_slice_from_last by lia. rewrite length_drop. lia.
Qed.
End Threshold.

(** X15.  Recording a turn whose token count is not negative (the agent
    records estimates, which never are) cannot take the manager back under
    its threshold: once [needs_consolidation()] is true it stays true
    until [consolidate] or [clear]. *)
Theorem needs_consolidation_persists
    (cm : ContextManager.t) (turn : ConversationTurn.t) :
  (0 <= ConversationTurn.token_count turn)%Z ->
  ContextManager.needs_consolidation cm = Ok true ->
  ContextManager.needs_consolidation (ContextManager.add_turn turn cm) = Ok true.
Proof.
  intros Hcount. rewrite !needs_consolidation_true.
  intros (limit & Hlimit & Hbelow). exists limit. split; [exact Hlimit|].
  simpl. eapply float_below_mono; [|exact Hbelow]. lia.
Qed.

Lemma needs_consolidation_persists_witness :
  ContextManager.needs_consolidation Fixtures.crowded_manager = Ok true /\
  ContextManager.needs_consolidation
    (ContextManager.add_turn (Fixtures.turn_of_size 0) Fixtures.crowded_manager)
  = Ok true.
Proof.
  assert (Hneeds : ContextManager.needs_consolidation Fixtures.crowded_manager = Ok true)
    by (vm_compute; reflexivity).
  split; [exact Hneeds|].
  apply (needs_consolidation_persists Fixtures.crowded_manager (Fixtures.turn_of_size 0));
    [simpl; lia | exact Hneeds].
Defined.

(** X16.  With [keep_recent_turns >= 0], consolidating twice in a row is
    consolidating once with the later summary: the second call drops no
    further turn, and the running total is that of the kept turns and the
    later summary. *)
Theorem later_consolidation_wins
    (cm : ContextManager.t) (summary summary' : string) :
  (0 <= ContextManager.keep_recent_turns cm)%Z ->
  ContextManager.consolidate summary' (ContextManager.consolidate summary cm)
  = ContextManager.consolidate summary' cm.
Proof.
  intros HK. unfold ContextManager.consolidate; simpl.
  by rewrite py_slice_from_twice.
Qed.

Lemma later_consolidation_wins_witness :
  ContextManager.consolidate "later"
    (ContextManager.consolidate "earlier" Fixtures.busy_manager)
  = ContextManager.consolidate "later" Fixtures.busy_manager.
Proof.
  apply (later_consolidation_wins Fixtures.busy_manager "earlier" "later").
  simpl. lia.
Defined.

(** X17.  A turn of the agent keeps the running total accounted for:
    whatever the model streams, whether the context is consolidated at the
    start of the turn or not, and whether the turn ends with DONE, with
    ERROR or by raising, the total after the turn is the sum of the token
    counts of the turns held plus the estimate of the summary. *)
Theorem turn_keeps_running_total_accounted
    (host : Host) (auto_execute : bool) (user_message : string)
    (summary_reply : res (option string)) (stream continuation : Stream)
    (w : World) :
  accounted (context_manager w) ->
  accounted (context_manager
               (snd (StreamingFoxDotAgent.chat_stream host auto_execute user_message
                       summary_reply stream continuation w))).
Proof.
  intros Hw.
  assert (Hstep : accounted
                    (context_manager
                       (snd (StreamingFoxDotAgent.consolidation_step host
                               summary_reply w)))).
  { rewrite consolidation_step_context_manager.
    destruct (ContextManager.needs_consolidation (context_manager w)) as [[|]|e];
      try exact Hw.
    destruct summary_reply as [[summary|]|e]; try exact Hw.
    destruct (str_nonempty summary); [apply accounted_consolidate | exact Hw]. }
  destruct (chat_stream_context_manager host auto_execute user_message summary_reply
              stream continuation w) as [Hcm | (turn & Hcm)];
    simpl in Hcm; rewrite Hcm; [exact Hstep | by apply accounted_add_turn].
Qed.

Lemma turn_keeps_running_total_accounted_witness :
  let w := {| machine := Fixtures.fresh_machine;
              context_manager := Fixtures.crowded_manager;
              contents := []; emitted := [] |} in
  let cm' := context_manager
               (snd (StreamingFoxDotAgent.chat_stream Fixtures.offline false "stop"
                       (Ok (Some "they want silence")) Fixtures.stop_all_stream
                       Fixtures.broken_stream w)) in
  ContextManager.consolidated_summary cm' = Some "they want silence" /\
  length (ContextManager.turns cm') = 2%nat /\
  accounted cm'.
Proof.
  intros w cm'. split; [vm_compute; reflexivity|]. split; [vm_compute; reflexivity|].
  apply (turn_keeps_running_total_accounted Fixtures.offline false "stop"
           (Ok (Some "they want silence")) Fixtures.stop_all_stream
           Fixtures.broken_stream w).
  reflexivity.
Defined.

(* ===================================================================== *)
(** * Further properties of the streaming agent *)
(* ===================================================================== *)

Section Always.
Context {S : Type} (R : S -> S -> Prop) `{!Reflexive R} `{!Transitive R}.

Lemma always_ret {A} (a : A) : always R (ret a).
Proof. intros s. reflexivity. Qed.

Lemma always_raise {A} (e : exn) : always R (raise (A := A) e).
Proof. intros s. reflexivity. Qed.

Lemma always_lift_res {A} (r : res A) : always R (lift_res r).
Proof. intros s. reflexivity. Qed.

Lemma always_gets {A} (f : S -> A) : always R (gets f).
Proof. intros s. reflexivity. Qed.

Lemma always_bind {A B} (c : M S A) (k : A -> M S B) :
  always R c -> (forall a, always R (k a)) -> always R (bind c k).
Proof.
  intros Hc Hk s. unfold bind. specialize (Hc s).
  destruct (c s) as [[a|e] s1]; simpl in *; [|exact Hc].
  etransitivity; [exact Hc | apply Hk].
Qed.

Lemma always_try_except {A} (body : M S A) (handler : exn -> M S A) :
  always R body -> (forall e, always R (handler e)) -> always R (try_except body handler).
Proof.
  intros Hbody Hhandler s. unfold try_except. specialize (Hbody s).
  destruct (body s) as [[a|e] s1]; simpl in *; [exact Hbody|].
  etransitivity; [exact Hbody | apply Hhandler].
Qed.

Lemma always_for_each {A L} (body : L -> A -> M S L) (l : list A) :
  (forall acc x, always R (body acc x)) ->
  forall acc, always R (for_each l body acc).
Proof.
  intros Hbody. induction l as [|x l IH]; intros acc; simpl.
  - apply always_ret.
  - apply always_bind; [apply Hbody | exact IH].
Qed.
End Always.

Section AlwaysWorld.
Context (R : World -> World -> Prop) `{!Reflexive R} `{!Transitive R}.

Lemma always_consume {L} (stream : Stream) (body : L -> Part -> M World L) :
  (forall acc x, always R (body acc x)) ->
  forall acc, always R (StreamingFoxDotAgent.consume stream body acc).
Proof.
  intros Hbody acc. unfold StreamingFoxDotAgent.consume. apply always_bind; [done|..].
  - apply always_for_each; [done..|]. intros acc' chunk. by apply always_for_each.
  - intros l. destruct (failure stream); [by apply always_raise | by apply always_ret].
Qed.
End AlwaysWorld.

#[global] Instance same_objects_refl : Reflexive same_objects.
Proof. intros w. by repeat split. Qed.

#[global] Instance same_objects_trans : Transitive same_objects.
Proof.
  intros w1 w2 w3 (Hs & He & Hc & Hb) (Hs' & He' & Hc' & Hb').
  repeat split; congruence.
Qed.

#[global] Instance same_chat_refl : Reflexive same_chat.
Proof. intros w. split; [reflexivity|]. exists []. by rewrite app_nil_r. Qed.

#[global] Instance same_chat_trans : Transitive same_chat.
Proof.
  intros w1 w2 w3 (Hh & more & Hb) (Hh' & more' & Hb').
  split; [congruence|]. exists (more ++ more'). by rewrite Hb', Hb, app_assoc.
Qed.

(** Proves [always R] of a computation built from binds, branches and
    steps that the context has a lemma for. *)
Ltac prove_always :=
  repeat first
    [ solve [auto]
    | apply always_ret; solve [typeclasses eauto]
    | apply always_raise; solve [typeclasses eauto]
    | apply always_lift_res; solve [typeclasses eauto]
    | apply always_gets; solve [typeclasses eauto]
    | apply always_bind; [typeclasses eauto | | intros ?]
    | apply always_try_except; [typeclasses eauto | | intros ?]
    | match goal with
      | |- always _ (if ?b then _ else _) => destruct b
      | |- always _ (match ?x with _ => _ end) => destruct x
      end ].

Section Frames.
Context (host : Host) (auto_execute : bool).
Import StreamingFoxDotAgent.

Lemma yield_event_same_objects type data : always same_objects (yield_event host type data).
Proof. intros w. by repeat split. Qed.

Lemma yield_event_same_chat type data : always same_chat (yield_event host type data).
Proof. intros w. split; [reflexivity|]. exists []. simpl. by rewrite app_nil_r. Qed.

Lemma continuation_part_same_objects l part :
  always same_objects (continuation_part host l part).
Proof.
  unfold continuation_part. pose proof yield_event_same_objects. prove_always.
Qed.

(** From here on the [notes] arguments are evaluated without a change to
    the chat history. *)
Context (Hquiet : eval_keeps_chat host).

Lemma execute_function_chat_history func_name args (m : Machine) :
  FoxDotSession.chat_history
    (session (snd (execute_function_on host func_name args auto_execute m)))
  = FoxDotSession.chat_history (session m).
Proof.
  destruct (execute_function_frame host func_name args auto_execute m)
    as (s1 & Hchange & Hcases).
  apply session_change_histories in Hchange as [Hs1 _].
  assert (Hm0 : FoxDotSession.chat_history
                  (session (evaluation host func_name args auto_execute m))
                = FoxDotSession.chat_history (session m)).
  { apply (evaluation_keeps host
             (fun s => FoxDotSession.chat_history s
                       = FoxDotSession.chat_history (session m)));
      [apply Hquiet | reflexivity]. }
  destruct Hcases as [(-> & _) | (code & result & args' & stamp & _ & _ & _ & _ & ->)];
    simpl; congruence.
Qed.

Lemma execute_function_same_chat func_name args :
  always same_chat (_execute_function host auto_execute func_name args).
Proof.
  intros w. unfold _execute_function, on_machine.
  pose proof (execute_function_chat_history func_name args (machine w)) as Hchat.
  destruct (execute_function_on host func_name args auto_execute (machine w)) as [r m1].
  simpl in *. split; [exact Hchat|]. exists []. by rewrite app_nil_r.
Qed.

Lemma contents_append_same_chat c : always same_chat (modify (contents_append c)).
Proof. intros w. split; [reflexivity|]. by exists [c]. Qed.

Lemma close_thinking_same_chat l : always same_chat (close_thinking host l).
Proof. unfold close_thinking. pose proof yield_event_same_chat. prove_always. Qed.

Lemma handle_part_same_chat l part :
  always same_chat (handle_part host auto_execute l part).
Proof.
  unfold handle_part.
  pose proof yield_event_same_chat. pose proof close_thinking_same_chat.
  pose proof execute_function_same_chat. prove_always.
Qed.

Lemma continuation_part_same_chat l part :
  always same_chat (continuation_part host l part).
Proof. unfold continuation_part. pose proof yield_event_same_chat. prove_always. Qed.

Lemma first_pass_same_chat stream : always same_chat (first_pass host auto_execute stream).
Proof.
  unfold first_pass. pose proof yield_event_same_chat.
  apply always_bind; [typeclasses eauto| |intros l; prove_always].
  apply always_consume; [typeclasses eauto..|]. apply handle_part_same_chat.
Qed.

Lemma continue_after_functions_same_chat calls continuation :
  always same_chat (_continue_after_functions host calls continuation).
Proof.
  unfold _continue_after_functions.
  pose proof yield_event_same_chat. pose proof contents_append_same_chat.
  apply always_bind; [typeclasses eauto|done|]. intros _.
  apply always_try_except; [typeclasses eauto| |done].
  apply always_bind; [typeclasses eauto| |intros l; prove_always].
  apply always_consume; [typeclasses eauto..|]. apply continuation_part_same_chat.
Qed.

End Frames.

(** X18.  The continuation pass after function calls never resolves a
    call: whatever its stream holds, function calls included, the session,
    the executor and the context manager are as before, and the outbound
    buffer has grown by the one entry holding the function responses. *)
Theorem continuation_resolves_no_call
    (host : Host) (calls : list CallRecord) (continuation : Stream) (w : World) :
  let w' := snd (StreamingFoxDotAgent._continue_after_functions host calls
                   continuation w) in
  session (machine w') = session (machine w) /\
  executor (machine w') = executor (machine w) /\
  context_manager w' = context_manager w /\
  contents w'
  = contents w ++ [{| content_role := "user";
                      content_parts := StreamingFoxDotAgent.function_responses calls |}].
Proof.
  intros w'.
  set (w0 := contents_append
               {| content_role := "user"; content_parts := StreamingFoxDotAgent.function_responses calls |} w).
  set (guarded :=
         try_except
           (l <- StreamingFoxDotAgent.consume continuation (StreamingFoxDotAgent.continuation_part host) (false, "");;
            if fst l then StreamingFoxDotAgent.yield_event host TEXT_END (Text (snd l)) else ret tt)
           (fun e => StreamingFoxDotAgent.yield_event host ERROR (ContinuationErrorData e))).
  assert (Hrun : w' = snd (guarded w0)) by reflexivity.
  assert (Hguarded : always same_objects guarded).
  { unfold guarded. pose proof yield_event_same_objects.
    apply always_try_except; [typeclasses eauto| |done].
    apply always_bind; [typeclasses eauto| |intros l; prove_always].
    apply always_consume; [typeclasses eauto..|]. apply continuation_part_same_objects. }
  destruct (Hguarded w0) as (Hs & He & Hc & Hb).
  by rewrite Hrun, Hs, He, Hc, Hb.
Qed.

Section TurnConversation.
Context (host : Host) (auto_execute : bool).
Import StreamingFoxDotAgent.

(** The consolidation block, however it ends: it raises exactly when the
    threshold cannot be computed or when the summary is needed and the
    request for it raises; the session, the executor and the outbound
    buffer are untouched, and the only event it may have yielded when it
    raises is the one that announces the consolidation. *)
Lemma consolidation_step_cases summary_reply w :
  let run := consolidation_step host summary_reply w in
  session (machine (snd run)) = session (machine w) /\
  executor (machine (snd run)) = executor (machine w) /\
  contents (snd run) = contents w /\
  match fst run with
  | Ok _ => True
  | Raise e =>
      context_manager (snd run) = context_manager w /\
      ((ContextManager.needs_consolidation (context_manager w) = Raise e /\
        emitted (snd run) = emitted w)
       \/ (ContextManager.needs_consolidation (context_manager w) = Ok true /\
           summary_reply = Raise e /\
           exists ev, StreamEvent.type ev = THINKING_START /\
                      emitted (snd run) = emitted w ++ [ev]))
  end.
Proof.
  intros run. subst run.
  unfold consolidation_step, yield_event. run_monad. unfold on_machine, now. simpl.
  destruct (ContextManager.needs_consolidation (context_manager w)) as [[|]|e]; simpl;
    [|by repeat split|by repeat split; auto].
  destruct summary_reply as [[summary|]|e]; simpl.
  - destruct (str_nonempty summary); simpl; by repeat split.
  - by repeat split.
  - repeat split. right. split; [reflexivity|]. split; [reflexivity|].
    eexists. split; [|reflexivity]. reflexivity.
Qed.

(** The end of a turn appends at most the assistant's message to the chat
    history and leaves the outbound buffer alone. *)
Lemma finalize_chat l w :
  let w' := snd (finalize host l w) in
  contents w' = contents w /\
  (FoxDotSession.chat_history (session (machine w'))
     = FoxDotSession.chat_history (session (machine w))
   \/ exists reply,
        ChatMessage.role reply = "assistant" /\
        ChatMessage.content reply = full_response l /\
        FoxDotSession.chat_history (session (machine w'))
        = FoxDotSession.chat_history (session (machine w)) ++ [reply]).
Proof.
  intros w'. subst w'. unfold finalize.
  destruct (join_generated_code (function_calls_made l)) as [t|e].
  - unfold bind, on_machine, modify, lift_res, now, yield_event. simpl.
    split; [reflexivity|]. right. eexists. by repeat split.
  - unfold bind, on_machine, modify, lift_res, now. simpl.
    split; [reflexivity|]. by left.
Qed.

(** The guarded part of a turn does not raise. *)
Lemma guarded_returns (body : M World unit) w :
  fst (try_except body (fun e => yield_event host ERROR (ErrorData e)) w) = Ok tt.
Proof. unfold try_except. by destruct (body w) as [[[]|e] w']. Qed.

(** The guarded part of a turn in which the [notes] arguments are
    evaluated without a change to the chat history: the chat history
    grows by the assistant's message at most, the outbound buffer only
    grows, and it does not raise. *)
Lemma guarded_chat stream continuation w :
  eval_keeps_chat host ->
  let body :=
    (l <- first_pass host auto_execute stream;;
     (match function_calls_made l with
      | [] => ret tt
      | _ :: _ =>
          modify (contents_append
                    {| content_role := "model";
                       content_parts :=
                         (if str_nonempty (full_response l)
                          then [TextPart (full_response l)] else [])
                         ++ function_responses (function_calls_made l) |});;
          _continue_after_functions host (function_calls_made l) continuation
      end);;
     finalize host l) in
  let run := try_except body (fun e => yield_event host ERROR (ErrorData e)) w in
  fst run = Ok tt /\
  (exists more, contents (snd run) = contents w ++ more) /\
  (FoxDotSession.chat_history (session (machine (snd run)))
     = FoxDotSession.chat_history (session (machine w))
   \/ exists reply,
        ChatMessage.role reply = "assistant" /\
        FoxDotSession.chat_history (session (machine (snd run)))
        = FoxDotSession.chat_history (session (machine w)) ++ [reply]).
Proof.
  intros Hquiet body run. subst run body. unfold try_except. rewrite bind_run.
  destruct (first_pass_same_chat host auto_execute Hquiet stream w)
    as (Hchat2 & more2 & Hbuf2).
  destruct (first_pass host auto_execute stream w) as [[l|e] w2]; simpl in Hchat2, Hbuf2.
  - rewrite bind_run.
    set (between := match function_calls_made l with [] => ret tt | _ :: _ => _ end).
    assert (Hbetween : always same_chat between).
    { unfold between.
      pose proof (continue_after_functions_same_chat host).
      pose proof contents_append_same_chat. prove_always. }
    destruct (Hbetween w2) as (Hchat3 & more3 & Hbuf3).
    destruct (between w2) as [[[]|e] w3]; simpl in Hchat3, Hbuf3.
    + destruct (finalize_chat l w3) as (Hbuf4 & Hchat4).
      destruct (finalize host l w3) as [[[]|e] w4]; simpl in *.
      * split; [reflexivity|]. split.
        { exists (more2 ++ more3). by rewrite Hbuf4, Hbuf3, Hbuf2, app_assoc. }
        rewrite <- Hchat2, <- Hchat3.
        destruct Hchat4 as [Hsame | (reply & Hrole & _ & Happ)]; [by left|].
        right. by exists reply.
      * split; [reflexivity|]. split.
        { exists (more2 ++ more3). by rewrite Hbuf4, Hbuf3, Hbuf2, app_assoc. }
        rewrite <- Hchat2, <- Hchat3.
        destruct Hchat4 as [Hsame | (reply & Hrole & _ & Happ)]; [by left|].
        right. by exists reply.
    + simpl. split; [reflexivity|]. split.
      { exists (more2 ++ more3). by rewrite Hbuf3, Hbuf2, app_assoc. }
      left. congruence.
  - simpl. split; [reflexivity|]. split; [by exists more2|]. by left.
Qed.
End TurnConversation.

(** X19.  The generator of a turn raises exactly when its consolidation
    block does, and that is when the threshold product overflows, or when
    the context needs consolidation and the request for the summary
    raises.  The exception is not reported by an ERROR event, and the
    user's message is recorded nowhere: session, executor, context manager
    and outbound buffer are as before the turn. *)
Theorem turn_raises_only_from_consolidation
    (host : Host) (auto_execute : bool) (user_message : string)
    (summary_reply : res (option string)) (stream continuation : Stream)
    (w : World) :
  let run := StreamingFoxDotAgent.chat_stream host auto_execute user_message
               summary_reply stream continuation w in
  fst run = fst (StreamingFoxDotAgent.consolidation_step host summary_reply w) /\
  forall e, fst run = Raise e ->
    (ContextManager.needs_consolidation (context_manager w) = Raise e
     \/ (ContextManager.needs_consolidation (context_manager w) = Ok true /\
         summary_reply = Raise e)) /\
    same_objects w (snd run) /\
    count_type ERROR (drop (length (emitted w)) (emitted (snd run))) = 0%nat.
Proof.
  intros run. subst run. unfold StreamingFoxDotAgent.chat_stream.
  set (guarded := try_except _ _).
  rewrite bind_run.
  pose proof (consolidation_step_cases host summary_reply w) as Hstep.
  destruct (StreamingFoxDotAgent.consolidation_step host summary_reply w)
    as [[[]|e] w0]; simpl in Hstep.
  - rewrite bind_run.
    destruct (add_user_message_spec host user_message w0) as (w1 & -> & _).
    assert (Hok : fst (guarded w1) = Ok tt) by apply guarded_returns.
    simpl. split; [exact Hok|].
    intros e He. rewrite Hok in He. discriminate He.
  - simpl. split; [reflexivity|]. intros e' [= <-].
    destruct Hstep as (Hs & He & Hb & Hcm & [(Hneeds & Hev) | (Hneeds & Hreply & ev & Hty & Hev)]).
    + split; [by left|]. split; [done|].
      by rewrite Hev, drop_all.
    + split; [by right|]. split; [done|].
      rewrite Hev, drop_app_length, count_type_singleton, Hty. reflexivity.
Qed.

(** X20.  In a turn whose consolidation block does not raise, and in
    which the [notes] arguments of the calls are evaluated without a
    change to the chat history, the user's message is the first thing
    recorded: the chat history grows by the user's message, followed by
    the assistant's message when the turn records one and by nothing
    else; the outbound buffer grows by the user's message first. *)
Theorem turn_records_user_message_first
    (host : Host) (auto_execute : bool) (user_message : string)
    (summary_reply : res (option string)) (stream continuation : Stream)
    (w : World) :
  eval_keeps_chat host ->
  is_ok (fst (StreamingFoxDotAgent.consolidation_step host summary_reply w)) = true ->
  let w' := snd (StreamingFoxDotAgent.chat_stream host auto_execute user_message
                   summary_reply stream continuation w) in
  (exists stamp rest,
      FoxDotSession.chat_history (session (machine w'))
      = FoxDotSession.chat_history (session (machine w))
          ++ ChatMessage.mk "user" user_message stamp None [] :: rest /\
      (rest = [] \/ exists reply, rest = [reply] /\ ChatMessage.role reply = "assistant")) /\
  exists more,
    contents w'
    = contents w
        ++ {| content_role := "user"; content_parts := [TextPart user_message] |} :: more.
Proof.
  intros Hquiet Hok w'. subst w'. unfold StreamingFoxDotAgent.chat_stream.
  set (guarded := try_except _ _).
  rewrite bind_run.
  pose proof (consolidation_step_cases host summary_reply w) as (Hs & _ & Hb & _).
  destruct (StreamingFoxDotAgent.consolidation_step host summary_reply w)
    as [[[]|e] w0]; simpl in Hs, Hb, Hok; [|discriminate].
  rewrite bind_run.
  unfold StreamingFoxDotAgent.add_user_message at 1.
  unfold bind at 1, on_machine at 1, now, modify. simpl.
  set (w1 := contents_append _ _).
  destruct (guarded_chat host auto_execute stream continuation w1 Hquiet)
    as (_ & (more & Hmore) & Hchat).
  fold guarded in Hmore, Hchat.
  split.
  - exists (wall_clock host (ticks (machine w0))).
    destruct Hchat as [Hsame | (reply & Hrole & Happ)].
    + exists []. split; [|by left]. rewrite Hsame. simpl. by rewrite Hs.
    + exists [reply]. split; [|right; by exists reply].
      rewrite Happ. simpl. by rewrite Hs, <- app_assoc.
  - exists more. rewrite Hmore. simpl. by rewrite Hb, <- app_assoc.
Qed.

Lemma turn_records_user_message_first_witness :
  let w' := snd (StreamingFoxDotAgent.chat_stream Fixtures.offline false "stop" (Ok None)
                   Fixtures.stop_all_stream Fixtures.broken_stream Fixtures.fresh_world) in
  (exists stamp rest,
      FoxDotSession.chat_history (session (machine w'))
      = ChatMessage.mk "user" "stop" stamp None [] :: rest /\
      (rest = [] \/ exists reply, rest = [reply] /\ ChatMessage.role reply = "assistant")) /\
  exists more,
    contents w'
    = {| content_role := "user"; content_parts := [TextPart "stop"] |} :: more.
Proof.
  apply (turn_records_user_message_first Fixtures.offline false "stop" (Ok None)
           Fixtures.stop_all_stream Fixtures.broken_stream Fixtures.fresh_world);
    [|reflexivity].
  intros history frame source m Hm. simpl. unfold Fixtures.eval_triad.
  by destruct (py_eq_str source "[0, 2, 4]").
Defined.

Section Texts.
Implicit Types (evs : list StreamEvent.t) (ev : StreamEvent.t).

Lemma append_assoc (a b c : string) : (a +:+ b) +:+ c = a +:+ (b +:+ c).
Proof.
  induction a as [|x a IH]; [reflexivity|].
  change (String x ((a +:+ b) +:+ c) = String x (a +:+ (b +:+ c))). by rewrite IH.
Qed.

Lemma append_empty_r (a : string) : a +:+ "" = a.
Proof.
  induction a as [|x a IH]; [reflexivity|].
  change (String x (a +:+ "") = String x a). by rewrite IH.
Qed.

Lemma carries_nil : carries [] "" "".
Proof. intros rest r t. by rewrite !append_empty_r. Qed.

Lemma carries_app evs evs' response response' thinking thinking' :
  carries evs response thinking ->
  carries evs' response' thinking' ->
  carries (evs ++ evs') (response +:+ response') (thinking +:+ thinking').
Proof.
  intros H H' rest r t.
  by rewrite <- app_assoc, H, H', !append_assoc.
Qed.

Lemma chunk_text_app ty evs evs' :
  chunk_text ty (evs ++ evs') = chunk_text ty evs +:+ chunk_text ty evs'.
Proof.
  induction evs as [|ev evs IH]; [reflexivity|].
  simpl. by rewrite IH, append_assoc.
Qed.

Lemma carries_one type data stamp :
  type <> DONE ->
  match type with
  | TEXT_CHUNK | THINKING_CHUNK => exists s, data = Text s
  | _ => True
  end ->
  let ev := StreamEvent.mk type data stamp in
  carries [ev] (chunk_text TEXT_CHUNK [ev]) (chunk_text THINKING_CHUNK [ev]).
Proof.
  intros Hdone Hdata ev. subst ev.
  destruct type; try done; try (destruct Hdata as (s & ->));
    intros rest r t; simpl; by rewrite ?append_empty_r.
Qed.

End Texts.

#[global] Instance readable_refl : Reflexive readable.
Proof.
  intros w. exists []. split; [by rewrite app_nil_r | apply carries_nil].
Qed.

#[global] Instance readable_trans : Transitive readable.
Proof.
  intros w1 w2 w3 (evs & Hev & Hc) (evs' & Hev' & Hc').
  exists (evs ++ evs').
  split; [by rewrite Hev', Hev, app_assoc|].
  rewrite !chunk_text_app. by apply carries_app.
Qed.

(** One step of the loop of the first pass, against the protocol. *)
Lemma protocol_step (l l' : Locals) (evs new : list StreamEvent.t)
    (response thinking : string) :
  protocol l evs ->
  ((if is_thinking l then 1 else 0) + count_type THINKING_START new
   = count_type THINKING_END new + (if is_thinking l' then 1 else 0))%nat ->
  ((if is_responding l then 1 else 0) + count_type TEXT_START new
   = (if is_responding l' then 1 else 0))%nat ->
  count_type TEXT_END new = 0%nat ->
  (length (function_calls_made l) + count_type FUNCTION_CALL_START new
   = length (function_calls_made l'))%nat ->
  (length (function_calls_made l) + count_type FUNCTION_CALL new
   = length (function_calls_made l'))%nat ->
  (length (function_calls_made l) + count_type FUNCTION_RESULT new
   = length (function_calls_made l'))%nat ->
  (length (function_calls_made l) + count_type FUNCTION_CALL_END new
   = length (function_calls_made l'))%nat ->
  carries new response thinking ->
  full_response l' = full_response l +:+ response ->
  full_thinking l' = full_thinking l +:+ thinking ->
  protocol l' (evs ++ new).
Proof.
  intros [] Hth Htx Hte Hs Ha Hr He Hc Hresp Hthink.
  constructor; rewrite ?count_type_app; try lia.
  rewrite Hresp, Hthink. by apply carries_app.
Qed.

(** Evaluates the counts of events in an explicit list. *)
Ltac count_events :=
  repeat match goal with
         | |- context [count_type ?ty (?ev :: ?evs)] =>
             let n := eval vm_compute in (count_type ty (ev :: evs)) in
             change (count_type ty (ev :: evs)) with n
         | |- context [count_type ?ty []] =>
             change (count_type ty []) with 0%nat
         end.

(** Closes the side conditions of a step of the protocol. *)
Ltac finish_step :=
  try reflexivity; try lia; try (by rewrite ?append_empty_r);
  try (intros rest r t; simpl; by rewrite ?append_empty_r).

Section Invariants.
Context {S A L : Type}.

(** A loop invariant, for the runs of the loop that complete. *)
Lemma for_each_invariant (I : L -> S -> Prop) (body : L -> A -> M S L) (l : list A) :
  (forall acc x s acc' s', I acc s -> body acc x s = (Ok acc', s') -> I acc' s') ->
  forall acc s acc' s', I acc s -> for_each l body acc s = (Ok acc', s') -> I acc' s'.
Proof.
  intros Hbody. induction l as [|x l IH]; intros acc s acc' s' Hacc; simpl.
  - unfold ret. by intros [= <- <-].
  - rewrite bind_run. destruct (body acc x s) as [[acc1|e] s1] eqn:Hx; [|discriminate].
    apply IH. by eapply Hbody.
Qed.
End Invariants.

Section Protocol.
Context (host : Host) (auto_execute : bool).
Import StreamingFoxDotAgent.

Lemma yield_event_readable type data :
  type <> DONE ->
  match type with
  | TEXT_CHUNK | THINKING_CHUNK => exists s, data = Text s
  | _ => True
  end ->
  always readable (yield_event host type data).
Proof.
  intros Hdone Hdata w.
  exists [StreamEvent.mk type data (wall_clock host (ticks (machine w)))].
  split; [reflexivity|]. by apply carries_one.
Qed.

Lemma on_machine_readable {B} (c : M Machine B) : always readable (on_machine c).
Proof.
  intros w. unfold on_machine. destruct (c (machine w)) as [r m1].
  exists []. simpl. split; [by rewrite app_nil_r | apply carries_nil].
Qed.

Lemma modify_readable (f : World -> World) :
  (forall w, emitted (f w) = emitted w) -> always readable (modify f).
Proof.
  intros Hf w. exists []. simpl.
  split; [by rewrite app_nil_r, Hf | apply carries_nil].
Qed.

(** Proves that a computation is readable: its events are not [DONE], and
    its chunks hold texts. *)
Ltac prove_readable :=
  repeat first
    [ apply on_machine_readable
    | apply modify_readable; intros ?; reflexivity
    | apply yield_event_readable; [discriminate | simpl; eauto]
    | apply always_ret; solve [typeclasses eauto]
    | apply always_raise; solve [typeclasses eauto]
    | apply always_lift_res; solve [typeclasses eauto]
    | apply always_gets; solve [typeclasses eauto]
    | apply always_bind; [typeclasses eauto | | intros ?]
    | apply always_try_except; [typeclasses eauto | | intros ?]
    | match goal with
      | |- always _ (if ?b then _ else _) => destruct b
      | |- always _ (match ?x with _ => _ end) => destruct x
      end ].

Lemma handle_part_readable l part :
  always readable (handle_part host auto_execute l part).
Proof. unfold handle_part, close_thinking, _execute_function. prove_readable. Qed.

Lemma continuation_part_readable l part :
  always readable (continuation_part host l part).
Proof. unfold continuation_part. prove_readable. Qed.

Lemma first_pass_readable stream : always readable (first_pass host auto_execute stream).
Proof.
  unfold first_pass.
  apply always_bind; [typeclasses eauto| |intros l; prove_readable].
  apply always_consume; [typeclasses eauto..|]. apply handle_part_readable.
Qed.

Lemma continue_after_functions_readable calls continuation :
  always readable (_continue_after_functions host calls continuation).
Proof.
  unfold _continue_after_functions.
  apply always_bind; [typeclasses eauto|prove_readable|]. intros _.
  apply always_try_except; [typeclasses eauto| |intros e; prove_readable].
  apply always_bind; [typeclasses eauto| |intros l; prove_readable].
  apply always_consume; [typeclasses eauto..|]. apply continuation_part_readable.
Qed.

Lemma prologue_readable user_message summary_reply :
  always readable (prologue host user_message summary_reply).
Proof.
  unfold prologue, consolidation_step, add_user_message. prove_readable.
Qed.

(** The body of the loop of the first pass keeps the protocol. *)
Lemma handle_part_protocol base l part w l' w' evs :
  emitted w = base ++ evs ->
  protocol l evs ->
  handle_part host auto_execute l part w = (Ok l', w') ->
  exists evs', emitted w' = base ++ evs' /\ protocol l' evs'.
Proof.
  intros Hemitted Hprotocol.
  unfold handle_part, close_thinking, _execute_function, yield_event.
  unfold bind, ret, lift_res, modify, on_machine, now.
  destruct (thought part && has_text part).
  - destruct (is_thinking l) eqn:Hth; simpl; intros [= <- <-]; simpl;
      rewrite Hemitted, <- ?app_assoc; simpl;
      (eexists; split; [reflexivity|]);
      (eapply protocol_step; [exact Hprotocol|..]); simpl; rewrite ?Hth;
      count_events; finish_step.
  - destruct (function_call part) as [fc|].
    + destruct (is_thinking l) eqn:Hth; simpl;
        (destruct (fc_args fc) as [func_args|]; simpl; [|discriminate]);
        match goal with
        | |- context [execute_function_on ?h ?n ?a ?x ?m] =>
            destruct (execute_function_on h n a x m) as [[[result args']|e] m1]
        end; simpl; try discriminate;
        intros [= <- <-]; simpl;
        rewrite Hemitted, <- ?app_assoc; simpl;
        (eexists; split; [reflexivity|]);
        (eapply protocol_step with (response := "") (thinking := "");
         [exact Hprotocol|..]); simpl; rewrite ?Hth, ?length_app;
        count_events; simpl; finish_step.
    + destruct (has_text part); [|intros [= <- <-]; by exists evs].
      destruct (is_thinking l) eqn:Hth, (is_responding l) eqn:Hrs; simpl;
        intros [= <- <-]; simpl;
        rewrite Hemitted, <- ?app_assoc; simpl;
        (eexists; split; [reflexivity|]);
        (eapply protocol_step; [exact Hprotocol|..]); simpl; rewrite ?Hth, ?Hrs;
        count_events; finish_step.
Qed.
End Protocol.

Section FirstPass.
Context (host : Host) (auto_execute : bool).
Import StreamingFoxDotAgent.

Lemma protocol_start :
  protocol {| function_calls_made := []; full_thinking := ""; full_response := "";
              is_thinking := false; is_responding := false |} [].
Proof. constructor; try reflexivity. apply carries_nil. Qed.

(** The loop of the first pass keeps the protocol. *)
Lemma consume_protocol stream w l l' w' :
  protocol l [] ->
  consume stream (handle_part host auto_execute) l w = (Ok l', w') ->
  exists evs, emitted w' = emitted w ++ evs /\ protocol l' evs.
Proof.
  intros Hstart. unfold consume. rewrite bind_run.
  destruct (for_each (chunks stream) _ l w) as [[l1|e] w1] eqn:Hloop; [|discriminate].
  destruct (failure stream); [discriminate|]. unfold ret. intros [= <- <-].
  set (I := fun (acc : Locals) (s : World) =>
              exists evs, emitted s = emitted w ++ evs /\ protocol acc evs).
  apply (for_each_invariant I _ _) with (acc := l) (s := w) (acc' := l1) (s' := w1) in Hloop;
    [exact Hloop| |exists []; by rewrite app_nil_r].
  intros acc chunk s acc' s' Hacc Hchunk.
  apply (for_each_invariant I _ _) with (acc := acc) (s := s) (acc' := acc') (s' := s')
    in Hchunk; [exact Hchunk| |exact Hacc].
  intros acc0 part s0 acc0' s0' (evs & Hev & Hprotocol) Hpart.
  exact (handle_part_protocol host auto_execute _ _ _ _ _ _ _ Hev Hprotocol Hpart).
Qed.

(** The end of a turn whose generated codes are strings: the turn's last
    event is [DONE], and it holds the locals of the first pass. *)
Lemma finalize_done l w t :
  join_generated_code (function_calls_made l) = Ok t ->
  exists stamp w',
    finalize host l w = (Ok tt, w') /\
    emitted w'
    = emitted w
        ++ [StreamEvent.mk DONE
              (DoneData (full_response l) (full_thinking l) (function_calls_made l))
              stamp].
Proof.
  intros Hjoin. unfold finalize. rewrite Hjoin.
  unfold bind, on_machine, modify, lift_res, now, yield_event. simpl.
  by do 2 eexists.
Qed.

(** The events of a turn whose prologue completes, as [collect_stream]
    reads them. *)
Lemma chat_stream_events user_message summary_reply stream continuation w w1 :
  prologue host user_message summary_reply w = (Ok tt, w1) ->
  let run := chat_stream host auto_execute user_message summary_reply
               stream continuation w in
  fst run = Ok tt /\
  exists evs,
    emitted (snd run) = emitted w ++ evs /\
    match first_pass host auto_execute stream w1 with
    | (Ok l, _) =>
        match join_generated_code (function_calls_made l) with
        | Ok _ =>
            exists before stamp,
              evs = before
                      ++ [StreamEvent.mk DONE
                            (DoneData (full_response l) (full_thinking l)
                               (function_calls_made l)) stamp] /\
              carries before (chunk_text TEXT_CHUNK before)
                (chunk_text THINKING_CHUNK before)
        | Raise _ =>
            carries evs (chunk_text TEXT_CHUNK evs) (chunk_text THINKING_CHUNK evs)
        end
    | (Raise _, _) =>
        carries evs (chunk_text TEXT_CHUNK evs) (chunk_text THINKING_CHUNK evs)
    end.
Proof.
  intros Hprologue run. subst run.
  rewrite (chat_stream_after_prologue host auto_execute _ _ _ _ _ _ Hprologue).
  pose proof (prologue_readable host user_message summary_reply w) as Hw1.
  rewrite Hprologue in Hw1. simpl in Hw1.
  unfold try_except. rewrite bind_run.
  pose proof (first_pass_readable host auto_execute stream w1) as Hw2.
  destruct (first_pass host auto_execute stream w1) as [[l|e] w2]; simpl in Hw2.
  - rewrite bind_run.
    set (between := match function_calls_made l with [] => ret tt | _ :: _ => _ end).
    assert (Hbetween : always readable between).
    { unfold between. pose proof (continue_after_functions_readable host).
      destruct (function_calls_made l); [apply always_ret; typeclasses eauto|].
      apply always_bind; [typeclasses eauto| |done].
      apply modify_readable. reflexivity. }
    pose proof (continuation_spec host l continuation w2) as (w3 & Hrun3 & _).
    fold between in Hrun3. specialize (Hbetween w2). rewrite Hrun3 in *. simpl in Hbetween.
    assert (Hw3 : readable w w3)
      by (etransitivity; [exact Hw1|]; etransitivity; [exact Hw2 | exact Hbetween]).
    destruct Hw3 as (before & Hev3 & Hcarries).
    destruct (join_generated_code (function_calls_made l)) as [t|e] eqn:Hjoin.
    + destruct (finalize_done l w3 t Hjoin) as (stamp & w4 & -> & Hev4).
      simpl. split; [reflexivity|].
      eexists. split; [by rewrite Hev4, Hev3, <- app_assoc|].
      by exists before, stamp.
    + destruct (finalize_spec host l w3) as (w4 & _ & Hfinal).
      rewrite Hjoin in Hfinal. destruct Hfinal as (-> & Hev4).
      pose proof (yield_event_readable host ERROR (ErrorData e) ltac:(discriminate) I w4)
        as (evs5 & Hev5 & Hcarries5).
      split; [reflexivity|].
      exists (before ++ evs5). split; [by rewrite Hev5, Hev4, Hev3, <- app_assoc|].
      rewrite !chunk_text_app. by apply carries_app.
  - pose proof (yield_event_readable host ERROR (ErrorData e) ltac:(discriminate) I w2)
      as Hw3.
    split; [reflexivity|].
    assert (Hw : readable w (snd (yield_event host ERROR (ErrorData e) w2)))
      by (etransitivity; [exact Hw1|]; etransitivity; [exact Hw2 | exact Hw3]).
    destruct Hw as (evs & Hev & Hcarries).
    exists evs. by split.
Qed.

Lemma chat_run user_message summary_reply stream continuation w :
  chat host auto_execute user_message summary_reply stream continuation w
  = match chat_stream host auto_execute user_message summary_reply
            stream continuation w with
    | (Ok _, w') =>
        (collect_stream (drop (length (emitted w)) (emitted w')) "" "", w')
    | (Raise e, w') => (Raise e, w')
    end.
Proof.
  unfold chat. rewrite bind_run. unfold gets at 1. rewrite bind_run.
  destruct (chat_stream host auto_execute user_message summary_reply
              stream continuation w) as [[[]|e] w']; reflexivity.
Qed.
End FirstPass.

(** X21.  In a first pass that completes, the events are bracketed: as
    many THINKING_END as THINKING_START events, as many TEXT_END as
    TEXT_START events and one of each at most, and for each call made one
    FUNCTION_CALL_START, one FUNCTION_CALL, one FUNCTION_RESULT and one
    FUNCTION_CALL_END event.  The response and thinking texts the pass
    ends with are the concatenations of its TEXT_CHUNK and THINKING_CHUNK
    events, as [collect_stream] accumulates them. *)
Theorem first_pass_events_are_bracketed
    (host : Host) (auto_execute : bool) (stream : Stream) (w w' : World) (l : Locals) :
  StreamingFoxDotAgent.first_pass host auto_execute stream w = (Ok l, w') ->
  exists evs,
    emitted w' = emitted w ++ evs /\
    count_type THINKING_START evs = count_type THINKING_END evs /\
    count_type TEXT_START evs = count_type TEXT_END evs /\
    (count_type TEXT_START evs <= 1)%nat /\
    count_type FUNCTION_CALL_START evs = length (function_calls_made l) /\
    count_type FUNCTION_CALL evs = length (function_calls_made l) /\
    count_type FUNCTION_RESULT evs = length (function_calls_made l) /\
    count_type FUNCTION_CALL_END evs = length (function_calls_made l) /\
    carries evs (full_response l) (full_thinking l).
Proof.
  unfold StreamingFoxDotAgent.first_pass. rewrite bind_run.
  destruct (StreamingFoxDotAgent.consume stream _ _ w) as [[l0|e] w0] eqn:Hconsume; [|discriminate].
  apply (consume_protocol host auto_execute _ _ _ _ _ protocol_start) in Hconsume
    as (evs & Hev & [Hth Htx Hte Hs Ha Hr He Hc]).
  unfold StreamingFoxDotAgent.yield_event, bind, ret, modify, on_machine, now.
  destruct (is_thinking l0) eqn:Hthinking, (is_responding l0) eqn:Hresponding; simpl;
    intros [= <- <-]; simpl; rewrite Hev, <- ?app_assoc; simpl;
    (eexists; split; [reflexivity|]);
    rewrite ?count_type_app; count_events;
    (split_and!; try lia);
    try (rewrite <- (append_empty_r (full_response l0)),
                 <- (append_empty_r (full_thinking l0));
         apply carries_app; [exact Hc|];
         intros rest r t; simpl; by rewrite ?append_empty_r).
  exact Hc.
Qed.

Lemma first_pass_events_are_bracketed_witness :
  let run := StreamingFoxDotAgent.first_pass Fixtures.offline false
               Fixtures.stop_all_stream Fixtures.fresh_world in
  exists evs,
    emitted (snd run) = evs /\
    count_type THINKING_START evs = count_type THINKING_END evs /\
    count_type FUNCTION_CALL evs = 1%nat /\
    carries evs "" "silence it".
Proof.
  intros run.
  assert (Hrun : exists l, run = (Ok l, snd run) /\
                           length (function_calls_made l) = 1%nat /\
                           full_response l = "" /\ full_thinking l = "silence it")
    by (eexists; vm_compute; repeat split).
  destruct Hrun as (l & Hrun & Hcalls & Hresponse & Hthinking).
  destruct (first_pass_events_are_bracketed Fixtures.offline false
              Fixtures.stop_all_stream Fixtures.fresh_world (snd run) l Hrun)
    as (evs & Hev & Hth & _ & _ & _ & Hcall & _ & _ & Hcarries).
  exists evs. split; [exact Hev|]. split; [exact Hth|].
  split; [by rewrite Hcall|].
  rewrite Hresponse, Hthinking in Hcarries. exact Hcarries.
Defined.

(** X22.  [chat] on a turn whose prologue completes never raises.  When
    the turn ends with DONE it returns the data of that event: the
    response and thinking texts of the first pass and the calls made; the
    text of the continuation pass is not part of the response.  When the
    turn ends with ERROR it returns the texts streamed in the turn, which
    are those of its TEXT_CHUNK events and those of its THINKING_CHUNK
    events, one after the other, and an empty list of calls, whatever
    calls were resolved before the failure.  The agent's objects are left
    as [chat_stream] leaves them. *)
Theorem chat_returns_the_data_of_done
    (host : Host) (auto_execute : bool) (user_message : string)
    (summary_reply : res (option string)) (stream continuation : Stream)
    (w w1 : World) :
  prologue host user_message summary_reply w = (Ok tt, w1) ->
  let run := StreamingFoxDotAgent.chat host auto_execute user_message
               summary_reply stream continuation w in
  let evs := drop (length (emitted w)) (emitted (snd run)) in
  let streamed :=
    DoneData (chunk_text TEXT_CHUNK evs) (chunk_text THINKING_CHUNK evs) [] in
  snd run = snd (StreamingFoxDotAgent.chat_stream host auto_execute user_message
                   summary_reply stream continuation w) /\
  match StreamingFoxDotAgent.first_pass host auto_execute stream w1 with
  | (Ok l, _) =>
      match join_generated_code (function_calls_made l) with
      | Ok _ =>
          fst run = Ok (DoneData (full_response l) (full_thinking l)
                          (function_calls_made l))
      | Raise _ => fst run = Ok streamed
      end
  | (Raise _, _) => fst run = Ok streamed
  end.
Proof.
  intros Hprologue run evs streamed. subst streamed evs run. rewrite chat_run.
  destruct (chat_stream_events host auto_execute user_message summary_reply stream
              continuation w w1 Hprologue) as (Hok & evs & Hev & Hcases).
  destruct (StreamingFoxDotAgent.chat_stream host auto_execute user_message
              summary_reply stream continuation w) as [[[]|e] w']; [|discriminate].
  simpl in Hev. simpl. split; [reflexivity|].
  rewrite Hev, drop_app_length.
  assert (Hplain : carries evs (chunk_text TEXT_CHUNK evs) (chunk_text THINKING_CHUNK evs) ->
                   collect_stream evs "" ""
                   = Ok (DoneData (chunk_text TEXT_CHUNK evs)
                           (chunk_text THINKING_CHUNK evs) [])).
  { intros Hcarries.
    specialize (Hcarries [] "" ""). rewrite app_nil_r in Hcarries.
    by rewrite Hcarries. }
  destruct (StreamingFoxDotAgent.first_pass host auto_execute stream w1) as [[l|e] w2].
  - destruct (join_generated_code (function_calls_made l)) as [t|e].
    + destruct Hcases as (before & stamp & -> & Hcarries).
      by rewrite Hcarries.
    + by apply Hplain.
  - by apply Hplain.
Qed.

Lemma chat_returns_the_data_of_done_witness :
  let run := StreamingFoxDotAgent.chat Fixtures.offline false "stop" (Ok None)
               Fixtures.stop_all_stream
               {| chunks := [[Fixtures.text_part "All quiet now."]]; failure := None |}
               Fixtures.fresh_world in
  fst run
  = Ok (DoneData "" "silence it"
          [{| call_name := "stop_all"; call_args := ∅;
              call_result := Generated (Built [Lit "Clock.clear()"]) |}]).
Proof.
  intros run.
  pose proof (chat_returns_the_data_of_done Fixtures.offline false "stop" (Ok None)
                Fixtures.stop_all_stream
                {| chunks := [[Fixtures.text_part "All quiet now."]]; failure := None |}
                Fixtures.fresh_world
                (snd (prologue Fixtures.offline "stop" (Ok None) Fixtures.fresh_world))
                eq_refl) as (_ & H).
  vm_compute in H. exact H.
Defined.

(* ===================================================================== *)
(** * The declarations and the dispatcher *)
(* ===================================================================== *)

Section Declarations.
Implicit Types (args : gmap string pyval) (parameters : Schema).

Lemma fits_required parameters args key :
  fits parameters args = true ->
  In key (schema_required parameters) ->
  exists v, args !! key = Some v.
Proof.
  unfold fits. intros [Hrequired _]%andb_prop Hkey.
  rewrite forallb_forall in Hrequired. specialize (Hrequired key Hkey).
  destruct (args !! key) as [v|]; [by exists v | discriminate].
Qed.

Lemma fits_typed parameters args key schema v :
  fits parameters args = true ->
  In (key, schema) (schema_properties parameters) ->
  args !! key = Some v ->
  has_json_type (schema_type schema) v = true.
Proof.
  unfold fits. intros [_ Htyped]%andb_prop Hkey Hv.
  rewrite forallb_forall in Htyped. specialize (Htyped _ Hkey).
  simpl in Htyped. by rewrite Hv in Htyped.
Qed.

(** A required parameter declared as a string is given, as a string. *)
Lemma fits_string parameters args key schema :
  fits parameters args = true ->
  In key (schema_required parameters) ->
  In (key, schema) (schema_properties parameters) ->
  schema_type schema = "string" ->
  exists s, args !! key = Some (VStr s).
Proof.
  intros Hfits Hrequired Hproperty Htype.
  destruct (fits_required _ _ _ Hfits Hrequired) as (v & Hv).
  pose proof (fits_typed _ _ _ _ _ Hfits Hproperty Hv) as Htyped.
  rewrite Htype in Htyped. destruct v; try discriminate. eauto.
Qed.

(** A parameter declared as an object is a dictionary when it is given:
    [args.get(key, {})] is a dictionary. *)
Lemma fits_object parameters args key schema :
  fits parameters args = true ->
  In (key, schema) (schema_properties parameters) ->
  schema_type schema = "object" ->
  exists items, get args key (VDict []) = VDict items.
Proof.
  intros Hfits Hproperty Htype. unfold get.
  destruct (args !! key) as [v|] eqn:Hv; [|by eexists].
  pose proof (fits_typed _ _ _ _ _ Hfits Hproperty Hv) as Htyped.
  rewrite Htype in Htyped. destruct v; try discriminate. eauto.
Qed.

Lemma get_function_info_declared name declaration :
  get_function_info name = Some declaration ->
  In declaration ALL_FUNCTION_DECLARATIONS /\ decl_name declaration = name.
Proof.
  unfold get_function_info. intros [Hin Hname]%find_some.
  split; [exact Hin | by apply String.eqb_eq].
Qed.


End Declarations.


Section FittingCalls.
Context (host : Host).
Implicit Types (m : Machine) (args : gmap string pyval) (code : code_value).

(** An evaluation without effect leaves the machine as it is. *)
Lemma after_notes_without_effect func_name args code auto_execute m :
  eval_without_effect host ->
  after_notes host func_name args code auto_execute m = m.
Proof.
  intros Hpure. unfold after_notes. repeat case_match; try reflexivity.
  apply Hpure.
Qed.

Lemma evaluate_notes_without_effect frame synth desc m evaluated m1 :
  eval_without_effect host ->
  evaluate_notes host frame synth desc m = (Ok evaluated, m1) ->
  m1 = m /\ args_left evaluated = frame_args frame.
Proof.
  intros Hpure. unfold evaluate_notes.
  destruct (frame_args frame !! "notes") as [source|].
  - run_monad. destruct (Hpure frame source m) as [Hm Hargs].
    destruct (py_eval host frame source m) as [[raw|e] m2]; [|discriminate].
    simpl in *. intros [= <- <-]. split; [exact Hm|]. simpl. by apply Hargs.
  - unfold ret. by intros [= <- <-].
Qed.

(** Where the layers of the session come from, after the session update,
    when the evaluation of [notes] has no effect: a layer was there
    before, or a play call has just stored it with the effects of its
    arguments. *)
Lemma update_session_state_layer_origin func_name args code auto_execute m name layer :
  eval_without_effect host ->
  FoxDotSession.active_layers
    (session (snd (update_session_state host func_name args code auto_execute m)))
    !! name
  = Some layer ->
  FoxDotSession.active_layers (session m) !! name = Some layer
  \/ ((func_name = "play_synth" \/ func_name = "play_drums") /\
      Layer.effects layer = get args "effects" (VDict [])).
Proof.
  intros Hpure.
  destruct (decide (func_name = "play_synth" \/ func_name = "play_drums")) as [Hplay|Hplay].
  - destruct (update_session_state_cases host func_name args code auto_execute m)
      as [(e & _ & Hsession & _) | (args' & Hok & _ & _)].
    { rewrite Hsession, after_notes_without_effect by exact Hpure. by left. }
    destruct (update_session_state host func_name args code auto_execute m)
      as [[args''|e] m1] eqn:Hupd; [|discriminate].
    apply (update_play host _ _ _ _ _ _ _ Hplay) in Hupd
      as (player & key & evaluated & m0 & _ & _ & Heval & _ & _ & _ & Hsession).
    apply (evaluate_notes_without_effect _ _ _ _ _ _ Hpure) in Heval as [-> Hargs].
    simpl in Hargs. simpl. rewrite Hsession.
    unfold FoxDotSession.add_layer. cbn [fst].
    rewrite active_layers_with_layers.
    destruct (decide (name = key)) as [->|Hne].
    + rewrite lookup_insert_eq. intros [= <-]. right. split; [exact Hplay|].
      assert (Heffects : get (musical_props evaluated) "effects" (VDict [])
                         = get args "effects" (VDict [])).
      { unfold musical_props, get at 1.
        rewrite !lookup_insert_ne by discriminate.
        by rewrite lookup_insert_eq, Hargs. }
      by destruct (FoxDotSession.active_layers (session m) !! key).
    + rewrite lookup_insert_ne by done. by left.
  - intros Hlayer. left. revert Hlayer.
    assert (Hne1 : String.eqb func_name "play_synth" = false)
      by (apply String.eqb_neq; tauto).
    assert (Hne2 : String.eqb func_name "play_drums" = false)
      by (apply String.eqb_neq; tauto).
    unfold update_session_state. rewrite Hne1, Hne2. cbn [orb].
    repeat match goal with
           | |- context [if String.eqb ?a ?b then _ else _] =>
               destruct (String.eqb a b)
           end;
      run_monad; unfold index;
      repeat case_match; simplify_eq; cbn -[FoxDotSession.remove_layer];
      try done.
    rewrite remove_layer_layers. by intros [_ ?]%lookup_delete_Some.
Qed.

Lemma execute_function_layer_origin func_name args auto_execute m name layer :
  eval_without_effect host ->
  FoxDotSession.active_layers
    (session (snd (execute_function host func_name args auto_execute m))) !! name
  = Some layer ->
  FoxDotSession.active_layers (session m) !! name = Some layer
  \/ ((func_name = "play_synth" \/ func_name = "play_drums") /\
      Layer.effects layer = get args "effects" (VDict [])).
Proof.
  intros Hpure.
  destruct (execute_function_music_state host func_name args auto_execute m)
    as (Hms & _). unfold FoxDotSession.active_layers. rewrite Hms.
  destruct (String.eqb func_name "get_session_state"); [by left|].
  destruct (build_foxdot_code func_name args (session m)) as [code|e]; [|by left].
  destruct (code_truthy code); [|by left].
  by apply update_session_state_layer_origin.
Qed.

(** The session update of a call whose keys are there: it completes, or
    the evaluation of the notes has raised. *)
Lemma update_session_state_outcome func_name args code auto_execute m :
  (func_name = "set_tempo" -> is_Some (args !! "bpm")) ->
  (func_name = "set_scale" -> is_Some (args !! "scale")) ->
  (func_name = "set_root" -> is_Some (args !! "root")) ->
  (func_name = "stop_player" \/ func_name = "play_synth" \/ func_name = "play_drums" ->
   exists player, args !! "player" = Some (VStr player)) ->
  let run := update_session_state host func_name args code auto_execute m in
  is_ok (fst run) = true
  \/ exists source e,
       args !! "notes" = Some source /\
       fst (py_eval host
              {| frame_func_name := func_name; frame_args := args;
                 frame_code := code; frame_auto_execute := auto_execute |}
              source m) = Raise e /\
       fst run = Raise e.
Proof.
  intros Htempo Hscale Hroot Hplayer run. subst run. unfold update_session_state.
  destruct (String.eqb_spec func_name "set_tempo") as [Hname|_].
  { destruct (Htempo Hname) as (v & Hv). run_monad. unfold index. rewrite Hv. by left. }
  destruct (String.eqb_spec func_name "set_scale") as [Hname|_].
  { destruct (Hscale Hname) as (v & Hv). run_monad. unfold index. rewrite Hv. by left. }
  destruct (String.eqb_spec func_name "set_root") as [Hname|_].
  { destruct (Hroot Hname) as (v & Hv). run_monad. unfold index. rewrite Hv. by left. }
  destruct (String.eqb_spec func_name "stop_all") as [Hname|_]; [by left|].
  destruct (String.eqb_spec func_name "stop_player") as [Hname|_].
  { destruct (Hplayer (or_introl Hname)) as (player & Hv).
    run_monad. unfold index. rewrite Hv. by left. }
  destruct (String.eqb_spec func_name "play_synth") as [Hname|_];
    [|destruct (String.eqb_spec func_name "play_drums") as [Hname|_]; [|by left]].
  all: destruct (Hplayer ltac:(auto)) as (player & Hv);
    cbn [orb]; unfold evaluate_notes; run_monad; unfold index, now; rewrite Hv;
    cbn [frame_args];
    destruct (args !! "notes") as [source|]; [|by left];
    destruct (py_eval host _ source m) as [[raw|e] m1] eqn:Heval; [by left|];
    right; exists source, e; by rewrite Heval.
Qed.

(** A call whose code builds to a string and whose session update
    completes unless the evaluation of the notes raises: so does the
    call. *)
Lemma execute_function_outcome func_name args auto_execute m :
  (func_name <> "get_session_state" ->
   exists code,
     build_foxdot_code func_name args (session m) = Ok code /\ code_is_str code = true) ->
  (forall code,
      let run := update_session_state host func_name args code auto_execute m in
      is_ok (fst run) = true
      \/ exists source e,
           args !! "notes" = Some source /\
           fst (py_eval host
                  {| frame_func_name := func_name; frame_args := args;
                     frame_code := code; frame_auto_execute := auto_execute |}
                  source m) = Raise e /\
           fst run = Raise e) ->
  let run := execute_function host func_name args auto_execute m in
  is_ok (fst run) = true
  \/ exists source code e,
       args !! "notes" = Some source /\
       build_foxdot_code func_name args (session m) = Ok code /\
       fst (py_eval host
              {| frame_func_name := func_name; frame_args := args;
                 frame_code := code; frame_auto_execute := auto_execute |}
              source m) = Raise e /\
       fst run = Raise e.
Proof.
  intros Hbuild Hupdate run. subst run. rewrite execute_function_unfold.
  destruct (String.eqb_spec func_name "get_session_state") as [_|Hname]; [by left|].
  destruct (Hbuild Hname) as (code & Hcode & Hstr). rewrite Hcode.
  destruct (code_truthy code); [|by left].
  destruct (Hupdate code) as [Hok | (source & e & Hnotes & Heval & Hraise)].
  - destruct (update_session_state host func_name args code auto_execute m)
      as [[args'|e] m1]; [|discriminate].
    simpl. rewrite Hstr. destruct auto_execute; by left.
  - destruct (update_session_state host func_name args code auto_execute m)
      as [[args'|e'] m1]; [discriminate|].
    simpl in Hraise. injection Hraise as ->. right. by exists source, code, e.
Qed.

(** The code of a declared function whose arguments fit its declaration
    builds, to a string. *)
Lemma build_foxdot_code_fits declaration args (s : FoxDotSession.t) :
  In declaration ALL_FUNCTION_DECLARATIONS ->
  decl_name declaration <> "get_session_state" ->
  fits (decl_parameters declaration) args = true ->
  effects_are_mappings s ->
  exists code,
    build_foxdot_code (decl_name declaration) args s = Ok code /\
    code_is_str code = true.
Proof.
  intros Hin Hname Hfits Hsession.
  unfold ALL_FUNCTION_DECLARATIONS in Hin. simpl in Hin.
  repeat (destruct Hin as [<- | Hin]); try contradiction;
    unfold build_foxdot_code; simpl; unfold res_bind, index.
  - (* play_synth *)
    destruct (fits_required _ _ "player" Hfits ltac:(simpl; auto)) as (player & ->).
    destruct (fits_required _ _ "synth" Hfits ltac:(simpl; auto)) as (synth & ->).
    destruct (fits_string _ _ "notes" _ Hfits ltac:(simpl; auto)
                ltac:(simpl; eauto 10) eq_refl) as (notes & ->).
    destruct (fits_object _ _ "effects" _ Hfits ltac:(simpl; eauto 10) eq_refl)
      as (items & ->).
    simpl. eexists; split; reflexivity.
  - (* play_drums *)
    destruct (fits_required _ _ "player" Hfits ltac:(simpl; auto)) as (player & ->).
    destruct (fits_required _ _ "pattern" Hfits ltac:(simpl; auto)) as (pattern & ->).
    destruct (fits_object _ _ "effects" _ Hfits ltac:(simpl; eauto 10) eq_refl)
      as (items & ->).
    simpl. eexists; split; reflexivity.
  - destruct (fits_required _ _ "bpm" Hfits ltac:(simpl; auto)) as (v & ->).
    eexists; split; reflexivity.
  - destruct (fits_required _ _ "scale" Hfits ltac:(simpl; auto)) as (v & ->).
    eexists; split; reflexivity.
  - destruct (fits_required _ _ "root" Hfits ltac:(simpl; auto)) as (v & ->).
    eexists; split; reflexivity.
  - destruct (fits_required _ _ "player" Hfits ltac:(simpl; auto)) as (v & ->).
    eexists; split; reflexivity.
  - eexists; split; reflexivity.
  - (* modify_layer *)
    destruct (fits_string _ _ "player" _ Hfits ltac:(simpl; auto)
                ltac:(simpl; eauto 10) eq_refl) as (player & ->).
    simpl. unfold FoxDotSession.get_layer.
    destruct (FoxDotSession.active_layers s !! KStr player) as [layer|] eqn:Hlayer;
      [|eexists; split; reflexivity].
    destruct (Hsession _ _ Hlayer) as (old & ->).
    destruct (fits_object _ _ "effects" _ Hfits ltac:(simpl; eauto 10) eq_refl)
      as (items & ->).
    simpl. eexists; split; reflexivity.
  - (* execute_code *)
    destruct (fits_string _ _ "code" _ Hfits ltac:(simpl; auto)
                ltac:(simpl; eauto 10) eq_refl) as (code & ->).
    eexists; split; reflexivity.
Qed.

Lemma update_session_state_fits declaration args code auto_execute m :
  In declaration ALL_FUNCTION_DECLARATIONS ->
  fits (decl_parameters declaration) args = true ->
  let run := update_session_state host (decl_name declaration) args code
               auto_execute m in
  is_ok (fst run) = true
  \/ exists source e,
       args !! "notes" = Some source /\
       fst (py_eval host
              {| frame_func_name := decl_name declaration; frame_args := args;
                 frame_code := code; frame_auto_execute := auto_execute |}
              source m) = Raise e /\
       fst run = Raise e.
Proof.
  intros Hin Hfits. apply update_session_state_outcome.
  all: unfold ALL_FUNCTION_DECLARATIONS in Hin; simpl in Hin;
    repeat (destruct Hin as [<- | Hin]); try contradiction;
    simpl; try (intros H; discriminate H);
    try (intros [H | [H | H]]; discriminate H); intros _.
  - exact (fits_required _ _ "bpm" Hfits ltac:(simpl; auto)).
  - exact (fits_required _ _ "scale" Hfits ltac:(simpl; auto)).
  - exact (fits_required _ _ "root" Hfits ltac:(simpl; auto)).
  - exact (fits_string _ _ "player" _ Hfits ltac:(simpl; auto)
             ltac:(simpl; eauto 10) eq_refl).
  - exact (fits_string _ _ "player" _ Hfits ltac:(simpl; auto)
             ltac:(simpl; eauto 10) eq_refl).
  - exact (fits_string _ _ "player" _ Hfits ltac:(simpl; auto)
             ltac:(simpl; eauto 10) eq_refl).
Qed.

Lemma effects_fit declaration args :
  In declaration ALL_FUNCTION_DECLARATIONS ->
  fits (decl_parameters declaration) args = true ->
  decl_name declaration = "play_synth" \/ decl_name declaration = "play_drums" ->
  exists items, get args "effects" (VDict []) = VDict items.
Proof.
  intros Hin Hfits Hplay.
  unfold ALL_FUNCTION_DECLARATIONS in Hin. simpl in Hin.
  repeat (destruct Hin as [<- | Hin]); try contradiction;
    try (destruct Hplay as [H | H]; discriminate H).
  - exact (fits_object _ _ "effects" _ Hfits ltac:(simpl; eauto 10) eq_refl).
  - exact (fits_object _ _ "effects" _ Hfits ltac:(simpl; eauto 10) eq_refl).
Qed.
End FittingCalls.

(** X24.  When the evaluation of [notes] has no effect on the session,
    the executor and the arguments, a call of a declared function whose
    arguments fit the declaration (every required parameter given, every
    declared parameter of the declared JSON type), on a session whose
    layers hold dictionaries of effects, resolves without raising, with
    one exception: the evaluation of the [notes] argument may raise, and
    then the call raises that exception.  The session after the call again
    holds dictionaries of effects, so the property carries over to the
    next call. *)
Theorem fitting_call_raises_only_from_eval
    (host : Host) (name : string) (declaration : Declaration)
    (args : gmap string pyval) (auto_execute : bool) (m : Machine) :
  eval_without_effect host ->
  get_function_info name = Some declaration ->
  fits (decl_parameters declaration) args = true ->
  effects_are_mappings (session m) ->
  let run := execute_function host name args auto_execute m in
  (is_ok (fst run) = true
   \/ exists source code e,
        args !! "notes" = Some source /\
        build_foxdot_code name args (session m) = Ok code /\
        fst (py_eval host
               {| frame_func_name := name; frame_args := args;
                  frame_code := code; frame_auto_execute := auto_execute |}
               source m) = Raise e /\
        fst run = Raise e) /\
  effects_are_mappings (session (snd run)).
Proof.
  intros Hpure [Hin <-]%get_function_info_declared Hfits Hsession run. subst run.
  split.
  - apply execute_function_outcome.
    + intros Hname. by apply build_foxdot_code_fits.
    + intros code. by apply update_session_state_fits.
  - intros layer_name layer Hlayer.
    apply (execute_function_layer_origin host _ _ _ _ _ _ Hpure) in Hlayer
      as [Hbefore | (Hplay & Heffects)].
    + by eapply Hsession.
    + rewrite Heffects. by apply (effects_fit declaration).
Qed.

Lemma fitting_call_raises_only_from_eval_witness :
  let args := Fixtures.args_of [("player", VStr "p1"); ("synth", VStr "pluck");
                                ("notes", VStr "[0, 2, 4]");
                                ("description", VStr "arpeggio");
                                ("amp", VFloat (decimal 5 10))] in
  let run := execute_function Fixtures.online "play_synth" args true
               Fixtures.fresh_machine in
  fits (decl_parameters PLAY_SYNTH_FUNCTION) args = true /\
  is_ok (fst run) = true /\
  effects_are_mappings (session (snd run)).
Proof.
  intros args run. split; [vm_compute; reflexivity|].
  assert (Hfresh : effects_are_mappings (session Fixtures.fresh_machine)).
  { intros name layer Hlayer. vm_compute in Hlayer. discriminate Hlayer. }
  assert (Hpure : eval_without_effect Fixtures.online).
  { intros frame source m. simpl. unfold Fixtures.eval_triad.
    destruct (py_eq_str source "[0, 2, 4]"); simpl;
      (split; [reflexivity|]); [by intros ? [= <-] | discriminate]. }
  destruct (fitting_call_raises_only_from_eval Fixtures.online "play_synth"
              PLAY_SYNTH_FUNCTION args true Fixtures.fresh_machine
              Hpure eq_refl eq_refl Hfresh) as (_ & Hsession).
  split; [vm_compute; reflexivity | exact Hsession].
Defined.

(** X25.  Every name that [get_next_player] hands out is a name the
    declarations accept for the [player] parameter: of [play_drums] for
    the types drums and percussion, of [play_synth] for every other
    type. *)
Theorem next_player_is_a_declared_player
    (player_type : string) (s : FoxDotSession.t) :
  let declaration :=
    if String.eqb player_type "drums" || String.eqb player_type "percussion"
    then PLAY_DRUMS_FUNCTION else PLAY_SYNTH_FUNCTION in
  exists player,
    FoxDotSession.get_next_player player_type s = Ok player /\
    player ∈ declared_players declaration.
Proof.
  intros declaration. subst declaration.
  assert (Hplayers : Forall (fun player =>
                       player ∈ declared_players
                                  (if String.eqb player_type "drums"
                                      || String.eqb player_type "percussion"
                                   then PLAY_DRUMS_FUNCTION else PLAY_SYNTH_FUNCTION))
                       (FoxDotSession.players_for player_type)).
  { unfold FoxDotSession.players_for.
    destruct (_ || _); [vm_compute; repeat constructor|].
    destruct (String.eqb player_type "bass"); [vm_compute; repeat constructor|].
    destruct (String.eqb player_type "pad"); vm_compute; repeat constructor. }
  rewrite Forall_forall in Hplayers.
  destruct (get_next_player_cases player_type s)
    as [(player & earlier & later & Hget & Heq & _)
       | (first & rest & Hget & Heq & _)].
  - exists player. split; [exact Hget|]. apply Hplayers. rewrite Heq.
    apply elem_of_app. right. constructor.
  - exists first. split; [exact Hget|]. apply Hplayers. rewrite Heq. constructor.
Qed.

(** X26.  [stop_all_music] does to the executor and to the layers what the
    call [stop_all] does with automatic execution enabled: the same code is
    executed and the session is left without layers, also when the runtime
    reports a failure.  Unlike the call, it records nothing in
    [code_history], and it hands the executor its own explanation. *)
Theorem stop_all_music_is_an_unrecorded_stop_all
    (host : Host) (args : gmap string pyval) (w : World) :
  let run := StreamingFoxDotAgent.stop_all_music host w in
  let call := execute_function host "stop_all" args true (machine w) in
  let asked := fun m : Machine => last (FoxDotExecutor.calls (executor m)) in
  inv_code <$> asked (machine (snd run)) = Some (Built [Lit "Clock.clear()"]) /\
  inv_code <$> asked (snd call) = Some (Built [Lit "Clock.clear()"]) /\
  fst run = Ok (runtime host (FoxDotExecutor.calls (executor (machine (snd run))))) /\
  FoxDotSession.active_layers (session (machine (snd run))) = ∅ /\
  FoxDotSession.music_state (session (machine (snd run)))
    = FoxDotSession.music_state (session (snd call)) /\
  FoxDotSession.code_history (session (machine (snd run)))
    = FoxDotSession.code_history (session (machine w)) /\
  length (FoxDotSession.code_history (session (snd call)))
    = S (length (FoxDotSession.code_history (session (machine w)))) /\
  inv_explanation <$> asked (machine (snd run)) = Some (VStr "Stop all music") /\
  inv_explanation <$> asked (snd call) = Some (get args "description" VNone).
Proof.
  intros run call asked. subst run call asked.
  unfold StreamingFoxDotAgent.stop_all_music, executor_stop_all, on_machine.
  rewrite execute_function_unfold.
  unfold executor_execute, after_execution, history_with, update_session_state.
  run_monad. simpl. rewrite !last_snoc, length_app. simpl.
  split_and!; try reflexivity. lia.
Qed.

(* ===================================================================== *)
(** * The scenarios of the specification, run *)
(* ===================================================================== *)

(** Set the tempo, start a drum layer, stop everything. *)
Example tempo_drums_stop_all :
  let m0 := Fixtures.fresh_machine in
  let m1 := snd (execute_function Fixtures.online "set_tempo"
                   (Fixtures.args_of [("bpm", VInt 140)]) true m0) in
  let m2 := snd (execute_function Fixtures.online "play_drums"
                   (Fixtures.args_of [("player", VStr "d1"); ("pattern", VStr "x-o-");
                                      ("description", VStr "beat")]) true m1) in
  let run := execute_function Fixtures.online "stop_all" ∅ true m2 in
  MusicState.bpm (FoxDotSession.music_state (session m0)) = VInt 120 /\
  MusicState.bpm (FoxDotSession.music_state (session m1)) = VInt 140 /\
  Layer.state <$> FoxDotSession.get_layer (KStr "d1") (session m2) = Some PLAYING /\
  (result_code <$> returned (fst run)) = Some (Some (Built [Lit "Clock.clear()"])) /\
  FoxDotSession.active_layers (session (snd run)) = ∅.
Proof. vm_compute. repeat split. Qed.

(** Twelve turns, five kept. *)
Example twelve_turns_five_kept :
  let cm := ContextManager.consolidate "summary" Fixtures.busy_manager in
  ContextManager.needs_consolidation Fixtures.busy_manager = Ok true /\
  map ConversationTurn.content (ContextManager.turns cm) = ["8"; "9"; "10"; "11"; "12"] /\
  ContextManager.consolidated_summary cm = Some "summary" /\
  ContextManager.total_tokens cm = 50001%Z /\
  ContextManager.needs_consolidation cm = Ok false.
Proof. vm_compute. repeat split. Qed.

(** A stream that raises in the middle of the reasoning: the reasoning
    events, one [ERROR], and nothing recorded. *)
Example stream_raises_mid_reasoning :
  let run := StreamingFoxDotAgent.chat_stream Fixtures.offline true "hello" (Ok None)
               Fixtures.interrupted_stream Fixtures.broken_stream Fixtures.fresh_world in
  fst run = Ok tt /\
  map StreamEvent.type (emitted (snd run)) = [THINKING_START; THINKING_CHUNK; ERROR] /\
  ContextManager.turns (context_manager (snd run)) = [].
Proof. vm_compute. repeat split. Qed.

(** A summarisation request that raises is outside the [try] block: the
    exception leaves the generator, after the event that announces the
    consolidation and without an [ERROR] event. *)
Example summary_request_raises :
  let w := {| machine := Fixtures.fresh_machine;
              context_manager := Fixtures.crowded_manager;
              contents := []; emitted := [] |} in
  let run := StreamingFoxDotAgent.chat_stream Fixtures.offline true "hello"
               (Raise (Exception "ServerError" "503"))
               Fixtures.broken_stream Fixtures.broken_stream w in
  fst run = Raise (Exception "ServerError" "503") /\
  map StreamEvent.type (emitted (snd run)) = [THINKING_START].
Proof. vm_compute. repeat split. Qed.

(** A code that is not a string, generated with automatic execution
    disabled: the join of the generated codes raises once the turn is
    recorded, and the turn ends with [ERROR] instead of [DONE]. *)
Example code_that_is_not_a_string :
  let stream :=
    {| chunks := [[Fixtures.call_part "execute_code"
                     (Fixtures.args_of [("code", VInt 5); ("description", VStr "five")])]];
       failure := None |} in
  let run := StreamingFoxDotAgent.chat_stream Fixtures.offline false "run it" (Ok None)
               stream {| chunks := []; failure := None |} Fixtures.fresh_world in
  map StreamEvent.type (emitted (snd run))
    = [FUNCTION_CALL_START; FUNCTION_CALL; FUNCTION_RESULT; FUNCTION_CALL_END; ERROR] /\
  length (ContextManager.turns (context_manager (snd run))) = 1%nat.
Proof. vm_compute. repeat split. Qed.

(** The guard against an empty summary is [chat_stream]'s: [consolidate]
    called on its own with an empty text does truncate and does replace the
    summary. *)
Example consolidate_on_empty_text :
  let cm := ContextManager.consolidate "" Fixtures.busy_manager in
  length (ContextManager.turns cm) = 5%nat /\
  ContextManager.consolidated_summary cm = Some "".
Proof. vm_compute. repeat split. Qed.

(** A player that is not a string is a key like any other: the drum layer
    started on the player [1] is found, and stopped, under [1.0], which is
    the same key; and a list is no key at all. *)
Example player_that_is_a_number :
  let m1 := snd (execute_function Fixtures.offline "play_drums"
                   (Fixtures.args_of [("player", VInt 1); ("pattern", VStr "x-o-")])
                   false Fixtures.fresh_machine) in
  let stop := execute_function Fixtures.offline "stop_player"
                (Fixtures.args_of [("player", VFloat (float_of_Z 1))]) false m1 in
  let unhashable := execute_function Fixtures.offline "stop_player"
                      (Fixtures.args_of [("player", VList [])]) false m1 in
  size (FoxDotSession.active_layers (session m1)) = 1%nat /\
  status <$> returned (fst stop) = Some "code_generated" /\
  FoxDotSession.active_layers (session (snd stop)) = ∅ /\
  fst unhashable = Raise (TypeError "unhashable type").
Proof. vm_compute. repeat split. Qed.
